(** * ros2_batch_job: the batch pipeline and the packaging stage

    A shallow embedding of [ros2_batch_job/__main__.py] and
    [ros2_batch_job/packaging.py].  The Python code is a straight sequence of
    calls with side effects (log lines, environment variables, the working
    directory, files, external commands); it is written here in a small
    state-and-exit monad over a process state, and every effect the code
    performs is recorded in a trace so that orderings can be stated. *)

From Stdlib Require Import ZArith String Ascii List Lia Bool.
From stdpp Require Import base option list strings pretty gmap.

Open Scope string_scope.
Open Scope list_scope.

(** ** Python strings *)

Module PyStr.

(** The double quote, as the formats ['"%s"' % x] of the source need it. *)
Definition dq : string := String (ascii_of_nat 34) EmptyString.

(** ['"%s"' % s] *)
Definition quoted (s : string) : string := dq +:+ s +:+ dq.

(** [str.lower] on one ASCII character. *)
Definition lower_ascii (c : ascii) : ascii :=
  let n := nat_of_ascii c in
  if (65 <=? n)%nat && (n <=? 90)%nat then ascii_of_nat (n + 32) else c.

(** [str.lower] *)
Fixpoint lower (s : string) : string :=
  match s with
  | EmptyString => EmptyString
  | String c s' => String (lower_ascii c) (lower s')
  end.

(** [s.startswith(p)] *)
Definition startswith (s p : string) : bool := String.prefix p s.

(** [sub in s] on strings *)
Fixpoint contains (sub s : string) : bool :=
  String.prefix sub s ||
  match s with
  | EmptyString => false
  | String _ s' => contains sub s'
  end.

(** [x in l] for a list of strings *)
Definition mem (x : string) (l : list string) : bool := bool_decide (x ∈ l).

(** [sep.join(l)] *)
Definition join (sep : string) (l : list string) : string := String.concat sep l.

(** [str(x)] of the values the argument namespace holds. *)
Definition str_bool (b : bool) : string := if b then "True" else "False".
Definition str_opt (o : option string) : string := default "None" o.
Definition repr_str (s : string) : string := "'" +:+ s +:+ "'".
Definition str_list (l : list string) : string :=
  "[" +:+ join ", " (map repr_str l) +:+ "]".

End PyStr.

(** ** The argument namespace of [__main__.main] *)

(** What [parser.parse_args] returns: one field per [add_argument], with the
    defaults of the source ([None] for [--test-branch], [--white-space-in]
    and [--os]; [False] for the three flags). *)
Record Namespace := mkNamespace {
  repo_file_url : string;
  test_branch : option string;
  white_space_in : option (list string);
  do_venv : bool;
  os : option string;
  connext : bool;
  force_ansi_color : bool
}.

(** The [choices] of [--os] and of [--white-space-in]: argparse lets nothing
    else through. *)
Definition os_choices : list string := ["linux"; "osx"; "windows"].
Definition white_space_choices : list string :=
  ["sourcespace"; "buildspace"; "installspace"; "workspace"].

(** [args.white_space_in = args.white_space_in or []] *)
Definition white_space_in_or_nil (args : Namespace) : list string :=
  match white_space_in args with
  | None => []
  | Some l => l   (* an empty list is falsy and is replaced by [[]], itself *)
  end.

(** Lines 85-88. *)
Definition workspace (args : Namespace) : string :=
  if PyStr.mem "workspace" (white_space_in_or_nil args) then "work space" else "workspace".
Definition sourcespace (args : Namespace) : string :=
  if PyStr.mem "sourcespace" (white_space_in_or_nil args) then "source space" else "src".
Definition buildspace (args : Namespace) : string :=
  if PyStr.mem "buildspace" (white_space_in_or_nil args) then "build space" else "build".
Definition installspace (args : Namespace) : string :=
  if PyStr.mem "installspace" (white_space_in_or_nil args) then "install space" else "install".

(** The subset of names the option selects: the list given, or nothing
    when the option is absent. *)
Definition selects (args : Namespace) (sel : list string) : Prop :=
  white_space_in args = Some sel ∨ (white_space_in args = None ∧ sel = []).

(** ** Selection of the platform job (lines 90-102) *)

Inductive BatchJob := LinuxBatchJob | OSXBatchJob | WindowsBatchJob.

Global Instance BatchJob_eq_dec : EqDecision BatchJob.
Proof. solve_decision. Defined.

(** The three-way [if / elif / elif] on [args.os] and
    [platform.platform().lower()].  It yields the new value of [args.os] and
    the job; when no branch is taken [args.os] is left as it was and [job]
    stays [None]. *)
Definition select_job (arg_os : option string) (platform_platform : string)
  : option string * option BatchJob :=
  let platform_name := PyStr.lower platform_platform in
  if bool_decide (arg_os = Some "linux") || PyStr.startswith platform_name "linux" then
    (Some "linux", Some LinuxBatchJob)
  else if bool_decide (arg_os = Some "osx") || PyStr.startswith platform_name "darwin" then
    (Some "osx", Some OSXBatchJob)
  else if bool_decide (arg_os = Some "windows") || PyStr.startswith platform_name "windows" then
    (Some "windows", Some WindowsBatchJob)
  else (arg_os, None).

(** The job a flag names. *)
Definition job_named (o : string) : option BatchJob :=
  if bool_decide (o = "linux") then Some LinuxBatchJob
  else if bool_decide (o = "osx") then Some OSXBatchJob
  else if bool_decide (o = "windows") then Some WindowsBatchJob
  else None.

(** ** Files *)

(** The part of the file system a run can see: a tree of named entries.  A
    path is the list of its components ([os.path.join] appends components);
    a directory keeps its entries in listing order. *)
Module FS.

Local Set Warnings "-register-all".

Inductive node :=
| File (content : string)
| Dir (entries : list (string * node)).

Definition path := list string.

Fixpoint assoc (n : string) (es : list (string * node)) : option node :=
  match es with
  | [] => None
  | (m, c) :: es' => if bool_decide (m = n) then Some c else assoc n es'
  end.

(** Replace the entry called [n], or add it at the end of the listing. *)
Fixpoint put (n : string) (c : node) (es : list (string * node)) : list (string * node) :=
  match es with
  | [] => [(n, c)]
  | (m, d) :: es' => if bool_decide (m = n) then (n, c) :: es' else (m, d) :: put n c es'
  end.

Fixpoint drop (n : string) (es : list (string * node)) : list (string * node) :=
  match es with
  | [] => []
  | (m, d) :: es' => if bool_decide (m = n) then drop n es' else (m, d) :: drop n es'
  end.

Fixpoint lookup (p : path) (t : node) : option node :=
  match p with
  | [] => Some t
  | n :: p' =>
      match t with
      | File _ => None
      | Dir es => c ← assoc n es; lookup p' c
      end
  end.

(** [os.path.exists] *)
Definition exists_ (p : path) (t : node) : bool := bool_decide (is_Some (lookup p t)).

(** Put [c] at [p]; the parent of [p] has to be a directory that is there. *)
Fixpoint write (p : path) (c : node) (t : node) : option node :=
  match p with
  | [] => Some c
  | n :: p' =>
      match t with
      | File _ => None
      | Dir es =>
          match p' with
          | [] => Some (Dir (put n c es))
          | _ => d ← assoc n es; d' ← write p' c d; Some (Dir (put n d' es))
          end
      end
  end.

(** Take the entry at [p] away; [None] when there is none. *)
Fixpoint remove (p : path) (t : node) : option node :=
  match p with
  | [] => None
  | n :: p' =>
      match t with
      | File _ => None
      | Dir es =>
          match p' with
          | [] => _ ← assoc n es; Some (Dir (drop n es))
          | _ => d ← assoc n es; d' ← remove p' d; Some (Dir (put n d' es))
          end
      end
  end.

(** [os.makedirs]: every missing directory on the way is created; a file
    on the way, or a leaf that is already there, is an error. *)
Fixpoint makedirs (p : path) (t : node) : option node :=
  match p with
  | [] => None
  | n :: p' =>
      match t with
      | File _ => None
      | Dir es =>
          match assoc n es, p' with
          | None, [] => Some (Dir (put n (Dir []) es))
          | None, _ => d' ← makedirs p' (Dir []); Some (Dir (put n d' es))
          | Some d, _ => d' ← makedirs p' d; Some (Dir (put n d' es))
          end
      end
  end.

(** [os.listdir] *)
Definition listdir (p : path) (t : node) : option (list string) :=
  match lookup p t with
  | Some (Dir es) => Some (map fst es)
  | _ => None
  end.

Definition is_file (c : node) : bool := match c with File _ => true | Dir _ => false end.

End FS.

(** ** The process: state, effects, exits *)

(** The hooks every platform job offers to the pipeline. *)
Inductive hook := Pre | ShowEnv | SetupEnv.

(** One member of an archive: its name inside the archive, as components,
    and whether it is a directory. *)
Definition member : Type := FS.path * bool.

(** What a run does to the world outside, in the order it does it. *)
Inductive event :=
| Log (line : string)                      (* info, log, warn and print *)
| ForceColor                               (* util.force_color() *)
| NewJob (j : BatchJob)                    (* the constructor of the platform job *)
| SetEnv (name value : string)             (* os.environ[name] = value *)
| CleanWorkspace (p : string)              (* util.clean_workspace *)
| CallHook (h : hook)                      (* job.pre(), job.show_env(), job.setup_env() *)
| Run (argv : list string) (shell exit_on_error : bool) (code : Z)
| Chdir (p : FS.path)                      (* os.chdir *)
| PushRun (prefix : list string)           (* job.push_run *)
| PushPython (python : string)             (* job.push_python *)
| Makedirs (p : FS.path)
| Touch (p : FS.path)                      (* with open(p, 'w'): pass *)
| Remove (p : FS.path)                     (* os.remove *)
| Copy (src dst : FS.path)                 (* shutil.copy *)
| SetTrace                                 (* remote_pdb.set_trace() *)
| WriteArchive (name : string) (members : list member).

(** The argument of [sys.exit]: an integer status, or a message, which
    Python prints and turns into status 1. *)
Inductive exit_arg := ExitCode (c : Z) | ExitMsg (m : string).

Definition exit_status (a : exit_arg) : Z :=
  match a with ExitCode c => c | ExitMsg _ => 1%Z end.

(** How a piece of the program ends: it yields a value, the process exits
    ([SystemExit]), or another exception propagates. *)
Inductive result (A : Type) :=
| Ok (a : A)
| SysExit (a : exit_arg)
| Raised (exn : string).
Arguments Ok {A} a.
Arguments SysExit {A} a.
Arguments Raised {A} exn.

Record proc := mkProc {
  cwd : FS.path;                   (* os.getcwd() *)
  environ : gmap string string;    (* os.environ *)
  root : FS.node;                  (* the files *)
  job_run_prefix : list string;    (* what job.run puts before a command *)
  job_python : string;             (* job.python *)
  ncalls : nat;                    (* external calls made so far *)
  trace : list event               (* newest first *)
}.

Definition emit (e : event) (st : proc) : proc :=
  mkProc (cwd st) (environ st) (root st) (job_run_prefix st) (job_python st)
         (ncalls st) (e :: trace st).
Definition set_cwd (p : FS.path) (st : proc) : proc :=
  mkProc p (environ st) (root st) (job_run_prefix st) (job_python st)
         (ncalls st) (trace st).
Definition set_environ (m : gmap string string) (st : proc) : proc :=
  mkProc (cwd st) m (root st) (job_run_prefix st) (job_python st)
         (ncalls st) (trace st).
Definition set_root (t : FS.node) (st : proc) : proc :=
  mkProc (cwd st) (environ st) t (job_run_prefix st) (job_python st)
         (ncalls st) (trace st).
Definition set_job_run_prefix (l : list string) (st : proc) : proc :=
  mkProc (cwd st) (environ st) (root st) l (job_python st) (ncalls st) (trace st).
Definition set_job_python (s : string) (st : proc) : proc :=
  mkProc (cwd st) (environ st) (root st) (job_run_prefix st) s (ncalls st) (trace st).
Definition tick (st : proc) : proc :=
  mkProc (cwd st) (environ st) (root st) (job_run_prefix st) (job_python st)
         (S (ncalls st)) (trace st).

(** The events in the order they happened. *)
Definition history (st : proc) : list event := reverse (trace st).

(** The monad of the program text. *)
Definition M (A : Type) : Type := proc → result A * proc.

Definition ret {A} (a : A) : M A := fun st => (Ok a, st).

Definition bind {A B} (m : M A) (k : A → M B) : M B := fun st =>
  match m st with
  | (Ok a, st') => k a st'
  | (SysExit c, st') => (SysExit c, st')
  | (Raised e, st') => (Raised e, st')
  end.

Declare Scope py_scope.
Delimit Scope py_scope with py.
Notation "x ←← m ; k" := (bind m (fun x => k))
  (at level 100, m at next level, right associativity) : py_scope.
Notation "m ;; k" := (bind m (fun _ => k))
  (at level 100, right associativity) : py_scope.
Open Scope py_scope.

Definition do (e : event) : M unit := fun st => (Ok tt, emit e st).
Definition sys_exit {A} (a : exit_arg) : M A := fun st => (SysExit a, st).
Definition raise {A} (exn : string) : M A := fun st => (Raised exn, st).
Definition get {A} (f : proc → A) : M A := fun st => (Ok (f st), st).
Definition modify (f : proc → proc) : M unit := fun st => (Ok tt, f st).
Definition when (b : bool) (m : M unit) : M unit := if b then m else ret tt.

(** [for x in l: body x] *)
Fixpoint for_each {A} (l : list A) (body : A → M unit) : M unit :=
  match l with
  | [] => ret tt
  | x :: l' => body x;; for_each l' body
  end.

(** ** The world a run meets *)

(** Everything the program reads from outside and cannot decide itself.
    [external n t] is what the [n]-th external call of the run (a command,
    or a hook of the platform job, which runs commands) answers when the
    files are [t]: its exit code and the files it leaves. *)
Record world := mkWorld {
  platform_platform : string;          (* platform.platform() *)
  sys_executable : string;             (* sys.executable *)
  os_sep : string;                     (* os.sep *)
  external : nat → FS.node → Z * FS.node;
  generated_venv_vars : string → list string * string
    (* util.generated_venv_vars: the activation prefix and the interpreter *)
}.

Section Pipeline.

Variable w : world.

(** [os.path.join] of relative components, as the text a command gets. *)
Definition path_str (p : FS.path) : string := PyStr.join (os_sep w) p.

(** [os.path.abspath] of a path below the root (no drive letter). *)
Definition abspath (p : FS.path) : string := os_sep w +:+ path_str p.

(** A path of the program, resolved against the working directory. *)
Definition resolve (p : FS.path) : M FS.path := get (fun st => cwd st ++ p).

Definition external_call : M Z := fun st =>
  let '(code, t) := external w (ncalls st) (root st) in
  (Ok code, tick (set_root t st)).

(** Modelled from the spec: [job.run] is a method of the platform job
    classes, which are not among the sources.  Section 4.1: the run prefix
    is put before the tokens; with exit-on-error (the default) a non-zero
    exit code ends the whole process at once with that code; without it
    the code is handed back to the caller.  With [job = None] the
    attribute lookup itself fails. *)
Definition job_run (job : option BatchJob) (cmd : list string)
    (shell exit_on_error : bool) : M Z :=
  match job with
  | None => raise "AttributeError"
  | Some _ =>
      prefix ←← get job_run_prefix;
      code ←← external_call;
      do (Run (prefix ++ cmd) shell exit_on_error code);;
      if exit_on_error && negb (code =? 0)%Z
      then sys_exit (ExitCode code)
      else ret code
  end.

(** Modelled from the spec: the hooks [pre], [show_env] and [setup_env] of
    the platform job classes, which are not among the sources.  Section
    4.3: a hook performs its diagnostics or preparation through the
    command runner, so it either comes back or ends the process with the
    code of a command that failed. *)
Definition job_hook (job : option BatchJob) (h : hook) : M unit :=
  match job with
  | None => raise "AttributeError"
  | Some _ =>
      do (CallHook h);;
      code ←← external_call;
      if negb (code =? 0)%Z then sys_exit (ExitCode code) else ret tt
  end.

(** Modelled from the spec: [util.clean_workspace], which is not among the
    sources.  Section 4.4, stage 2: the workspace root is cleared and
    created again; what was in it is gone. *)
Definition clean_workspace (ws : string) : M unit :=
  do (CleanWorkspace ws);;
  p ←← resolve [ws];
  t ←← get root;
  let cleared := if FS.exists_ p t then FS.remove p t else Some t in
  match cleared ≫= FS.makedirs p with
  | Some t' => modify (set_root t')
  | None => raise "OSError"
  end.

(** Modelled from the spec: [util.change_directory], which is not among
    the sources.  Section 4.2, [withDirectory]: the current directory is
    changed, the body runs, and the directory that was current before is
    restored on every way out of the body: a value, an exit of the
    process, or an exception on its way up. *)
Definition change_directory {A} (p : FS.path) (body : M A) : M A := fun st =>
  let prior := cwd st in
  let target := prior ++ p in
  let '(r, st') := body (emit (Chdir target) (set_cwd target st)) in
  (r, emit (Chdir prior) (set_cwd prior st')).

(** [with open(p, 'r') as f: print(f.read())] *)
Definition print_file (p : FS.path) : M unit :=
  q ←← resolve p;
  t ←← get root;
  match FS.lookup q t with
  | Some (FS.File content) => do (Log content)
  | _ => raise "OSError"
  end.

(** [if not os.path.exists(p): os.makedirs(p)] *)
Definition ensure_dir (p : FS.path) : M unit :=
  q ←← resolve p;
  t ←← get root;
  if FS.exists_ q t then ret tt
  else match FS.makedirs q t with
       | Some t' => do (Makedirs q);; modify (set_root t')
       | None => raise "OSError"
       end.

(** [os.environ[name] = value] *)
Definition setenv (name value : string) : M unit :=
  do (SetEnv name value);;
  modify (fun st => set_environ (<[name := value]> (environ st)) st).

(** ** [__main__.main] *)

Definition pip_dependencies : list string :=
  ["nose"; "pep8"; "pyflakes"; "flake8"; "mock"; "coverage"; "EmPy"; "vcstool"].

(** [vars(args)] with every value as [str] prints it. *)
Definition vars (args : Namespace) : list (string * string) :=
  [("repo_file_url", repo_file_url args);
   ("test_branch", PyStr.str_opt (test_branch args));
   ("white_space_in", default "None" (PyStr.str_list <$> white_space_in args));
   ("do_venv", PyStr.str_bool (do_venv args));
   ("os", PyStr.str_opt (os args));
   ("connext", PyStr.str_bool (connext args));
   ("force_ansi_color", PyStr.str_bool (force_ansi_color args))].

(** The path of the build tool, quoted (lines 169-171). *)
Definition ament_py (args : Namespace) : string :=
  PyStr.quoted (path_str ["."; sourcespace args; "ament"; "ament_tools"; "scripts"; "ament.py"]).

Definition build_cmd (args : Namespace) (python : string) : list string :=
  [python; "-u"; ament_py args; "build"; "--build-tests";
   "--build-space"; PyStr.quoted (buildspace args);
   "--install-space"; PyStr.quoted (installspace args);
   PyStr.quoted (sourcespace args)].

Definition test_cmd (args : Namespace) (python : string) : list string :=
  [python; "-u"; ament_py args; "test";
   "--build-space"; PyStr.quoted (buildspace args);
   "--install-space"; PyStr.quoted (installspace args);
   "--skip-build"; "--skip-install";
   PyStr.quoted (sourcespace args)].

Definition test_results_cmd (args : Namespace) (python : string) : list string :=
  [python; "-u"; ament_py args; "test_results"; PyStr.quoted (buildspace args)].

Definition curl_cmd (args : Namespace) : list string :=
  ["curl"; "-sk"; repo_file_url args; "-o"; "ros2.repos"].

Definition vcs_import_cmd (args : Namespace) : list string :=
  ["vcs"; "import"; PyStr.quoted (sourcespace args); "--input"; "ros2.repos"].

(** Lines 172-202: build, test, collect the results, [return 0]. *)
Definition build_and_test (args : Namespace) (job : option BatchJob) : M Z :=
  python ←← get job_python;
  ret_build ←← job_run job (build_cmd args python) false false;
  when (negb (ret_build =? 0)%Z)
       (do (Log "Starting remote Python debugger...");; do SetTrace);;
  python ←← get job_python;
  ret_test ←← job_run job (test_cmd args python) false false;
  do (Log ("ament.py test returned: '" +:+ pretty ret_test +:+ "'"));;
  python ←← get job_python;
  ret_test_results ←← job_run job (test_results_cmd args python) false false;
  do (Log ("ament.py test_results returned: '" +:+ pretty ret_test_results +:+ "'"));;
  ret 0%Z.

(** Lines 130-137: enter a virtual environment when asked to. *)
Definition enter_venv (job : option BatchJob) : M unit :=
  job_run job [sys_executable w; "-m"; "virtualenv"; "-p"; sys_executable w; "venv"]
          false true;;
  here ←← get cwd;
  let venv_path := abspath (here ++ ["venv"]) in
  let '(venv, venv_python) := generated_venv_vars w venv_path in
  do (PushRun venv);; modify (set_job_run_prefix venv);;
  do (PushPython venv_python);; modify (set_job_python venv_python);;
  job_hook job ShowEnv.

(** Lines 138-146: update setuptools, print the versions, install the pip
    dependencies. *)
Definition install_pip_dependencies (job : option BatchJob) : M unit :=
  python ←← get job_python;
  job_run job [python; "-m"; "pip"; "install"; "-U"; "pip"; "setuptools"] false true;;
  python ←← get job_python;
  job_run job [python; "-c"; PyStr.quoted "import setuptools; print(setuptools.__version__)"]
          true true;;
  python ←← get job_python;
  job_run job [python; "-m"; "pip"; "--version"] false true;;
  python ←← get job_python;
  job_run job ([python; "-m"; "pip"; "install"; "-U"] ++ pip_dependencies) false true;;
  ret tt.

(** Lines 147-152: get the repositories file and show its contents. *)
Definition get_repositories (args : Namespace) (job : option BatchJob) : M unit :=
  job_run job (curl_cmd args) false true;;
  do (Log "@{bf}==>@| Contents of `ros2.repos`:");;
  print_file ["ros2.repos"].

(** Lines 153-156: fetch the repositories with vcstool. *)
Definition vcs_import (args : Namespace) (job : option BatchJob) : M unit :=
  ensure_dir [sourcespace args];;
  job_run job (vcs_import_cmd args) true true;;
  ret tt.

(** Lines 157-164: try to switch every repository to the test branch. *)
Definition switch_branch (args : Namespace) (job : option BatchJob) : M unit :=
  match test_branch args with
  | Some branch =>
      do (Log ("Attempting to switch all repositories to the '" +:+ branch +:+ "' branch"));;
      let vcs_custom_cmd := ["vcs"; "custom"; "."; "--args"; "checkout"; branch] in
      ret_ ←← job_run job vcs_custom_cmd false false;
      do (Log ("'" +:+ PyStr.join " " vcs_custom_cmd +:+ "' returned exit code '"
               +:+ pretty ret_ +:+ "'"));;
      do (Log "")
  | None => ret tt
  end.

(** Lines 130-202: the body of [with change_directory(args.workspace)]. *)
Definition in_workspace (args : Namespace) (job : option BatchJob) : M Z :=
  when (do_venv args) (enter_venv job);;
  install_pip_dependencies job;;
  get_repositories args job;;
  vcs_import args job;;
  switch_branch args job;;
  job_run job ["vcs"; "log"; "-l1"; "src"] false true;;
  job_hook job SetupEnv;;
  build_and_test args job.

(** Lines 104-105. *)
Definition venv_exit_message : string := "--do-venv is not supported on windows".

(** Lines 73-202. *)
Definition main (args : Namespace) : M Z :=
  when (force_ansi_color args) (do ForceColor);;
  do (Log "run_ros2_batch called with args:");;
  for_each (vars args) (fun kv => do (Log ("  - " +:+ kv.1 +:+ "=" +:+ kv.2)));;
  let '(args_os, job) := select_job (os args) (platform_platform w) in
  match job with Some j => do (NewJob j) | None => ret tt end;;
  (if do_venv args && bool_decide (args_os = Some "windows")
   then sys_exit (ExitMsg venv_exit_message) else ret tt);;
  env ←← get environ;
  setenv "TERM" (default "xterm-256color" (env !! "TERM"));;
  when (bool_decide (args_os = Some "windows")) (setenv "ConEmuANSI" "ON");;
  do (Log ("Using workspace: @!" +:+ workspace args));;
  clean_workspace (workspace args);;
  job_hook job Pre;;
  job_hook job ShowEnv;;
  when (negb (bool_decide (args_os = Some "linux")))
       (job_run job [sys_executable w; "-m"; "pip"; "install"; "-U"; "virtualenv"]
                false true;; ret tt);;
  change_directory [workspace args] (in_workspace args job).

End Pipeline.

(** The process as it is when [main] is entered: nothing has happened yet,
    [job.run] has no prefix and [job.python] is the interpreter of the host
    (section 3 of the specification). *)
Definition start (w : world) (dir : FS.path) (env : gmap string string) (t : FS.node) : proc :=
  mkProc dir env t [] (sys_executable w) 0 [].

(** ** [packaging.py] *)

Module Packaging.

(** *** The imports at the head of the module (lines 15-23) *)

(** What a name of a module is bound to. *)
Inductive pyobject :=
| PyModule (name : string)
| PyFunction (name : string)
| PyClass (name : string)
| PyList (items : list string).

(** The global names of [ros2_batch_job/__main__.py] once its top level
    has run: its imports (lines 15-18 and 23-29), [pip_dependencies]
    (line 35) and [main] (line 47).  There is no other [def], [class] or
    assignment to a global name in the file. *)
Definition main_globals : list (string * pyobject) :=
  [("argparse", PyModule "argparse");
   ("os", PyModule "os");
   ("platform", PyModule "platform");
   ("sys", PyModule "sys");
   ("change_directory", PyFunction "change_directory");
   ("clean_workspace", PyFunction "clean_workspace");
   ("force_color", PyFunction "force_color");
   ("generated_venv_vars", PyFunction "generated_venv_vars");
   ("info", PyFunction "info");
   ("log", PyFunction "log");
   ("UnbufferedIO", PyClass "UnbufferedIO");
   ("pip_dependencies", PyList pip_dependencies);
   ("main", PyFunction "main")].

(** The names [__main__.py] itself takes from [util], and [warn] (line
    180): [util.py] is not among the sources. *)
Definition util_globals : list (string * pyobject) :=
  [("change_directory", PyFunction "change_directory");
   ("clean_workspace", PyFunction "clean_workspace");
   ("force_color", PyFunction "force_color");
   ("generated_venv_vars", PyFunction "generated_venv_vars");
   ("info", PyFunction "info");
   ("log", PyFunction "log");
   ("UnbufferedIO", PyClass "UnbufferedIO");
   ("warn", PyFunction "warn")].

Fixpoint getattr (globals : list (string * pyobject)) (name : string) : option pyobject :=
  match globals with
  | [] => None
  | (n, o) :: rest => if bool_decide (n = name) then Some o else getattr rest name
  end.

(** [from module import name]: the name is looked up among the globals
    of the module; a name that is not there is an [ImportError]. *)
Definition from_import (globals : list (string * pyobject)) (name : string) : M pyobject :=
  match getattr globals name with
  | Some o => ret o
  | None => raise "ImportError"
  end.

(** Lines 21-23, and then whatever the module goes on to do with the
    names it imported: [entry] is [main] (lines 26-28) when the module is
    run as a script (line 118). *)
Definition module_body {A} (entry : pyobject → pyobject → M A) : M A :=
  get_args ←← from_import main_globals "get_args";
  run ←← from_import main_globals "run";
  _ ←← from_import util_globals "info";
  entry get_args run.

(** *** Archives *)

(** [os.path.relpath(p, start)] on component paths that share a root:
    the common prefix is dropped, what is left of [start] is climbed with
    [..], and the empty result is [.]. *)
Fixpoint strip_common (p start : FS.path) : FS.path * FS.path :=
  match p, start with
  | a :: p', b :: start' =>
      if bool_decide (a = b) then strip_common p' start' else (p, start)
  | _, _ => (p, start)
  end.

Definition relpath (p start : FS.path) : FS.path :=
  let '(down, up) := strip_common p start in
  match map (fun _ => "..") up ++ down with
  | [] => ["."]
  | rel => rel
  end.

(** [os.path.normpath] on a relative component path: [.] and empty
    components go, [..] cancels the component before it. *)
Fixpoint normpath_aux (done_rev : FS.path) (p : FS.path) : FS.path :=
  match p with
  | [] => reverse done_rev
  | c :: p' =>
      if bool_decide (c = ".") || bool_decide (c = "") then normpath_aux done_rev p'
      else if bool_decide (c = "..") then
        match done_rev with
        | d :: done' =>
            if bool_decide (d = "..") then normpath_aux (c :: done_rev) p'
            else normpath_aux done' p'
        | [] => normpath_aux [c] p'
        end
      else normpath_aux (c :: done_rev) p'
  end.

Definition normpath (p : FS.path) : FS.path := normpath_aux [] p.

(** [TarFile.add(name, arcname)]: the entry itself under [arcname], and
    for a directory every entry of its listing under
    [os.path.join(arcname, entry)], recursively. *)
Fixpoint tar_add (t : FS.node) (arcname : FS.path) : list member :=
  match t with
  | FS.File _ => [(arcname, false)]
  | FS.Dir es =>
      (arcname, true) ::
      (fix add_entries (es : list (string * FS.node)) : list member :=
         match es with
         | [] => []
         | (n, c) :: es' => tar_add c (arcname ++ [n]) ++ add_entries es'
         end) es
  end.

Definition subdirs_of (es : list (string * FS.node)) : list string :=
  fst <$> List.filter (fun e => negb (FS.is_file e.2)) es.
Definition files_of (es : list (string * FS.node)) : list string :=
  fst <$> List.filter (fun e => FS.is_file e.2) es.

(** [os.walk(top)], top down: a directory yields its own triple, then
    the triples of its subdirectories; something that is no directory
    yields nothing. *)
Fixpoint walk (t : FS.node) (top : FS.path) : list (FS.path * list string * list string) :=
  match t with
  | FS.File _ => []
  | FS.Dir es =>
      (top, subdirs_of es, files_of es) ::
      (fix walk_entries (es : list (string * FS.node)) :=
         match es with
         | [] => []
         | (n, c) :: es' => walk c (top ++ [n]) ++ walk_entries es'
         end) es
  end.

(** [ZipFile.write(filename, arcname)]: the name is normalised
    ([ZipInfo.from_file]). *)
Definition zf_write (is_dir : bool) (arcname : FS.path) : member :=
  (normpath arcname, is_dir).

(** Lines 103-109: what one triple of the walk writes. *)
Definition zip_write_triple (installspace_ folder_name : string)
    (triple : FS.path * list string * list string) : list member :=
  let '(dirname, subdirs, files) := triple in
  let arcname := [folder_name] ++ relpath dirname [installspace_] in
  zf_write true arcname ::
  ((fun filename =>
      zf_write false ([folder_name] ++ relpath dirname [installspace_] ++ [filename]))
   <$> files).

(** Lines 102-109. *)
Definition zip_walk (t : FS.node) (installspace_ : string) (folder_name : string)
  : list member :=
  walk t [installspace_] ≫= zip_write_triple installspace_ folder_name.

(** The directories on the way to [p], the nearest to the root first. *)
Fixpoint parents (p : FS.path) : list FS.path :=
  match p with
  | [] => []
  | n :: p' =>
      match p' with
      | [] => []
      | _ => [n] :: ((fun q => n :: q) <$> parents p')
      end
  end.

(** Extracting one member into a directory: the directories on the way
    to it are made, then the member itself, a directory or a file.  What
    is kept of the result is which paths are there below the directory
    extracted into, and which of them are directories. *)
Definition extract_member (found : gmap FS.path bool) (m : member) : gmap FS.path bool :=
  <[m.1 := m.2]> (foldr (fun d acc => <[d := true]> acc) found (parents m.1)).

(** [extractall] into an empty directory, member after member. *)
Definition extractall (members : list member) : gmap FS.path bool :=
  foldl extract_member ∅ members.

(** The relative file set of a tree: [p] is in it, as a directory or
    as a file, when [p] leads from the root of the tree to one. *)
Definition in_file_set (t : FS.node) (p : FS.path) (is_dir : bool) : Prop :=
  ∃ c, FS.lookup p t = Some c ∧ is_dir = negb (FS.is_file c).

(** What is expected below the directory an archive of [tree] is
    extracted into: the tree, under [folder]. *)
Definition under (folder : string) (tree : FS.node) (q : FS.path) (is_dir : bool) : Prop :=
  ∃ p, q = folder :: p ∧ in_file_set tree p is_dir.

(** A name a directory entry can have. *)
Definition entry_name (n : string) : Prop := n ≠ "" ∧ n ≠ "." ∧ n ≠ "..".

(** A tree as a file system holds it: in every directory the names are
    entry names and no name occurs twice. *)
Fixpoint well_formed (t : FS.node) : Prop :=
  match t with
  | FS.File _ => True
  | FS.Dir es =>
      NoDup (fst <$> es) ∧
      (fix all_entries (es : list (string * FS.node)) : Prop :=
         match es with
         | [] => True
         | (n, c) :: es' => entry_name n ∧ well_formed c ∧ all_entries es'
         end) es
  end.

(** *** [build_and_package] *)

(** The attributes of [args] the function reads.  [get_args] is not among
    the sources; [os] is whatever the caller left in [args.os]. *)
Record Args := mkArgs {
  sourcespace : string;
  buildspace : string;
  installspace : string;
  isolated : bool;
  os : option string
}.

Section Stage.

Variable w : world.

(** [with open(p, 'w'): pass] *)
Definition touch (p : FS.path) : M unit :=
  q ←← resolve p;
  t ←← get root;
  match FS.lookup q t with
  | Some (FS.Dir _) => raise "OSError"
  | _ =>
      match FS.write q (FS.File "") t with
      | Some t' => do (Touch q);; modify (set_root t')
      | None => raise "OSError"
      end
  end.

(** [os.remove(p)] *)
Definition os_remove (p : FS.path) : M unit :=
  q ←← resolve p;
  t ←← get root;
  match FS.lookup q t with
  | Some (FS.File _) =>
      match FS.remove q t with
      | Some t' => do (Remove q);; modify (set_root t')
      | None => raise "OSError"
      end
  | _ => raise "OSError"
  end.

(** [os.listdir(p)] *)
Definition os_listdir (p : FS.path) : M (list string) :=
  q ←← resolve p;
  t ←← get root;
  match FS.listdir q t with
  | Some names => ret names
  | None => raise "OSError"
  end.

(** [shutil.copy(src, dst)]: [src] is an absolute path, [dst] one of
    the program; a [dst] that is a directory receives the file under
    its own name. *)
Definition shutil_copy (src : FS.path) (dst : FS.path) : M unit :=
  q ←← resolve dst;
  t ←← get root;
  match FS.lookup src t with
  | Some (FS.File content) =>
      let target :=
        match FS.lookup q t with
        | Some (FS.Dir _) => q ++ [List.last src ""]
        | _ => q
        end in
      match FS.write target (FS.File content) t with
      | Some t' => do (Copy src target);; modify (set_root t')
      | None => raise "OSError"
      end
  | _ => raise "OSError"
  end.

Definition ament_py (args : Args) : string :=
  PyStr.quoted
    (path_str w ["."; sourcespace args; "ament"; "ament_tools"; "scripts"; "ament.py"]).

(** Lines 46-54. *)
Definition build_cmd (args : Args) (python : string) : list string :=
  [python; "-u"; ament_py args; "build";
   "--build-space"; PyStr.quoted (buildspace args);
   "--install-space"; PyStr.quoted (installspace args);
   PyStr.quoted (sourcespace args)]
  ++ (if isolated args then ["--isolated"] else [])
  ++ (if bool_decide (os args ≠ Some "windows")
      then ["--cmake-args"; "-DCMAKE_BUILD_TYPE=RelWithDebInfo"] else []).

(** Lines 64-73. *)
Definition bridge_cmd (args : Args) (python : string) : list string :=
  [python; "-u"; ament_py args; "build";
   "--build-space"; PyStr.quoted (buildspace args);
   "--install-space"; PyStr.quoted (installspace args);
   "--only"; "ros1_bridge";
   PyStr.quoted (sourcespace args)]
  ++ (if isolated args then ["--isolated"] else [])
  ++ ["--cmake-args"; "-DCMAKE_BUILD_TYPE=RelWithDebInfo"; "--make-flags"; "-j1"].

Definition ros1_bridge_path (args : Args) : FS.path :=
  [sourcespace args; "ros2"; "ros1_bridge"].

Definition ros1_bridge_ignore_marker (args : Args) : FS.path :=
  ros1_bridge_path args ++ ["AMENT_IGNORE"].

(** Lines 32-40: the marker, when the bridge is there. *)
Definition mask_bridge (args : Args) : M (option FS.path) :=
  do (Log ("ROS1 bridge path: " +:+ path_str w (ros1_bridge_path args)));;
  q ←← resolve (ros1_bridge_path args);
  t ←← get root;
  if FS.exists_ q t then
    do (Log ("ROS1 bridge path ignore file: "
             +:+ path_str w (ros1_bridge_ignore_marker args)));;
    touch (ros1_bridge_ignore_marker args);;
    ret (Some (ros1_bridge_ignore_marker args))
  else ret None.

(** Lines 42-58: the main build between writing and removing the
    marker. *)
Definition masked_build (args : Args) (job : option BatchJob) : M unit :=
  marker ←← mask_bridge args;
  python ←← get job_python;
  job_run w job (build_cmd args python) false true;;
  match marker with
  | Some m => os_remove m
  | None => ret tt
  end.

(** Lines 60-73. *)
Definition bridge_build (args : Args) (job : option BatchJob) : M unit :=
  if bool_decide (os args = Some "linux") || bool_decide (os args = Some "osx") then
    python ←← get job_python;
    job_run w job (bridge_cmd args python) false true;;
    ret tt
  else ret tt.

(** Lines 75-83. *)
Definition unnecessary (filename : string) : bool :=
  PyStr.contains "__rmw_" filename
  || PyStr.startswith filename "simple_bridge"
  || PyStr.startswith filename "static_bridge".

Definition remove_executables (args : Args) : M unit :=
  let install_bin_path := [installspace args; "bin"] in
  names ←← os_listdir install_bin_path;
  for_each names (fun filename =>
    if unnecessary filename then os_remove (install_bin_path ++ [filename]) else ret tt).

(** What is left of a listing once the names of [names] that are not
    wanted have been removed from it one after the other. *)
Definition sweep (names : list string) (es : list (string * FS.node))
  : list (string * FS.node) :=
  foldl (fun acc n => if unnecessary n then FS.drop n acc else acc) es names.

(** Line 86; [str + None] is a [TypeError]. *)
Definition folder_name (args : Args) : M string :=
  match os args with
  | Some o => ret ("ros2-" +:+ o)
  | None => raise "TypeError"
  end.

(** Lines 88 and 92. *)
Definition tar_archive_path (o : string) : string := "ros2-package-" +:+ o +:+ ".tar.bz2".
Definition zip_archive_path : string := "ros2-package-windows.zip".

(** Lines 89-90: the archive file is opened, then the install space
    is added under the folder name. *)
Definition write_tar (args : Args) (o folder : string) : M string :=
  let archive_path := tar_archive_path o in
  touch [archive_path];;
  q ←← resolve [installspace args];
  t ←← get root;
  match FS.lookup q t with
  | Some tree => do (WriteArchive archive_path (tar_add tree [folder]));; ret archive_path
  | None => raise "OSError"
  end.

(** Lines 93-100. *)
Definition opencv_libdir : FS.path := ["c:"; "opencv"; "build"; "x64"; "vc14"; "bin"].

Definition copy_opencv (args : Args) : M unit :=
  for_each ["opencv_core"; "opencv_highgui"] (fun libfile =>
    let origin_libpath := opencv_libdir ++ [libfile +:+ "2412.dll"] in
    let destination_libpath2411 := [installspace args; "bin"; libfile +:+ "2411.dll"] in
    let destination_libpath2412 := [installspace args; "bin"; libfile +:+ "2412.dll"] in
    shutil_copy origin_libpath destination_libpath2411;;
    shutil_copy origin_libpath destination_libpath2412).

(** The four names the libraries are copied to (lines 97-98). *)
Definition opencv_names : list string :=
  ["opencv_core2411.dll"; "opencv_core2412.dll";
   "opencv_highgui2411.dll"; "opencv_highgui2412.dll"].

(** Lines 101-109. *)
Definition write_zip (args : Args) (folder : string) : M string :=
  let archive_path := zip_archive_path in
  touch [archive_path];;
  q ←← resolve [installspace args];
  t ←← get root;
  let members :=
    match FS.lookup q t with
    | Some tree => zip_walk tree (installspace args) folder
    | None => []
    end in
  do (WriteArchive archive_path members);;
  ret archive_path.

(** Lines 85-112. *)
Definition create_archive (args : Args) : M unit :=
  folder ←← folder_name args;
  archive_path ←←
    (if bool_decide (os args = Some "linux") || bool_decide (os args = Some "osx") then
       write_tar args (default "" (os args)) folder
     else if bool_decide (os args = Some "windows") then
       copy_opencv args;; write_zip args folder
     else raise "RuntimeError");
  do (Log ("created archive: '" +:+ archive_path +:+ "'")).

(** Lines 31-114. *)
Definition build_and_package (args : Args) (job : option BatchJob) : M Z :=
  masked_build args job;;
  bridge_build args job;;
  remove_executables args;;
  create_archive args;;
  ret 0%Z.

End Stage.

End Packaging.

Global Instance hook_eq_dec : EqDecision hook.
Proof. solve_decision. Defined.

Global Instance event_eq_dec : EqDecision event.
Proof. solve_decision. Defined.

Global Instance exit_arg_eq_dec : EqDecision exit_arg.
Proof. solve_decision. Defined.

(** ** Reading a trace *)

(** A command that was run with exit-on-error and came back non-zero. *)
Definition fatal (e : event) : bool :=
  match e with
  | Run _ _ true c => negb (c =? 0)%Z
  | _ => false
  end.

Definition is_chdir (e : event) : bool :=
  match e with Chdir _ => true | _ => false end.

(** No command of the trace failed fatally. *)
Definition quiet (tr : list event) : Prop := Forall (fun e => fatal e = false) tr.

(** The run was ended by a fatal command: the process exits with the code
    of that command, and since the command nothing has happened but
    directories being restored ([tr] has the newest event first). *)
Definition aborted {A} (r : result A) (tr : list event) : Prop :=
  ∃ argv shell c ups rest,
    c ≠ 0%Z ∧ r = SysExit (ExitCode c) ∧
    tr = ups ++ Run argv shell true c :: rest ∧
    Forall (fun e => is_chdir e = true) ups ∧ quiet rest.

(** What fail-fast means for a piece of the program that starts in a
    quiet trace: it hands over a quiet trace, or it was aborted. *)
Definition fail_fast_post {A} (r : result A) (st : proc) : Prop :=
  match r with
  | Ok _ => quiet (trace st)
  | _ => quiet (trace st) ∨ aborted r (trace st)
  end.

Definition fail_fast {A} (m : M A) : Prop :=
  ∀ st, quiet (trace st) → fail_fast_post (m st).1 (m st).2.

(** A piece of the program that leaves the working directory as it found
    it, however it ends. *)
Definition keeps_cwd {A} (m : M A) : Prop := ∀ st, cwd (m st).2 = cwd st.

(** A piece of the program that, when it yields a value, yields one that
    satisfies [P], and when it ends the process, ends it with a status
    other than 0. *)
Definition ends_well {A} (P : A → Prop) (m : M A) : Prop :=
  ∀ st,
    match (m st).1 with
    | Ok a => P a
    | SysExit e => exit_status e ≠ 0%Z
    | Raised _ => True
    end.

(** A piece of the program that ends the process only through a command
    that failed: the trace grows by events that satisfy [P], and when the
    process is ended, the last of them is the command, run with
    exit-on-error, whose code is the status. *)
Definition emits_until_abort {A} (P : event → Prop) (m : M A) : Prop :=
  ∀ st, ∃ new,
    trace (m st).2 = new ++ trace st ∧
    match (m st).1 with
    | SysExit e =>
        ∃ c argv shell rest,
          e = ExitCode c ∧ c ≠ 0%Z ∧ new = Run argv shell true c :: rest ∧ Forall P rest
    | _ => Forall P new
    end.

(** A piece of the program that never ends the process itself. *)
Definition never_exits {A} (m : M A) : Prop := ∀ st e, (m st).1 ≠ SysExit e.

(** A piece of the program all of whose events satisfy [P], however it
    ends. *)
Definition emits {A} (P : event → Prop) (m : M A) : Prop :=
  ∀ st, ∃ new, trace (m st).2 = new ++ trace st ∧ Forall P new.

(** The four commands of the fatal-failure invariant as [main] gives them
    to [job.run] (lines 127, 146, 148 and 156), behind whatever prefix
    [job.run] puts before a command. *)
Definition fail_fast_command (w : world) (args : Namespace) (argv : list string) : Prop :=
  ∃ prefix python,
    argv = prefix ++ [sys_executable w; "-m"; "pip"; "install"; "-U"; "virtualenv"] ∨
    argv = prefix ++ [python; "-m"; "pip"; "install"; "-U"] ++ pip_dependencies ∨
    argv = prefix ++ curl_cmd args ∨
    argv = prefix ++ vcs_import_cmd args.

(** What [main] never does: run one of the four without exit-on-error. *)
Definition keeps_fail_fast (w : world) (args : Namespace) (e : event) : Prop :=
  ∀ argv shell c, e = Run argv shell false c → ¬ fail_fast_command w args argv.

(** What the packaging stage may do before its archive: anything but a
    command that failed fatally and the writing of an archive. *)
Definition before_archive (e : event) : Prop :=
  fatal e = false ∧ ∀ name members, e ≠ WriteArchive name members.

(** What [main] logs before it does anything else (lines 75-80). *)
Definition greeting (args : Namespace) : list event :=
  (if force_ansi_color args then [ForceColor] else []) ++
  Log "run_ros2_batch called with args:" ::
  map (fun kv => Log ("  - " +:+ kv.1 +:+ "=" +:+ kv.2)) (vars args).

(** ** Sample hosts and runs *)

Module Sample.

(** Values of [platform.platform()]. *)
Definition linux_host : string := "Linux-5.4.0-42-generic-x86_64-with-glibc2.29".
Definition darwin_host : string := "Darwin-19.6.0-x86_64-i386-64bit".
Definition windows_host : string := "Windows-10-10.0.19041-SP0".
Definition freebsd_host : string := "FreeBSD-13.0-RELEASE-amd64-64bit-ELF".

(** A job directory with a workspace left over from an earlier run. *)
Definition files : FS.node :=
  FS.Dir [("job", FS.Dir [("workspace", FS.Dir [("old.log", FS.File "stale")])])].

(** A host on which the [n]-th external call exits with [codes n], and
    on which the repositories file is there once a command has run. *)
Definition host (platform_ : string) (codes : nat → Z) : world :=
  mkWorld platform_ "/usr/bin/python3" "/"
    (fun n t =>
       (codes n,
        default t (FS.write ["job"; "workspace"; "ros2.repos"] (FS.File "repositories:") t)))
    (fun venv_path => ([venv_path +:+ "/bin/activate"], venv_path +:+ "/bin/python")).

Definition all_pass : nat → Z := fun _ => 0%Z.

Definition args (os_ : option string) (do_venv_ : bool) : Namespace :=
  mkNamespace "https://example.org/ros2.repos" None None do_venv_ os_ false false.

Definition run (platform_ : string) (codes : nat → Z) (a : Namespace) : result Z * proc :=
  main (host platform_ codes) a (start (host platform_ codes) ["job"] ∅ files).

(** A workspace after the checkout, with the ROS 1 bridge among the
    sources and an install space from an earlier build. *)
Definition install_tree : FS.node :=
  FS.Dir [("bin", FS.Dir [("talker", FS.File "elf");
                          ("talker__rmw_opensplice", FS.File "elf");
                          ("static_bridge", FS.File "elf")]);
          ("lib", FS.Dir []);
          ("setup.sh", FS.File "sh")].

Definition package_files : FS.node :=
  FS.Dir [("ws", FS.Dir
    [("src", FS.Dir [("ros2", FS.Dir [("ros1_bridge", FS.Dir [("package.xml", FS.File "xml")])])]);
     ("install", install_tree)])].

Definition package_args (os_ : string) : Packaging.Args :=
  Packaging.mkArgs "src" "build" "install" false (Some os_).

Definition package_start : proc :=
  mkProc ["ws"] ∅ package_files [] "/usr/bin/python3" 0 [].

End Sample.

(** A Windows job: the workspace on drive [c:] and the OpenCV build
    beside it. *)
Module SampleWindows.

Definition files : FS.node :=
  FS.Dir [("c:", FS.Dir
    [("J", FS.Dir [("ws", FS.Dir [("install", Sample.install_tree)])]);
     ("opencv", FS.Dir [("build", FS.Dir [("x64", FS.Dir [("vc14", FS.Dir [("bin", FS.Dir
        [("opencv_core2412.dll", FS.File "core 2.4.12");
         ("opencv_highgui2412.dll", FS.File "highgui 2.4.12")])])])])])])].

Definition package_start : proc :=
  mkProc ["c:"; "J"; "ws"] ∅ files [] "python" 0 [].

End SampleWindows.

(** * Properties *)

(** ** The model at work *)

Example lower_of_a_platform : PyStr.lower "Linux-5.4.0-X86_64" = "linux-5.4.0-x86_64".
Proof. reflexivity. Qed.

Example startswith_darwin :
  PyStr.startswith (PyStr.lower Sample.darwin_host) "darwin" = true.
Proof. reflexivity. Qed.

Example quoted_src : PyStr.quoted "src" = String (ascii_of_nat 34) ("src" +:+ PyStr.dq).
Proof. reflexivity. Qed.

Example relpath_of_the_top : Packaging.relpath ["install"] ["install"] = ["."].
Proof. reflexivity. Qed.

Example relpath_below_the_top :
  Packaging.relpath ["install"; "bin"] ["install"] = ["bin"].
Proof. reflexivity. Qed.

Example normpath_drops_curdir :
  Packaging.normpath ["ros2-windows"; "."; "setup.sh"] = ["ros2-windows"; "setup.sh"].
Proof. reflexivity. Qed.

Example normpath_climbs :
  Packaging.normpath ["a"; "b"; ".."; "c"] = ["a"; "c"].
Proof. reflexivity. Qed.

Example tar_of_the_install_tree :
  Packaging.tar_add Sample.install_tree ["ros2-linux"] =
    [(["ros2-linux"], true);
     (["ros2-linux"; "bin"], true);
     (["ros2-linux"; "bin"; "talker"], false);
     (["ros2-linux"; "bin"; "talker__rmw_opensplice"], false);
     (["ros2-linux"; "bin"; "static_bridge"], false);
     (["ros2-linux"; "lib"], true);
     (["ros2-linux"; "setup.sh"], false)].
Proof. reflexivity. Qed.

Example zip_of_the_install_tree :
  Packaging.zip_walk Sample.install_tree "install" "ros2-windows" =
    [(["ros2-windows"], true);
     (["ros2-windows"; "setup.sh"], false);
     (["ros2-windows"; "bin"], true);
     (["ros2-windows"; "bin"; "talker"], false);
     (["ros2-windows"; "bin"; "talker__rmw_opensplice"], false);
     (["ros2-windows"; "bin"; "static_bridge"], false);
     (["ros2-windows"; "lib"], true)].
Proof. reflexivity. Qed.

Example extracted_talker :
  Packaging.extractall (Packaging.zip_walk Sample.install_tree "install" "ros2-windows")
    !! ["ros2-windows"; "bin"; "talker"] = Some false.
Proof. vm_compute. reflexivity. Qed.

(** A packaging run on Linux with every command passing: the marker comes
    and goes around the main build, the two executables that are not wanted
    are removed, and the archive holds what is left. *)
Example package_on_linux :
  let w := Sample.host Sample.linux_host Sample.all_pass in
  let out := Packaging.build_and_package w (Sample.package_args "linux")
               (Some LinuxBatchJob) Sample.package_start in
  out.1 = Ok 0%Z ∧
  List.filter (fun e => match e with Log _ | Run _ _ _ _ => false | _ => true end)
              (history out.2) =
    [Touch ["ws"; "src"; "ros2"; "ros1_bridge"; "AMENT_IGNORE"];
     Remove ["ws"; "src"; "ros2"; "ros1_bridge"; "AMENT_IGNORE"];
     Remove ["ws"; "install"; "bin"; "talker__rmw_opensplice"];
     Remove ["ws"; "install"; "bin"; "static_bridge"];
     Touch ["ws"; "ros2-package-linux.tar.bz2"];
     WriteArchive "ros2-package-linux.tar.bz2"
       [(["ros2-linux"], true);
        (["ros2-linux"; "bin"], true);
        (["ros2-linux"; "bin"; "talker"], false);
        (["ros2-linux"; "lib"], true);
        (["ros2-linux"; "setup.sh"], false)]].
Proof. vm_compute. split; reflexivity. Qed.

(** ** The names of the four spaces *)

Lemma selects_or_nil args sel : selects args sel → white_space_in_or_nil args = sel.
Proof.
  unfold selects, white_space_in_or_nil.
  intros [-> | [-> ->]]; reflexivity.
Qed.

Lemma mem_true x l : x ∈ l → PyStr.mem x l = true.
Proof. intros H. unfold PyStr.mem. by apply bool_decide_eq_true. Qed.

Lemma mem_false x l : x ∉ l → PyStr.mem x l = false.
Proof. intros H. unfold PyStr.mem. by apply bool_decide_eq_false. Qed.

(** C10: for every subset of the four names selected with
    [--white-space-in], a selected name resolves to its variant with a
    space and a name that is not selected keeps its default without one;
    with nothing selected (an empty list, or the option absent) all four
    keep their defaults. *)
Theorem white_space_in_names (args : Namespace) (sel : list string) :
  selects args sel →
  (("workspace" ∈ sel → workspace args = "work space") ∧
   ("workspace" ∉ sel → workspace args = "workspace")) ∧
  (("sourcespace" ∈ sel → sourcespace args = "source space") ∧
   ("sourcespace" ∉ sel → sourcespace args = "src")) ∧
  (("buildspace" ∈ sel → buildspace args = "build space") ∧
   ("buildspace" ∉ sel → buildspace args = "build")) ∧
  (("installspace" ∈ sel → installspace args = "install space") ∧
   ("installspace" ∉ sel → installspace args = "install")) ∧
  (sel = [] →
   workspace args = "workspace" ∧ sourcespace args = "src" ∧
   buildspace args = "build" ∧ installspace args = "install").
Proof.
  intros Hsel. apply selects_or_nil in Hsel.
  unfold workspace, sourcespace, buildspace, installspace. rewrite Hsel.
  repeat match goal with
         | |- _ ∧ _ => split
         | |- _ ∈ _ → _ => let H := fresh in intros H; by rewrite (mem_true _ _ H)
         | |- _ ∉ _ → _ => let H := fresh in intros H; by rewrite (mem_false _ _ H)
         | |- _ = [] → _ => intros ->
         | |- _ = _ => reflexivity
         end.
Qed.

Lemma white_space_in_names_witness :
  let args := mkNamespace "url" None (Some ["buildspace"; "workspace"]) false None false false in
  selects args ["buildspace"; "workspace"] ∧
  workspace args = "work space" ∧ sourcespace args = "src" ∧
  buildspace args = "build space" ∧ installspace args = "install".
Proof.
  intros args.
  assert (Hsel : selects args ["buildspace"; "workspace"]) by (left; reflexivity).
  split; [exact Hsel|].
  destruct (white_space_in_names args _ Hsel) as ([Hw _] & [_ Hs] & [Hb _] & [_ Hi] & _).
  split; [apply Hw; compute_done|].
  split; [apply Hs; compute_done|].
  split; [apply Hb; compute_done|].
  apply Hi; compute_done.
Defined.

(** ** Selection of the platform job *)

Lemma select_job_linux_flag platform_ :
  select_job (Some "linux") platform_ = (Some "linux", Some LinuxBatchJob).
Proof. reflexivity. Qed.

(** Without a flag the host alone decides. *)
Lemma select_job_no_flag platform_ :
  select_job None platform_ =
    let platform_name := PyStr.lower platform_ in
    if PyStr.startswith platform_name "linux" then (Some "linux", Some LinuxBatchJob)
    else if PyStr.startswith platform_name "darwin" then (Some "osx", Some OSXBatchJob)
    else if PyStr.startswith platform_name "windows" then (Some "windows", Some WindowsBatchJob)
    else (None, None).
Proof. reflexivity. Qed.

(** When no branch is taken, the flag was none of the three names and it
    is left as it was. *)
Lemma select_job_None arg_os platform_ o :
  select_job arg_os platform_ = (o, None) →
  o = arg_os ∧ arg_os ≠ Some "linux" ∧ arg_os ≠ Some "osx" ∧ arg_os ≠ Some "windows".
Proof.
  unfold select_job; simpl.
  repeat match goal with
         | |- context [bool_decide ?P] =>
             destruct (bool_decide_reflect P); simpl; [congruence|]
         | |- context [PyStr.startswith ?a ?b] =>
             destruct (PyStr.startswith a b); simpl; [congruence|]
         end.
  intros [= <-]; auto.
Qed.

(** C1 (the code does not do this): with [--os osx] on a Linux host the
    test [args.os == 'linux' or platform_name.startswith('linux')] is true
    through its second half, so the Linux job is made and [args.os] is set
    to [linux]; the same happens to [--os windows] on a Linux host and on
    a macOS host.  The flag names another job each time. *)
Theorem os_flag_overridden_by_host :
  (select_job (Some "osx") Sample.linux_host = (Some "linux", Some LinuxBatchJob)
   ∧ job_named "osx" = Some OSXBatchJob) ∧
  (select_job (Some "windows") Sample.linux_host = (Some "linux", Some LinuxBatchJob)
   ∧ job_named "windows" = Some WindowsBatchJob) ∧
  (select_job (Some "windows") Sample.darwin_host = (Some "osx", Some OSXBatchJob)) ∧
  NewJob LinuxBatchJob ∈
    trace (Sample.run Sample.linux_host Sample.all_pass (Sample.args (Some "osx") false)).2.
Proof.
  split; [split; reflexivity|].
  split; [split; reflexivity|].
  split; [reflexivity|].
  compute_done.
Qed.

(** ** A host that is not supported *)

(** C2 (the code does not do this): on a host that is none of the three,
    with no [--os], no branch of the selection is taken and [job] stays
    [None]; nothing checks for that.  The run goes on, clears the
    workspace (what was in it is gone) and only then fails, at
    [job.pre()], on the attribute of [None]. *)
Theorem unsupported_host_clears_workspace :
  let out := Sample.run Sample.freebsd_host Sample.all_pass (Sample.args None false) in
  select_job None Sample.freebsd_host = (None, None) ∧
  out.1 = Raised "AttributeError" ∧
  history out.2 =
    [Log "run_ros2_batch called with args:";
     Log "  - repo_file_url=https://example.org/ros2.repos";
     Log "  - test_branch=None";
     Log "  - white_space_in=None";
     Log "  - do_venv=False";
     Log "  - os=None";
     Log "  - connext=False";
     Log "  - force_ansi_color=False";
     SetEnv "TERM" "xterm-256color";
     Log "Using workspace: @!workspace";
     CleanWorkspace "workspace"] ∧
  FS.lookup ["job"; "workspace"; "old.log"] Sample.files = Some (FS.File "stale") ∧
  FS.lookup ["job"; "workspace"; "old.log"] (root out.2) = None.
Proof. vm_compute. repeat split; reflexivity. Qed.

(** ** Reasoning about the program text *)

Section Logic.

Context {A B : Type}.

Lemma bind_Ok (m : M A) (k : A → M B) st a st' :
  m st = (Ok a, st') → bind m k st = k a st'.
Proof. unfold bind. by intros ->. Qed.

Lemma bind_SysExit (m : M A) (k : A → M B) st e st' :
  m st = (SysExit e, st') → bind m k st = (SysExit e, st').
Proof. unfold bind. by intros ->. Qed.

Lemma bind_Raised (m : M A) (k : A → M B) st e st' :
  m st = (Raised e, st') → bind m k st = (Raised e, st').
Proof. unfold bind. by intros ->. Qed.

End Logic.

Lemma bind_assoc {A B C} (m : M A) (k : A → M B) (h : B → M C) st :
  bind (bind m k) h st = bind m (fun a => bind (k a) h) st.
Proof. unfold bind. by destruct (m st) as [[a | e | e] st1]. Qed.

Lemma bind_ext {A B} (m : M A) (k k' : A → M B) st :
  (∀ a st1, k a st1 = k' a st1) → bind m k st = bind m k' st.
Proof. intros Hk. unfold bind. by destruct (m st) as [[a | e | e] st1]. Qed.

Lemma quiet_cons e tr : fatal e = false → quiet tr → quiet (e :: tr).
Proof. intros. by constructor. Qed.

Lemma aborted_retype {A B} (r : result A) e tr :
  r = SysExit e → aborted r tr → aborted (@SysExit B e) tr.
Proof.
  intros -> (argv & shell & c & ups & rest & Hc & Hr & Htr & Hups & Hrest).
  exists argv, shell, c, ups, rest. repeat split; auto.
  congruence.
Qed.

Lemma aborted_not_Raised {A} e tr : ¬ aborted (@Raised A e) tr.
Proof. intros (argv & shell & c & ups & rest & _ & Hr & _). discriminate. Qed.

(** *** Fail-fast is kept by every construct of the program *)

Create HintDb fail_fast.

Lemma fail_fast_ret {A} (a : A) : fail_fast (ret a).
Proof. intros st H. exact H. Qed.

Lemma fail_fast_bind {A B} (m : M A) (k : A → M B) :
  fail_fast m → (∀ a, fail_fast (k a)) → fail_fast (bind m k).
Proof.
  intros Hm Hk st Hq. specialize (Hm st Hq). unfold bind.
  destruct (m st) as [[a | e | e] st']; simpl in *.
  - by apply Hk.
  - destruct Hm as [Hm | Hm]; [by left | right]. by eapply aborted_retype.
  - destruct Hm as [Hm | Hm]; [by left | ]. by apply aborted_not_Raised in Hm.
Qed.

Lemma fail_fast_do e : fatal e = false → fail_fast (do e).
Proof. intros He st Hq. simpl. by apply quiet_cons. Qed.

Lemma fail_fast_get {A} (f : proc → A) : fail_fast (get f).
Proof. intros st H. exact H. Qed.

Lemma fail_fast_modify f : (∀ st, trace (f st) = trace st) → fail_fast (modify f).
Proof. intros Hf st Hq. simpl. by rewrite Hf. Qed.

Lemma fail_fast_raise {A} e : fail_fast (@raise A e).
Proof. intros st Hq. by left. Qed.

Lemma fail_fast_sys_exit {A} e : fail_fast (@sys_exit A e).
Proof. intros st Hq. by left. Qed.

Lemma fail_fast_when b m : fail_fast m → fail_fast (when b m).
Proof. intros Hm. destruct b; simpl; [exact Hm | apply fail_fast_ret]. Qed.

Lemma fail_fast_if {A} (b : bool) (m1 m2 : M A) :
  fail_fast m1 → fail_fast m2 → fail_fast (if b then m1 else m2).
Proof. by destruct b. Qed.

Lemma fail_fast_for_each {A} (l : list A) body :
  (∀ x, fail_fast (body x)) → fail_fast (for_each l body).
Proof.
  intros Hb. induction l as [|x l IH]; simpl.
  - apply fail_fast_ret.
  - apply fail_fast_bind; auto.
Qed.

Lemma fail_fast_external_call w : fail_fast (external_call w).
Proof.
  intros st Hq. unfold external_call.
  destruct (external w (ncalls st) (root st)) as [c t]. exact Hq.
Qed.

(** The one place where a run is aborted. *)
Lemma fail_fast_job_run w job cmd shell exit_on_error :
  fail_fast (job_run w job cmd shell exit_on_error).
Proof.
  intros st Hq. unfold job_run. destruct job as [j|]; [|by left].
  unfold bind, get, external_call, do.
  destruct (external w (ncalls st) (root st)) as [c t]; simpl.
  destruct exit_on_error; simpl.
  - destruct (c =? 0)%Z eqn:Hc; simpl.
    + apply quiet_cons; [simpl; by rewrite Hc | exact Hq].
    + right. eexists _, shell, c, [], _. repeat split; eauto.
      intros ->. discriminate.
  - by apply quiet_cons.
Qed.

Lemma fail_fast_job_hook w job h : fail_fast (job_hook w job h).
Proof.
  intros st Hq. unfold job_hook. destruct job as [j|]; [|by left].
  unfold bind, do, external_call; simpl.
  destruct (external w _ _) as [c t]; simpl.
  destruct (c =? 0)%Z; simpl.
  - by apply quiet_cons.
  - left. by apply quiet_cons.
Qed.

(** Leaving the scope of a directory change puts one [Chdir] on top of
    whatever the body left. *)
Lemma fail_fast_change_directory {A} p (body : M A) :
  fail_fast body → fail_fast (change_directory p body).
Proof.
  intros Hb st Hq. unfold change_directory.
  set (st1 := emit _ (set_cwd _ st)).
  assert (Hq1 : quiet (trace st1)) by by apply quiet_cons.
  specialize (Hb st1 Hq1).
  destruct (body st1) as [r st']; simpl in *.
  assert (Hcons : aborted r (trace st') → aborted r (Chdir (cwd st) :: trace st')).
  { intros (argv & shell & c & ups & rest & Hc & Hr & Htr & Hups & Hrest).
    exists argv, shell, c, (Chdir (cwd st) :: ups), rest.
    repeat split; auto. by rewrite Htr. }
  destruct r; simpl in *.
  - by apply quiet_cons.
  - destruct Hb as [Hb | Hb]; [left; by apply quiet_cons | right; auto].
  - destruct Hb as [Hb | Hb]; [left; by apply quiet_cons | right; auto].
Qed.

Global Hint Resolve fail_fast_ret fail_fast_bind fail_fast_do fail_fast_get fail_fast_modify
  fail_fast_raise fail_fast_sys_exit fail_fast_when fail_fast_if fail_fast_for_each
  fail_fast_external_call fail_fast_job_run fail_fast_job_hook
  fail_fast_change_directory : fail_fast.

Ltac fail_fast_step :=
  lazymatch goal with
  | |- fail_fast (bind _ _) => apply fail_fast_bind; [|intros ?]
  | |- fail_fast (do _) => apply fail_fast_do; reflexivity
  | |- fail_fast (modify _) => apply fail_fast_modify; intros ?; reflexivity
  | |- fail_fast (when _ _) => apply fail_fast_when
  | |- fail_fast (for_each _ _) => apply fail_fast_for_each; intros ?
  | |- fail_fast (change_directory _ _) => apply fail_fast_change_directory
  | |- fail_fast (match ?x with _ => _ end) => destruct x
  | |- fail_fast _ => solve [auto with fail_fast]
  end.

Ltac fail_fast_auto := repeat fail_fast_step.

Lemma fail_fast_clean_workspace ws : fail_fast (clean_workspace ws).
Proof. unfold clean_workspace, resolve. fail_fast_auto. Qed.

Lemma fail_fast_print_file p : fail_fast (print_file p).
Proof. unfold print_file, resolve. fail_fast_auto. Qed.

Lemma fail_fast_ensure_dir p : fail_fast (ensure_dir p).
Proof. unfold ensure_dir, resolve. fail_fast_auto. Qed.

Lemma fail_fast_setenv name value : fail_fast (setenv name value).
Proof. unfold setenv. fail_fast_auto. Qed.

Global Hint Resolve fail_fast_clean_workspace fail_fast_print_file fail_fast_ensure_dir
  fail_fast_setenv : fail_fast.

Section PipelineFailFast.

Variable w : world.
Variable args : Namespace.
Variable job : option BatchJob.

Lemma fail_fast_enter_venv : fail_fast (enter_venv w job).
Proof. unfold enter_venv. fail_fast_auto. Qed.

Lemma fail_fast_install_pip_dependencies : fail_fast (install_pip_dependencies w job).
Proof. unfold install_pip_dependencies. fail_fast_auto. Qed.

Lemma fail_fast_get_repositories : fail_fast (get_repositories w args job).
Proof. unfold get_repositories. fail_fast_auto. Qed.

Lemma fail_fast_vcs_import : fail_fast (vcs_import w args job).
Proof. unfold vcs_import. fail_fast_auto. Qed.

Lemma fail_fast_switch_branch : fail_fast (switch_branch w args job).
Proof. unfold switch_branch. fail_fast_auto. Qed.

Lemma fail_fast_build_and_test : fail_fast (build_and_test w args job).
Proof. unfold build_and_test. fail_fast_auto. Qed.

Hint Resolve fail_fast_enter_venv fail_fast_install_pip_dependencies
  fail_fast_get_repositories fail_fast_vcs_import fail_fast_switch_branch
  fail_fast_build_and_test : fail_fast.

Lemma fail_fast_in_workspace : fail_fast (in_workspace w args job).
Proof. unfold in_workspace. fail_fast_auto. Qed.

End PipelineFailFast.

Lemma fail_fast_main w args : fail_fast (main w args).
Proof.
  unfold main. pose proof (fail_fast_in_workspace w args).
  fail_fast_auto.
Qed.

Lemma quiet_not_fatal tr argv shell c :
  quiet tr → Run argv shell true c ∈ tr → c = 0%Z.
Proof.
  intros Hq Hin. unfold quiet in Hq. rewrite Forall_forall in Hq.
  specialize (Hq _ Hin). simpl in Hq.
  apply negb_false_iff, Z.eqb_eq in Hq. exact Hq.
Qed.

Lemma fail_fast_post_fatal {A} (r : result A) st argv shell c :
  fail_fast_post r st → c ≠ 0%Z → Run argv shell true c ∈ trace st →
  r = SysExit (ExitCode c) ∧
  ∃ ups rest, trace st = ups ++ Run argv shell true c :: rest ∧
    Forall (fun e => is_chdir e = true) ups ∧ quiet rest.
Proof.
  intros Hpost Hc Hin.
  assert (Hab : aborted r (trace st)).
  { destruct r; simpl in Hpost.
    - by destruct Hc; eapply quiet_not_fatal.
    - destruct Hpost as [Hq|]; [|done]. by destruct Hc; eapply quiet_not_fatal.
    - destruct Hpost as [Hq|]; [|done]. by destruct Hc; eapply quiet_not_fatal. }
  destruct Hab as (argv' & shell' & c' & ups & rest & Hc' & -> & Htr & Hups & Hrest).
  rewrite Htr in Hin. apply elem_of_app in Hin as [Hin | Hin].
  - rewrite Forall_forall in Hups. specialize (Hups _ Hin). discriminate.
  - apply elem_of_cons in Hin as [Heq | Hin].
    + injection Heq as <- <- <-. split; [reflexivity|]. by exists ups, rest.
    + destruct Hc. by eapply quiet_not_fatal.
Qed.

(** [job.run] with exit-on-error: a command that comes back non-zero ends
    the process with its code, and what the program had next never runs,
    whatever it is. *)
Lemma job_run_fatal {B} w j cmd shell (k : Z → M B) st c t :
  external w (ncalls st) (root st) = (c, t) → c ≠ 0%Z →
  bind (job_run w (Some j) cmd shell true) k st =
    (SysExit (ExitCode c),
     emit (Run (job_run_prefix st ++ cmd) shell true c) (tick (set_root t st))).
Proof.
  intros Hext Hc. unfold job_run, bind, get, external_call, do. rewrite Hext. simpl.
  apply Z.eqb_neq in Hc. by rewrite Hc.
Qed.

(** *** What every event of a piece of the program satisfies *)

Section Emits.

Variable P : event → Prop.

Lemma emits_ret {A} (a : A) : emits P (ret a).
Proof. intros st. exists []. split; [done | constructor]. Qed.

Lemma emits_bind {A B} (m : M A) (k : A → M B) :
  emits P m → (∀ a, emits P (k a)) → emits P (bind m k).
Proof.
  intros Hm Hk st. destruct (Hm st) as (new1 & Ht1 & H1). unfold bind.
  destruct (m st) as [[a | e | e] st1]; simpl in *; [|by exists new1..].
  destruct (Hk a st1) as (new2 & Ht2 & H2).
  exists (new2 ++ new1). split; [by rewrite Ht2, Ht1, app_assoc|].
  by apply Forall_app.
Qed.

Lemma emits_do e : P e → emits P (do e).
Proof. intros He st. exists [e]. split; [done|]. by constructor. Qed.

Lemma emits_get {A} (f : proc → A) : emits P (get f).
Proof. intros st. exists []. split; [done | constructor]. Qed.

Lemma emits_modify f : (∀ st, trace (f st) = trace st) → emits P (modify f).
Proof. intros Hf st. exists []. simpl. rewrite Hf. split; [done | constructor]. Qed.

Lemma emits_raise {A} e : emits P (@raise A e).
Proof. intros st. exists []. split; [done | constructor]. Qed.

Lemma emits_sys_exit {A} e : emits P (@sys_exit A e).
Proof. intros st. exists []. split; [done | constructor]. Qed.

Lemma emits_when b m : emits P m → emits P (when b m).
Proof. intros Hm. destruct b; simpl; [exact Hm | apply emits_ret]. Qed.

Lemma emits_external_call w : emits P (external_call w).
Proof.
  intros st. unfold external_call.
  destruct (external w (ncalls st) (root st)) as [c t]. exists []. split; [done | constructor].
Qed.

Lemma emits_change_directory {A} p (body : M A) :
  (∀ q, P (Chdir q)) → emits P body → emits P (change_directory p body).
Proof.
  intros Hc Hb st. unfold change_directory.
  destruct (Hb (emit (Chdir (cwd st ++ p)) (set_cwd (cwd st ++ p) st))) as (new & Ht & Hnew).
  destruct (body _) as [r st']. simpl in *.
  exists (Chdir (cwd st) :: new ++ [Chdir (cwd st ++ p)]). split.
  - rewrite Ht. simpl. by rewrite <- app_assoc.
  - constructor; [apply Hc|]. apply Forall_app. split; [done|]. constructor; [apply Hc | constructor].
Qed.

Lemma emits_for_each {A} (l : list A) body :
  (∀ x, emits P (body x)) → emits P (for_each l body).
Proof.
  intros Hb. induction l as [|x l IH]; simpl.
  - apply emits_ret.
  - apply emits_bind; auto.
Qed.

End Emits.

(** Two commands behind their prefixes are the same only if they end the
    same. *)
Ltac ends_differently H :=
  apply (f_equal reverse) in H; rewrite !reverse_app in H;
  unfold pip_dependencies, curl_cmd, vcs_import_cmd, build_cmd, test_cmd,
    test_results_cmd, PyStr.quoted in H;
  cbn in H; discriminate H.

Ltac not_fail_fast :=
  let H := fresh "H" in
  intros (? & ? & [H | [H | [H | H]]]); ends_differently H.

Lemma build_cmd_not_fail_fast w args prefix python :
  ¬ fail_fast_command w args (prefix ++ build_cmd w args python).
Proof. not_fail_fast. Qed.

Lemma test_cmd_not_fail_fast w args prefix python :
  ¬ fail_fast_command w args (prefix ++ test_cmd w args python).
Proof. not_fail_fast. Qed.

Lemma test_results_cmd_not_fail_fast w args prefix python :
  ¬ fail_fast_command w args (prefix ++ test_results_cmd w args python).
Proof. not_fail_fast. Qed.

Lemma vcs_custom_not_fail_fast w args prefix branch :
  ¬ fail_fast_command w args (prefix ++ ["vcs"; "custom"; "."; "--args"; "checkout"; branch]).
Proof. not_fail_fast. Qed.

Ltac keeps_fail_fast_event :=
  first
    [ exact I
    | let Heq := fresh "Heq" in
      intros ? ? ? Heq;
      first
        [ discriminate Heq
        | injection Heq as <- _ _;
          first [ apply build_cmd_not_fail_fast | apply test_cmd_not_fail_fast
                | apply test_results_cmd_not_fail_fast | apply vcs_custom_not_fail_fast ] ] ].

Ltac emits_step :=
  lazymatch goal with
  | |- emits _ (bind _ _) => apply emits_bind; [|intros ?]
  | |- emits _ (do _) => apply emits_do; keeps_fail_fast_event
  | |- emits _ (get _) => apply emits_get
  | |- emits _ (modify _) => apply emits_modify; intros ?; reflexivity
  | |- emits _ (raise _) => apply emits_raise
  | |- emits _ (sys_exit _) => apply emits_sys_exit
  | |- emits _ (ret _) => apply emits_ret
  | |- emits _ (when _ _) => apply emits_when
  | |- emits _ (for_each _ _) => apply emits_for_each; intros ?
  | |- emits _ (external_call _) => apply emits_external_call
  | |- emits _ (change_directory _ _) =>
      apply emits_change_directory; [intros ?; keeps_fail_fast_event|]
  | |- emits _ (match ?x with _ => _ end) => destruct x
  | |- emits _ (if ?x then _ else _) => destruct x
  end.

(** Whatever [main] runs without exit-on-error, it is none of the four. *)
Lemma main_keeps_fail_fast w args : emits (keeps_fail_fast w args) (main w args).
Proof.
  unfold main, in_workspace, enter_venv, install_pip_dependencies, get_repositories,
    vcs_import, switch_branch, build_and_test, print_file, ensure_dir, clean_workspace,
    setenv, job_run, job_hook, resolve.
  repeat emits_step.
Qed.

(** A command that comes back with 0 hands the 0 to the program. *)
Lemma job_run_passes w j cmd shell exit_on_error st t :
  external w (ncalls st) (root st) = (0%Z, t) →
  job_run w (Some j) cmd shell exit_on_error st =
    (Ok 0%Z, emit (Run (job_run_prefix st ++ cmd) shell exit_on_error 0) (tick (set_root t st))).
Proof.
  intros Hext. unfold job_run, bind, get, external_call, do. rewrite Hext. simpl.
  by rewrite andb_false_r.
Qed.

Lemma job_hook_passes w j h st t :
  external w (ncalls st) (root st) = (0%Z, t) →
  job_hook w (Some j) h st = (Ok tt, tick (set_root t (emit (CallHook h) st))).
Proof.
  intros Hext. unfold job_hook, bind, do, external_call. cbn [fst snd ncalls root emit].
  by rewrite Hext.
Qed.

Lemma clean_workspace_clears ws st t0 :
  (if FS.exists_ (cwd st ++ [ws]) (root st)
   then FS.remove (cwd st ++ [ws]) (root st) else Some (root st))
    ≫= FS.makedirs (cwd st ++ [ws]) = Some t0 →
  clean_workspace ws st = (Ok tt, set_root t0 (emit (CleanWorkspace ws) st)).
Proof.
  intros Hclean. unfold clean_workspace, resolve, bind, do, get, modify.
  cbn [fst snd cwd root emit]. by rewrite Hclean.
Qed.

(** Lines 75-114 when the configuration is not refused: up to the
    clearing of the workspace [main] only logs, makes the job and sets the
    environment. *)
Lemma main_up_to_workspace w args st o job :
  select_job (os args) (platform_platform w) = (o, job) →
  do_venv args && bool_decide (o = Some "windows") = false →
  ∃ st0,
    main w args st =
      (clean_workspace (workspace args);;
       job_hook w job Pre;;
       job_hook w job ShowEnv;;
       when (negb (bool_decide (o = Some "linux")))
            (job_run w job [sys_executable w; "-m"; "pip"; "install"; "-U"; "virtualenv"]
                     false true;; ret tt);;
       change_directory [workspace args] (in_workspace w args job)) st0 ∧
    history st0 =
      history st ++ greeting args ++
      match job with Some j => [NewJob j] | None => [] end ++
      SetEnv "TERM" (default "xterm-256color" (environ st !! "TERM")) ::
      (if bool_decide (o = Some "windows") then [SetEnv "ConEmuANSI" "ON"] else []) ++
      [Log ("Using workspace: @!" +:+ workspace args)] ∧
    cwd st0 = cwd st ∧ root st0 = root st ∧ ncalls st0 = ncalls st ∧
    job_run_prefix st0 = job_run_prefix st ∧ job_python st0 = job_python st.
Proof.
  intros Hsel Hok. unfold main. rewrite Hsel, Hok.
  set (rest := bind (clean_workspace (workspace args)) _).
  unfold history, greeting.
  destruct (force_ansi_color args), job as [j|], (bool_decide (o = Some "windows")).
  all: eexists; split; [unfold bind, when, do, get, setenv, modify, ret; simpl; reflexivity|].
  all: simpl; repeat split.
  all: rewrite !reverse_cons, <- !app_assoc; reflexivity.
Qed.

(** C6: a command run with exit-on-error that comes back with a non-zero
    code ends the run with that code, and nothing of the program follows
    it: all that is left to happen is the restoring of the working
    directory.  The four commands the claim names are run that way by the
    program itself: whenever what comes before it has passed and the
    command comes back with a non-zero code [c], the run ends with [c] and
    the command is the last thing that was done.  They are the install of
    virtualenv (line 127, off Linux), the install of the pip dependencies
    (line 146), the fetch of the repositories file (line 148), after which
    the import of the repositories does not run, and that import
    (line 156). *)
Theorem fatal_command_ends_the_run (w : world) (args : Namespace) :
  (* every command run with exit-on-error *)
  (∀ st argv shell c,
     quiet (trace st) → c ≠ 0%Z →
     Run argv shell true c ∈ history (main w args st).2 →
     (main w args st).1 = SysExit (ExitCode c) ∧
     ∃ before after,
       history (main w args st).2 = before ++ Run argv shell true c :: after ∧
       Forall (fun e => is_chdir e = true) after ∧ quiet before) ∧
  (* the four commands of the claim are run with exit-on-error *)
  (∀ st argv shell exit_on_error c,
     trace st = [] → fail_fast_command w args argv → c ≠ 0%Z →
     Run argv shell exit_on_error c ∈ history (main w args st).2 →
     exit_on_error = true ∧
     (main w args st).1 = SysExit (ExitCode c) ∧
     ∃ before after,
       history (main w args st).2 = before ++ Run argv shell exit_on_error c :: after ∧
       Forall (fun e => is_chdir e = true) after ∧ quiet before) ∧
  (* the install of virtualenv, line 127 *)
  (∀ j o st t0 t1 t2 c t3,
     select_job (os args) (platform_platform w) = (o, Some j) →
     o ≠ Some "linux" →
     do_venv args && bool_decide (o = Some "windows") = false →
     (if FS.exists_ (cwd st ++ [workspace args]) (root st)
      then FS.remove (cwd st ++ [workspace args]) (root st) else Some (root st))
       ≫= FS.makedirs (cwd st ++ [workspace args]) = Some t0 →
     external w (ncalls st) t0 = (0%Z, t1) →
     external w (S (ncalls st)) t1 = (0%Z, t2) →
     external w (S (S (ncalls st))) t2 = (c, t3) → c ≠ 0%Z →
     (main w args st).1 = SysExit (ExitCode c) ∧
     root (main w args st).2 = t3 ∧
     history (main w args st).2 =
       history st ++ greeting args ++
       NewJob j ::
       SetEnv "TERM" (default "xterm-256color" (environ st !! "TERM")) ::
       (if bool_decide (o = Some "windows") then [SetEnv "ConEmuANSI" "ON"] else []) ++
       [Log ("Using workspace: @!" +:+ workspace args);
        CleanWorkspace (workspace args); CallHook Pre; CallHook ShowEnv;
        Run (job_run_prefix st ++ [sys_executable w; "-m"; "pip"; "install"; "-U"; "virtualenv"])
            false true c]) ∧
  (* the install of the pip dependencies, line 146 *)
  (∀ j st st0 t1 t2 t3 c t4,
     when (do_venv args) (enter_venv w (Some j)) st = (Ok tt, st0) →
     external w (ncalls st0) (root st0) = (0%Z, t1) →
     external w (S (ncalls st0)) t1 = (0%Z, t2) →
     external w (S (S (ncalls st0))) t2 = (0%Z, t3) →
     external w (S (S (S (ncalls st0)))) t3 = (c, t4) → c ≠ 0%Z →
     let python := job_python st0 in
     let prefix := job_run_prefix st0 in
     (in_workspace w args (Some j) st).1 = SysExit (ExitCode c) ∧
     root (in_workspace w args (Some j) st).2 = t4 ∧
     history (in_workspace w args (Some j) st).2 =
       history st0 ++
       [Run (prefix ++ [python; "-m"; "pip"; "install"; "-U"; "pip"; "setuptools"])
            false true 0;
        Run (prefix ++ [python; "-c";
                        PyStr.quoted "import setuptools; print(setuptools.__version__)"])
            true true 0;
        Run (prefix ++ [python; "-m"; "pip"; "--version"]) false true 0;
        Run (prefix ++ ([python; "-m"; "pip"; "install"; "-U"] ++ pip_dependencies))
            false true c]) ∧
  (* the fetch of the repositories file, line 148 *)
  (∀ j st st1 c t,
     (when (do_venv args) (enter_venv w (Some j));;
      install_pip_dependencies w (Some j)) st = (Ok tt, st1) →
     external w (ncalls st1) (root st1) = (c, t) → c ≠ 0%Z →
     in_workspace w args (Some j) st =
       (SysExit (ExitCode c),
        emit (Run (job_run_prefix st1 ++ curl_cmd args) false true c)
             (tick (set_root t st1)))) ∧
  (* the import of the repositories, line 156 *)
  (∀ j st st1 st2 c t,
     (when (do_venv args) (enter_venv w (Some j));;
      install_pip_dependencies w (Some j);;
      get_repositories w args (Some j)) st = (Ok tt, st1) →
     ensure_dir [sourcespace args] st1 = (Ok tt, st2) →
     external w (ncalls st2) (root st2) = (c, t) → c ≠ 0%Z →
     in_workspace w args (Some j) st =
       (SysExit (ExitCode c),
        emit (Run (job_run_prefix st2 ++ vcs_import_cmd args) true true c)
             (tick (set_root t st2)))).
Proof.
  split; [|split; [|split; [|split; [|split]]]].
  - intros st argv shell c Hq Hc Hin. unfold history in *.
    rewrite elem_of_reverse in Hin.
    destruct (fail_fast_post_fatal _ _ _ _ _ (fail_fast_main w args st Hq) Hc Hin)
      as (Hr & ups & rest & Htr & Hups & Hrest).
    split; [exact Hr|].
    exists (reverse rest), (reverse ups). rewrite Htr.
    split; [|split].
    + rewrite reverse_app, reverse_cons. by rewrite <- app_assoc.
    + by apply Forall_reverse.
    + by apply Forall_reverse.
  -
    intros st argv shell exit_on_error c Hnew Hcmd Hc Hin.
    assert (Hflag : exit_on_error = true).
    { destruct (main_keeps_fail_fast w args st) as (new & Htr & Hall).
      unfold history in Hin. rewrite elem_of_reverse, Htr, Hnew, app_nil_r in Hin.
      rewrite Forall_forall in Hall. specialize (Hall _ Hin).
      destruct exit_on_error; [done|]. by destruct (Hall argv shell c eq_refl). }
    subst exit_on_error. split; [done|].
    assert (Hq : quiet (trace st)) by (rewrite Hnew; constructor).
    unfold history in *. rewrite elem_of_reverse in Hin.
    destruct (fail_fast_post_fatal _ _ _ _ _ (fail_fast_main w args st Hq) Hc Hin)
      as (Hr & ups & rest & Htr & Hups & Hrest).
    split; [exact Hr|].
    exists (reverse rest), (reverse ups). rewrite Htr.
    split; [|split].
    + rewrite reverse_app, reverse_cons. by rewrite <- app_assoc.
    + by apply Forall_reverse.
    + by apply Forall_reverse.
  - intros j o st t0 t1 t2 c t3 Hsel Hlinux Hok Hclean Hpre Hshow Hrun Hc.
    destruct (main_up_to_workspace w args st o (Some j) Hsel Hok)
      as (st0 & -> & Hhist & Hcwd & Hroot & Hn & Hprefix & _).
    rewrite <- Hcwd, <- Hroot in Hclean. rewrite <- Hn in Hpre, Hshow, Hrun.
    pose proof (clean_workspace_clears _ _ _ Hclean) as H1.
    set (s1 := set_root t0 _) in H1.
    pose proof (job_hook_passes w j Pre s1 t1 Hpre) as H2.
    set (s2 := tick _) in H2.
    pose proof (job_hook_passes w j ShowEnv s2 t2 Hshow) as H3.
    set (s3 := tick _) in H3.
    assert (Hout :
      (clean_workspace (workspace args);;
       job_hook w (Some j) Pre;;
       job_hook w (Some j) ShowEnv;;
       when (negb (bool_decide (o = Some "linux")))
            (job_run w (Some j) [sys_executable w; "-m"; "pip"; "install"; "-U"; "virtualenv"]
                     false true;; ret tt);;
       change_directory [workspace args] (in_workspace w args (Some j))) st0 =
      (SysExit (ExitCode c),
       emit (Run (job_run_prefix s3
                  ++ [sys_executable w; "-m"; "pip"; "install"; "-U"; "virtualenv"])
                 false true c)
            (tick (set_root t3 s3)))).
    { rewrite (bind_Ok _ _ _ _ _ H1), (bind_Ok _ _ _ _ _ H2), (bind_Ok _ _ _ _ _ H3).
      rewrite (bool_decide_eq_false_2 (o = Some "linux")) by done.
      cbn [negb when]. rewrite bind_assoc. by apply job_run_fatal. }
    rewrite Hout. cbn [fst snd]. split; [done|]. split; [done|].
    unfold history in *. subst s3 s2 s1. simpl. rewrite !reverse_cons, Hhist, Hprefix.
    rewrite <- !app_assoc. simpl. by rewrite <- !app_assoc.
  - intros j st st0 t1 t2 t3 c t4 Hvenv H1 H2 H3 H4 Hc python prefix.
    pose proof (job_run_passes w j [python; "-m"; "pip"; "install"; "-U"; "pip"; "setuptools"]
                  false true st0 t1 H1) as R1.
    set (s1 := emit _ _) in R1.
    pose proof (job_run_passes w j
                  [python; "-c"; PyStr.quoted "import setuptools; print(setuptools.__version__)"]
                  true true s1 t2 H2) as R2.
    set (s2 := emit _ _) in R2.
    pose proof (job_run_passes w j [python; "-m"; "pip"; "--version"]
                  false true s2 t3 H3) as R3.
    set (s3 := emit _ _) in R3.
    assert (Hout : in_workspace w args (Some j) st =
      (SysExit (ExitCode c),
       emit (Run (job_run_prefix s3
                  ++ ([job_python s3; "-m"; "pip"; "install"; "-U"] ++ pip_dependencies))
                 false true c)
            (tick (set_root t4 s3)))).
    { unfold in_workspace. rewrite (bind_Ok _ _ _ _ _ Hvenv).
      unfold install_pip_dependencies. rewrite !bind_assoc.
      unfold bind at 1. unfold get at 1. rewrite bind_assoc.
      rewrite (bind_Ok _ _ _ _ _ R1), bind_assoc.
      unfold bind at 1. unfold get at 1. rewrite bind_assoc.
      rewrite (bind_Ok _ _ _ _ _ R2), bind_assoc.
      unfold bind at 1. unfold get at 1. rewrite bind_assoc.
      rewrite (bind_Ok _ _ _ _ _ R3), bind_assoc.
      unfold bind at 1. unfold get at 1. rewrite bind_assoc.
      by apply job_run_fatal. }
    rewrite Hout. cbn [fst snd]. split; [done|]. split; [done|].
    unfold history. subst s3 s2 s1. simpl. rewrite !reverse_cons, <- !app_assoc. reflexivity.
  - intros j st st1 c t Hpre Hext Hc.
    unfold in_workspace. rewrite <- bind_assoc, (bind_Ok _ _ _ _ _ Hpre).
    unfold get_repositories. rewrite !bind_assoc. by apply job_run_fatal.
  - intros j st st1 st2 c t Hpre Hdir Hext Hc.
    unfold in_workspace.
    assert (Hshape : ∀ (k : M Z) s,
      bind (when (do_venv args) (enter_venv w (Some j)))
        (fun _ => bind (install_pip_dependencies w (Some j))
           (fun _ => bind (get_repositories w args (Some j)) (fun _ => k))) s
      = bind (when (do_venv args) (enter_venv w (Some j));;
              install_pip_dependencies w (Some j);;
              get_repositories w args (Some j)) (fun _ => k) s).
    { intros k s. rewrite bind_assoc. apply bind_ext. intros _ s'. by rewrite bind_assoc. }
    rewrite Hshape, (bind_Ok _ _ _ _ _ Hpre).
    unfold vcs_import. rewrite !bind_assoc, (bind_Ok _ _ _ _ _ Hdir).
    rewrite bind_assoc. by apply job_run_fatal.
Qed.

Lemma fatal_command_ends_the_run_witness :
  let args := Sample.args None false in
  (* the fetch fails on a Linux host *)
  (let w := Sample.host Sample.linux_host (fun n => if bool_decide (n = 6) then 22%Z else 0%Z) in
   let st := start w ["job"] ∅ Sample.files in
   let fetch := Run (curl_cmd args) false true 22 in
   (quiet (trace st) ∧ 22%Z ≠ 0%Z ∧ fetch ∈ history (main w args st).2) ∧
   (main w args st).1 = SysExit (ExitCode 22) ∧
   ∃ before after,
     history (main w args st).2 = before ++ fetch :: after ∧
     Forall (fun e => is_chdir e = true) after ∧ quiet before) ∧
  (* the install of virtualenv fails on a Darwin host *)
  (let w := Sample.host Sample.darwin_host (fun n => if bool_decide (n = 2) then 1%Z else 0%Z) in
   let st := start w ["job"] ∅ Sample.files in
   let t0 := FS.Dir [("job", FS.Dir [("workspace", FS.Dir [])])] in
   let t1 := FS.Dir [("job", FS.Dir [("workspace",
                FS.Dir [("ros2.repos", FS.File "repositories:")])])] in
   (select_job (os args) (platform_platform w) = (Some "osx", Some OSXBatchJob) ∧
    Some "osx" ≠ Some "linux" ∧
    do_venv args && bool_decide (Some "osx" = Some "windows") = false ∧
    (if FS.exists_ (cwd st ++ [workspace args]) (root st)
     then FS.remove (cwd st ++ [workspace args]) (root st) else Some (root st))
      ≫= FS.makedirs (cwd st ++ [workspace args]) = Some t0 ∧
    external w (ncalls st) t0 = (0%Z, t1) ∧
    external w (S (ncalls st)) t1 = (0%Z, t1) ∧
    external w (S (S (ncalls st))) t1 = (1%Z, t1) ∧ 1%Z ≠ 0%Z) ∧
   (main w args st).1 = SysExit (ExitCode 1) ∧
   root (main w args st).2 = t1 ∧
   history (main w args st).2 =
     history st ++ greeting args ++
     NewJob OSXBatchJob ::
     SetEnv "TERM" (default "xterm-256color" (environ st !! "TERM")) ::
     (if bool_decide (Some "osx" = Some "windows") then [SetEnv "ConEmuANSI" "ON"] else []) ++
     [Log ("Using workspace: @!" +:+ workspace args);
      CleanWorkspace (workspace args); CallHook Pre; CallHook ShowEnv;
      Run (job_run_prefix st ++ [sys_executable w; "-m"; "pip"; "install"; "-U"; "virtualenv"])
          false true 1]) ∧
  (* the import of the repositories fails, the fetch having passed *)
  (let w := Sample.host Sample.linux_host (fun n => if bool_decide (n = 5) then 3%Z else 0%Z) in
   let j := LinuxBatchJob in
   let st := start w ["job"; "workspace"] ∅
               (FS.Dir [("job", FS.Dir [("workspace", FS.Dir [])])]) in
   let st1 := ((when (do_venv args) (enter_venv w (Some j));;
                install_pip_dependencies w (Some j);;
                get_repositories w args (Some j)) st).2 in
   let st2 := (ensure_dir [sourcespace args] st1).2 in
   let t := (external w (ncalls st2) (root st2)).2 in
   (((when (do_venv args) (enter_venv w (Some j));;
      install_pip_dependencies w (Some j);;
      get_repositories w args (Some j)) st = (Ok tt, st1)) ∧
    ensure_dir [sourcespace args] st1 = (Ok tt, st2) ∧
    external w (ncalls st2) (root st2) = (3%Z, t) ∧ 3%Z ≠ 0%Z) ∧
   in_workspace w args (Some j) st =
     (SysExit (ExitCode 3),
      emit (Run (job_run_prefix st2 ++ vcs_import_cmd args) true true 3)
           (tick (set_root t st2)))).
Proof.
  intros args. split; [|split].
  - intros w st fetch.
    assert (Hq : quiet (trace st)) by constructor.
    assert (Hc : 22%Z ≠ 0%Z) by lia.
    assert (Hin : fetch ∈ history (main w args st).2) by compute_done.
    split; [auto|].
    exact (proj1 (fatal_command_ends_the_run w args) st (curl_cmd args) false 22%Z Hq Hc Hin).
  - intros w st t0 t1.
    assert (Hsel : select_job (os args) (platform_platform w) = (Some "osx", Some OSXBatchJob))
      by reflexivity.
    assert (Hlinux : Some "osx" ≠ Some "linux") by discriminate.
    assert (Hok : do_venv args && bool_decide (Some "osx" = Some "windows") = false)
      by reflexivity.
    assert (Hclean :
      (if FS.exists_ (cwd st ++ [workspace args]) (root st)
       then FS.remove (cwd st ++ [workspace args]) (root st) else Some (root st))
        ≫= FS.makedirs (cwd st ++ [workspace args]) = Some t0) by reflexivity.
    assert (H0 : external w (ncalls st) t0 = (0%Z, t1)) by reflexivity.
    assert (H1 : external w (S (ncalls st)) t1 = (0%Z, t1)) by reflexivity.
    assert (H2 : external w (S (S (ncalls st))) t1 = (1%Z, t1)) by reflexivity.
    assert (Hc : 1%Z ≠ 0%Z) by lia.
    split.
    { exact (conj Hsel (conj Hlinux (conj Hok (conj Hclean
               (conj H0 (conj H1 (conj H2 Hc))))))). }
    exact (proj1 (proj2 (proj2 (fatal_command_ends_the_run w args)))
             OSXBatchJob (Some "osx") st t0 t1 t1 1%Z t1 Hsel Hlinux Hok Hclean H0 H1 H2 Hc).
  - intros w j st st1 st2 t.
    assert (Hpre : (when (do_venv args) (enter_venv w (Some j));;
                    install_pip_dependencies w (Some j);;
                    get_repositories w args (Some j)) st = (Ok tt, st1))
      by (vm_compute; reflexivity).
    assert (Hdir : ensure_dir [sourcespace args] st1 = (Ok tt, st2))
      by (vm_compute; reflexivity).
    assert (Hext : external w (ncalls st2) (root st2) = (3%Z, t)) by (vm_compute; reflexivity).
    assert (Hc : 3%Z ≠ 0%Z) by lia.
    split; [exact (conj Hpre (conj Hdir (conj Hext Hc)))|].
    exact (proj2 (proj2 (proj2 (proj2 (proj2 (fatal_command_ends_the_run w args)))))
             j st st1 st2 3%Z t Hpre Hdir Hext Hc).
Defined.

(** ** The two configuration errors *)

Lemma select_job_windows arg_os platform_ job :
  select_job arg_os platform_ = (Some "windows", job) → job = Some WindowsBatchJob.
Proof.
  unfold select_job; simpl.
  repeat match goal with
         | |- context [bool_decide ?P] =>
             destruct (bool_decide_reflect P); simpl; [congruence|]
         | |- context [PyStr.startswith ?a ?b] =>
             destruct (PyStr.startswith a b); simpl; [congruence|]
         end.
  congruence.
Qed.

(** Where the selection leaves [args.os] at [windows], [--do-venv] ends
    the run at line 105, with nothing done but the logging of the
    arguments and the making of the job. *)
Lemma do_venv_on_windows_rejected w args st job :
  select_job (os args) (platform_platform w) = (Some "windows", job) →
  do_venv args = true →
  (main w args st).1 = SysExit (ExitMsg venv_exit_message) ∧
  history (main w args st).2 = history st ++ greeting args ++ [NewJob WindowsBatchJob].
Proof.
  intros Hsel Hvenv. pose proof (select_job_windows _ _ _ Hsel) as ->.
  unfold main. rewrite Hsel, Hvenv. unfold history, greeting.
  destruct (force_ansi_color args); simpl.
  all: split; [reflexivity|].
  all: rewrite !reverse_cons, <- !app_assoc; reflexivity.
Qed.

(** Whenever the selection takes no branch, the workspace is cleared
    before the run fails; no test of [job] or of [args.os] comes
    earlier. *)
Lemma unsupported_host_general w args st o :
  select_job (os args) (platform_platform w) = (o, None) →
  ((main w args st).1 = Raised "AttributeError" ∨ (main w args st).1 = Raised "OSError") ∧
  history (main w args st).2 =
    history st ++ greeting args ++
    [SetEnv "TERM" (default "xterm-256color" (environ st !! "TERM"));
     Log ("Using workspace: @!" +:+ workspace args);
     CleanWorkspace (workspace args)].
Proof.
  intros Hsel. destruct (select_job_None _ _ _ Hsel) as (-> & _ & _ & Hwin).
  unfold main. rewrite Hsel.
  rewrite (bool_decide_eq_false_2 _ Hwin), andb_false_r.
  unfold history, greeting, clean_workspace, resolve, job_hook.
  destruct (force_ansi_color args); simpl.
  all: unfold bind, do, get, setenv, modify, ret, raise; simpl.
  all: match goal with |- context [FS.exists_ ?p ?t] => destruct (FS.exists_ p t) end.
  all: match goal with |- context [mbind ?f ?x] => destruct (mbind f x) end; simpl.
  all: split; [auto|].
  all: rewrite !reverse_cons, <- !app_assoc; reflexivity.
Qed.

(** C3 (the code does not do this on every host): with [--os windows
    --do-venv] on a Linux host the selection has set [args.os] to [linux]
    before line 104 tests it, so the run is not rejected: the workspace is
    cleared, the virtual environment is made and the run goes on to the
    end.  (The same flags on a Windows host are rejected.) *)
Theorem do_venv_windows_flag_not_rejected :
  let args := Sample.args (Some "windows") true in
  let out := Sample.run Sample.linux_host Sample.all_pass args in
  select_job (os args) Sample.linux_host = (Some "linux", Some LinuxBatchJob) ∧
  out.1 = Ok 0%Z ∧
  CleanWorkspace "workspace" ∈ history out.2 ∧
  Run ["/usr/bin/python3"; "-m"; "virtualenv"; "-p"; "/usr/bin/python3"; "venv"] false true 0
    ∈ history out.2 ∧
  (Sample.run Sample.windows_host Sample.all_pass args).1
    = SysExit (ExitMsg venv_exit_message).
Proof.
  split; [reflexivity|].
  split; [vm_compute; reflexivity|].
  split; [compute_done|].
  split; [compute_done|].
  vm_compute; reflexivity.
Qed.

(** ** Build, test, test results *)

(** C5: from the build on, whatever the three invocations of the build
    tool return, the run is not ended by them and [main] returns 0.  Each
    of the three commands is run, with the code the host gave it; a build
    that failed is followed by the debugger hook, and then by the tests
    all the same. *)
Theorem build_and_test_returns_0 (w : world) (args : Namespace) (j : BatchJob) (st : proc) :
  let out := build_and_test w args (Some j) st in
  let n := ncalls st in
  let prefix := job_run_prefix st in
  let python := job_python st in
  let build := external w n (root st) in
  let test := external w (S n) build.2 in
  let test_results := external w (S (S n)) test.2 in
  out.1 = Ok 0%Z ∧
  history out.2 =
    history st ++
    [Run (prefix ++ build_cmd w args python) false false build.1] ++
    (if (build.1 =? 0)%Z then []
     else [Log "Starting remote Python debugger..."; SetTrace]) ++
    [Run (prefix ++ test_cmd w args python) false false test.1;
     Log ("ament.py test returned: '" +:+ pretty test.1 +:+ "'");
     Run (prefix ++ test_results_cmd w args python) false false test_results.1;
     Log ("ament.py test_results returned: '" +:+ pretty test_results.1 +:+ "'")].
Proof.
  unfold build_and_test, job_run, bind, get, do, external_call, when, ret, history; simpl.
  destruct (external w (ncalls st) (root st)) as [c1 t1]; simpl.
  destruct (c1 =? 0)%Z; simpl.
  all: destruct (external w (S (ncalls st)) t1) as [c2 t2]; simpl.
  all: destruct (external w (S (S (ncalls st))) t2) as [c3 t3]; simpl.
  all: split; [reflexivity|].
  all: rewrite !reverse_cons, <- !app_assoc; reflexivity.
Qed.

(** ** The working directory *)

Create HintDb keeps_cwd.

Lemma keeps_cwd_ret {A} (a : A) : keeps_cwd (ret a).
Proof. by intros st. Qed.

Lemma keeps_cwd_bind {A B} (m : M A) (k : A → M B) :
  keeps_cwd m → (∀ a, keeps_cwd (k a)) → keeps_cwd (bind m k).
Proof.
  intros Hm Hk st. specialize (Hm st). unfold bind.
  destruct (m st) as [[a | e | e] st']; simpl in *; [|done..].
  by rewrite Hk.
Qed.

Lemma keeps_cwd_do e : keeps_cwd (do e).
Proof. by intros st. Qed.

Lemma keeps_cwd_get {A} (f : proc → A) : keeps_cwd (get f).
Proof. by intros st. Qed.

Lemma keeps_cwd_modify f : (∀ st, cwd (f st) = cwd st) → keeps_cwd (modify f).
Proof. intros Hf st. apply Hf. Qed.

Lemma keeps_cwd_raise {A} e : keeps_cwd (@raise A e).
Proof. by intros st. Qed.

Lemma keeps_cwd_sys_exit {A} e : keeps_cwd (@sys_exit A e).
Proof. by intros st. Qed.

Lemma keeps_cwd_when b m : keeps_cwd m → keeps_cwd (when b m).
Proof. intros Hm. destruct b; simpl; [exact Hm | apply keeps_cwd_ret]. Qed.

Lemma keeps_cwd_for_each {A} (l : list A) body :
  (∀ x, keeps_cwd (body x)) → keeps_cwd (for_each l body).
Proof.
  intros Hb. induction l as [|x l IH]; simpl.
  - apply keeps_cwd_ret.
  - apply keeps_cwd_bind; auto.
Qed.

Lemma keeps_cwd_external_call w : keeps_cwd (external_call w).
Proof. intros st. unfold external_call. by destruct (external w _ _). Qed.

(** The scope of a directory change keeps the directory whatever its
    body does to it. *)
Lemma keeps_cwd_change_directory {A} p (body : M A) : keeps_cwd (change_directory p body).
Proof. intros st. unfold change_directory. by destruct (body _). Qed.

Ltac keeps_cwd_step :=
  lazymatch goal with
  | |- keeps_cwd (bind _ _) => apply keeps_cwd_bind; [|intros ?]
  | |- keeps_cwd (do _) => apply keeps_cwd_do
  | |- keeps_cwd (ret _) => apply keeps_cwd_ret
  | |- keeps_cwd (get _) => apply keeps_cwd_get
  | |- keeps_cwd (raise _) => apply keeps_cwd_raise
  | |- keeps_cwd (sys_exit _) => apply keeps_cwd_sys_exit
  | |- keeps_cwd (modify _) => apply keeps_cwd_modify; intros ?; reflexivity
  | |- keeps_cwd (when _ _) => apply keeps_cwd_when
  | |- keeps_cwd (for_each _ _) => apply keeps_cwd_for_each; intros ?
  | |- keeps_cwd (external_call _) => apply keeps_cwd_external_call
  | |- keeps_cwd (change_directory _ _) => apply keeps_cwd_change_directory
  | |- keeps_cwd (match ?x with _ => _ end) => destruct x
  | |- keeps_cwd _ => solve [auto with keeps_cwd]
  end.

Ltac keeps_cwd_auto := repeat keeps_cwd_step.

Lemma keeps_cwd_job_run w job cmd shell exit_on_error :
  keeps_cwd (job_run w job cmd shell exit_on_error).
Proof. unfold job_run. keeps_cwd_auto. Qed.

Lemma keeps_cwd_job_hook w job h : keeps_cwd (job_hook w job h).
Proof. unfold job_hook. keeps_cwd_auto. Qed.

Lemma keeps_cwd_clean_workspace ws : keeps_cwd (clean_workspace ws).
Proof. unfold clean_workspace, resolve. keeps_cwd_auto. Qed.

Lemma keeps_cwd_setenv name value : keeps_cwd (setenv name value).
Proof. unfold setenv. keeps_cwd_auto. Qed.

Global Hint Resolve keeps_cwd_job_run keeps_cwd_job_hook keeps_cwd_clean_workspace
  keeps_cwd_setenv : keeps_cwd.

(** From its entry to whatever end it takes, [main] leaves the process in
    the directory it was started in. *)
Lemma keeps_cwd_main w args : keeps_cwd (main w args).
Proof. unfold main. keeps_cwd_auto. Qed.

(** C7: whatever the body of a scoped directory change does and however
    it ends (a value, which is also how the [return 0] inside the block of
    [main] leaves it; an exit of the process; an exception), the working
    directory afterwards is the one from before the change, and the way
    the body ended is handed on unchanged.  The block of [main] that
    enters the workspace is one such body, and [main] as a whole ends in
    the directory it started in. *)
Theorem change_directory_restores :
  (∀ (A : Type) (p : FS.path) (body : M A) (st : proc),
     let inside := emit (Chdir (cwd st ++ p)) (set_cwd (cwd st ++ p) st) in
     let out := change_directory p body st in
     cwd inside = cwd st ++ p ∧
     out.1 = (body inside).1 ∧
     cwd out.2 = cwd st ∧
     trace out.2 = Chdir (cwd st) :: trace (body inside).2) ∧
  (∀ w args job st,
     cwd (change_directory [workspace args] (in_workspace w args job) st).2 = cwd st) ∧
  (∀ w args st, cwd (main w args st).2 = cwd st).
Proof.
  assert (H : ∀ (A : Type) (p : FS.path) (body : M A) (st : proc),
     let inside := emit (Chdir (cwd st ++ p)) (set_cwd (cwd st ++ p) st) in
     let out := change_directory p body st in
     cwd inside = cwd st ++ p ∧
     out.1 = (body inside).1 ∧
     cwd out.2 = cwd st ∧
     trace out.2 = Chdir (cwd st) :: trace (body inside).2).
  { intros A p body st. unfold change_directory; simpl.
    destruct (body _) as [r st']; simpl. auto. }
  split; [exact H|]. split.
  - intros w args job st. apply H.
  - intros w args st. apply keeps_cwd_main.
Qed.

(** ** The imports of [packaging.py] *)

(** C4: whatever is made of the arguments, running the packaging module
    ends in an import failure before its [main] is entered: [__main__]
    binds neither [get_args] nor [run], and the first of the two imports
    (line 21) already fails.  Nothing has happened by then, and
    [build_and_package], which only [main] would hand to [run], is never
    reached. *)
Theorem packaging_import_fails :
  Packaging.getattr Packaging.main_globals "get_args" = None ∧
  Packaging.getattr Packaging.main_globals "run" = None ∧
  ∀ (A : Type) (entry : Packaging.pyobject → Packaging.pyobject → M A) (st : proc),
    Packaging.module_body entry st = (Raised "ImportError", st).
Proof. repeat split. Qed.

(** ** Files: what a removal leaves *)

Lemma assoc_put_eq n c es : FS.assoc n (FS.put n c es) = Some c.
Proof.
  induction es as [|[m d] es IH]; simpl.
  - by rewrite bool_decide_eq_true_2.
  - case_bool_decide; simpl.
    + by rewrite bool_decide_eq_true_2.
    + by rewrite bool_decide_eq_false_2.
Qed.

Lemma assoc_drop_eq n es : FS.assoc n (FS.drop n es) = None.
Proof.
  induction es as [|[m d] es IH]; simpl; [done|].
  case_bool_decide; simpl; [done|]. by rewrite bool_decide_eq_false_2.
Qed.

Lemma lookup_Dir n p es :
  FS.lookup (n :: p) (FS.Dir es) = FS.assoc n es ≫= FS.lookup p.
Proof. reflexivity. Qed.

Lemma remove_deeper n n' p es :
  FS.remove (n :: n' :: p) (FS.Dir es) =
    FS.assoc n es ≫= λ d, FS.remove (n' :: p) d ≫= λ d', Some (FS.Dir (FS.put n d' es)).
Proof. reflexivity. Qed.

Lemma write_deeper n n' p c es :
  FS.write (n :: n' :: p) c (FS.Dir es) =
    FS.assoc n es ≫= λ d, FS.write (n' :: p) c d ≫= λ d', Some (FS.Dir (FS.put n d' es)).
Proof. reflexivity. Qed.

Lemma lookup_remove p : ∀ t t', FS.remove p t = Some t' → FS.lookup p t' = None.
Proof.
  induction p as [|n p IH]; intros t t'; [done|].
  destruct t as [content|es]; [done|].
  destruct p as [|n' p].
  - simpl. destruct (FS.assoc n es); simpl; [|done].
    intros [= <-]. simpl. by rewrite assoc_drop_eq.
  - rewrite remove_deeper.
    destruct (FS.assoc n es) as [d|]; [|done]. cbn [mbind option_bind].
    destruct (FS.remove (n' :: p) d) as [d'|] eqn:Hd; [|done]. cbn [mbind option_bind].
    intros [= <-]. rewrite lookup_Dir, assoc_put_eq. cbn [mbind option_bind].
    by apply IH in Hd.
Qed.

Lemma lookup_write p c : ∀ t t', FS.write p c t = Some t' → FS.lookup p t' = Some c.
Proof.
  induction p as [|n p IH]; intros t t'; [simpl; congruence|].
  destruct t as [content|es]; [done|].
  destruct p as [|n' p].
  - simpl. intros [= <-]. simpl. by rewrite assoc_put_eq.
  - rewrite write_deeper.
    destruct (FS.assoc n es) as [d|]; [|done]. cbn [mbind option_bind].
    destruct (FS.write (n' :: p) c d) as [d'|] eqn:Hd; [|done]. cbn [mbind option_bind].
    intros [= <-]. rewrite lookup_Dir, assoc_put_eq. cbn [mbind option_bind].
    by apply IH in Hd.
Qed.

Lemma lookup_entry n : ∀ dir t es,
  FS.lookup dir t = Some (FS.Dir es) → FS.lookup (dir ++ [n]) t = FS.assoc n es.
Proof.
  induction dir as [|m dir IH]; intros t es Hl.
  - simpl in Hl. injection Hl as ->. simpl. by destruct (FS.assoc n es).
  - destruct t as [content|es0]; [done|].
    rewrite lookup_Dir in Hl. change ((m :: dir) ++ [n]) with (m :: (dir ++ [n])).
    rewrite lookup_Dir. destruct (FS.assoc m es0) as [d|]; [|done]. simpl in *.
    by apply IH.
Qed.

(** Writing the entry [n] of the directory at [dir]. *)
Lemma write_entry n c : ∀ dir t es,
  FS.lookup dir t = Some (FS.Dir es) →
  ∃ t', FS.write (dir ++ [n]) c t = Some t' ∧
        FS.lookup dir t' = Some (FS.Dir (FS.put n c es)).
Proof.
  induction dir as [|m dir IH]; intros t es Hl.
  - simpl in Hl. injection Hl as ->. simpl. by eexists.
  - destruct t as [content|es0]; [done|].
    rewrite lookup_Dir in Hl. destruct (FS.assoc m es0) as [d|] eqn:Hm; [|done].
    simpl in Hl. destruct (IH _ _ Hl) as (d' & Hw & Hl').
    change ((m :: dir) ++ [n]) with (m :: (dir ++ [n])).
    exists (FS.Dir (FS.put m d' es0)). split.
    + destruct (dir ++ [n]) as [|x l] eqn:Hd; [by destruct dir|].
      rewrite write_deeper, Hm. cbn [mbind option_bind]. by rewrite Hw.
    + by rewrite lookup_Dir, assoc_put_eq.
Qed.

(** What is there can be removed. *)
Lemma remove_present p : ∀ t c,
  p ≠ [] → FS.lookup p t = Some c → is_Some (FS.remove p t).
Proof.
  induction p as [|n p IH]; intros t c Hp Hl; [done|].
  destruct t as [content|es]; [done|].
  rewrite lookup_Dir in Hl. destruct (FS.assoc n es) as [d|] eqn:Hn; [|done].
  cbn [mbind option_bind] in Hl. destruct p as [|n' p].
  - simpl. rewrite Hn. by eexists.
  - rewrite remove_deeper, Hn. cbn [mbind option_bind].
    destruct (IH d c) as [d' Hd]; [done | done |]. rewrite Hd. by eexists.
Qed.

(** ** The marker on the ROS 1 bridge *)

(** [os.remove] of a file, and of what is no file. *)
Lemma os_remove_file m st content :
  m ≠ [] → FS.lookup (cwd st ++ m) (root st) = Some (FS.File content) →
  ∃ t', FS.remove (cwd st ++ m) (root st) = Some t' ∧
        Packaging.os_remove m st = (Ok tt, set_root t' (emit (Remove (cwd st ++ m)) st)).
Proof.
  intros Hm Hl.
  assert (Hp : cwd st ++ m ≠ []) by (by destruct (cwd st), m).
  destruct (remove_present _ _ _ Hp Hl) as [t' Hr].
  exists t'. split; [done|].
  unfold Packaging.os_remove, resolve, bind, get, do, modify. cbn [fst snd].
  by rewrite Hl, Hr.
Qed.

Lemma os_remove_no_file m st :
  (∀ content, FS.lookup (cwd st ++ m) (root st) ≠ Some (FS.File content)) →
  Packaging.os_remove m st = (Raised "OSError", st).
Proof.
  intros Hl. unfold Packaging.os_remove, resolve, bind, get. cbn [fst snd].
  destruct (FS.lookup (cwd st ++ m) (root st)) as [[content|es]|] eqn:H; [|done..].
  by destruct (Hl content).
Qed.

(** Lines 32-40 when the bridge is there: the marker is written. *)
Lemma mask_bridge_writes w args st es :
  FS.lookup (cwd st ++ Packaging.ros1_bridge_path args) (root st) = Some (FS.Dir es) →
  (∀ es', FS.assoc "AMENT_IGNORE" es ≠ Some (FS.Dir es')) →
  ∃ masked,
    FS.write (cwd st ++ Packaging.ros1_bridge_ignore_marker args) (FS.File "") (root st)
      = Some masked ∧
    FS.lookup (cwd st ++ Packaging.ros1_bridge_ignore_marker args) masked
      = Some (FS.File "") ∧
    Packaging.mask_bridge w args st =
      (Ok (Some (Packaging.ros1_bridge_ignore_marker args)),
       set_root masked
         (emit (Touch (cwd st ++ Packaging.ros1_bridge_ignore_marker args))
            (emit (Log ("ROS1 bridge path ignore file: "
                        +:+ path_str w (Packaging.ros1_bridge_ignore_marker args)))
               (emit (Log ("ROS1 bridge path: "
                           +:+ path_str w (Packaging.ros1_bridge_path args))) st)))).
Proof.
  intros Hbridge Hnodir.
  unfold Packaging.ros1_bridge_ignore_marker. rewrite !app_assoc.
  destruct (write_entry "AMENT_IGNORE" (FS.File "") _ _ _ Hbridge) as (masked & Hw & Hl).
  pose proof (lookup_entry "AMENT_IGNORE" _ _ _ Hbridge) as Hold.
  exists masked. split; [exact Hw|]. split.
  { by rewrite (lookup_entry "AMENT_IGNORE" _ _ _ Hl), assoc_put_eq. }
  assert (Hex : FS.exists_ (cwd st ++ Packaging.ros1_bridge_path args) (root st) = true).
  { unfold FS.exists_. rewrite Hbridge. by apply bool_decide_eq_true_2. }
  unfold Packaging.mask_bridge, resolve.
  unfold bind at 1. unfold do at 1. unfold bind at 1. unfold get at 1.
  unfold bind at 1. unfold get at 1. cbn [cwd root emit]. rewrite Hex.
  unfold bind at 1. unfold do at 1. unfold bind at 1.
  unfold Packaging.touch, resolve. unfold bind at 1. unfold get at 1.
  unfold bind at 1. unfold get at 1. cbn [cwd root emit].
  unfold Packaging.ros1_bridge_ignore_marker. rewrite !app_assoc, Hold, Hw.
  destruct (FS.assoc "AMENT_IGNORE" es) as [[?|es']|] eqn:Ha;
    [reflexivity | by destruct (Hnodir es') | reflexivity].
Qed.

(** C9, as the code has it: when the bridge is a directory of the sources
    at the start (and nothing but a file can be in the way of the marker),
    the marker is written before the main build is invoked: the build runs
    on the files with the marker in place.  What follows depends on the
    build alone.  When it comes back with 0 and the marker is still a file,
    the marker is removed right after and is not there any more.  When it
    comes back with 0 but the marker is no longer a file, [os.remove] fails
    and the stage ends with that exception.  When it comes back with any
    other code [c], the command being run with exit-on-error, the run ends
    at once with [c], whatever the program had next: the stage removes
    nothing and the files are as the build left them. *)
Theorem marker_removed_after_build
    (w : world) (args : Packaging.Args) (j : BatchJob) (st : proc)
    (es : list (string * FS.node)) :
  let marker := cwd st ++ Packaging.ros1_bridge_ignore_marker args in
  FS.lookup (cwd st ++ Packaging.ros1_bridge_path args) (root st) = Some (FS.Dir es) →
  (∀ es', FS.assoc "AMENT_IGNORE" es ≠ Some (FS.Dir es')) →
  ∃ masked,
    FS.write marker (FS.File "") (root st) = Some masked ∧
    FS.lookup marker masked = Some (FS.File "") ∧
    ∀ c t, external w (ncalls st) masked = (c, t) →
      let out := Packaging.masked_build w args (Some j) st in
      let upto_build :=
        history st ++
        [Log ("ROS1 bridge path: " +:+ path_str w (Packaging.ros1_bridge_path args));
         Log ("ROS1 bridge path ignore file: "
              +:+ path_str w (Packaging.ros1_bridge_ignore_marker args));
         Touch marker;
         Run (job_run_prefix st ++ Packaging.build_cmd w args (job_python st)) false true c] in
      if bool_decide (c = 0%Z) then
        match FS.lookup marker t with
        | Some (FS.File _) =>
            out.1 = Ok tt ∧ history out.2 = upto_build ++ [Remove marker] ∧
            FS.lookup marker (root out.2) = None
        | _ =>
            out.1 = Raised "OSError" ∧ history out.2 = upto_build ∧ root out.2 = t
        end
      else
        out.1 = SysExit (ExitCode c) ∧ history out.2 = upto_build ∧ root out.2 = t ∧
        ∀ B (next : unit → M B),
          bind (Packaging.masked_build w args (Some j)) next st = (SysExit (ExitCode c), out.2).
Proof.
  intros marker Hbridge Hnodir. subst marker.
  destruct (mask_bridge_writes w args st es Hbridge Hnodir) as (masked & Hw & Hl & Hmask).
  exists masked. split; [exact Hw|]. split; [exact Hl|].
  intros c t Hext out upto_build.
  set (st1 := set_root masked _) in Hmask.
  assert (Hext1 : external w (ncalls st1) (root st1) = (c, t)) by exact Hext.
  assert (Hne : Packaging.ros1_bridge_ignore_marker args ≠ []).
  { unfold Packaging.ros1_bridge_ignore_marker. by destruct (Packaging.ros1_bridge_path args). }
  assert (Hhist : ∀ tail, reverse (tail ++ trace
      (emit (Run (job_run_prefix st1 ++ Packaging.build_cmd w args (job_python st1))
                 false true c) (tick (set_root t st1)))) = upto_build ++ reverse tail).
  { intros tail. subst upto_build st1. unfold history. simpl.
    rewrite reverse_app, !reverse_cons, <- !app_assoc. reflexivity. }
  case_bool_decide as Hc.
  - subst c.
    pose proof (job_run_passes w j (Packaging.build_cmd w args (job_python st1)) false true
                  st1 t Hext1) as Hrun.
    set (st2 := emit _ (tick (set_root t st1))) in Hrun, Hhist.
    assert (Hshape : Packaging.masked_build w args (Some j) st
                     = Packaging.os_remove (Packaging.ros1_bridge_ignore_marker args) st2).
    { unfold Packaging.masked_build. rewrite (bind_Ok _ _ _ _ _ Hmask).
      unfold bind at 1. unfold get at 1. by rewrite (bind_Ok _ _ _ _ _ Hrun). }
    change (FS.lookup (cwd st ++ Packaging.ros1_bridge_ignore_marker args) t)
      with (FS.lookup (cwd st2 ++ Packaging.ros1_bridge_ignore_marker args) (root st2)).
    destruct (FS.lookup (cwd st2 ++ Packaging.ros1_bridge_ignore_marker args) (root st2))
      as [[content|es']|] eqn:Hm.
    + destruct (os_remove_file (Packaging.ros1_bridge_ignore_marker args) st2 content Hne Hm)
        as (t' & Hr & Hrm).
      subst out. rewrite Hshape, Hrm. cbn [fst snd].
      split; [done|]. split.
      * unfold history. apply (Hhist [Remove _]).
      * eapply lookup_remove. exact Hr.
    + subst out. rewrite Hshape, os_remove_no_file by (intros content; by rewrite Hm).
      cbn [fst snd]. split; [done|]. split; [|done].
      unfold history. pose proof (Hhist []) as H0.
      by rewrite app_nil_l, reverse_nil, app_nil_r in H0.
    + subst out. rewrite Hshape, os_remove_no_file by (intros content; by rewrite Hm).
      cbn [fst snd]. split; [done|]. split; [|done].
      unfold history. pose proof (Hhist []) as H0.
      by rewrite app_nil_l, reverse_nil, app_nil_r in H0.
  - assert (Hrun : ∀ B (next : unit → M B),
      bind (Packaging.masked_build w args (Some j)) next st =
      (SysExit (ExitCode c),
       emit (Run (job_run_prefix st1 ++ Packaging.build_cmd w args (job_python st1))
                 false true c) (tick (set_root t st1)))).
    { intros B next. unfold Packaging.masked_build.
      rewrite !bind_assoc, (bind_Ok _ _ _ _ _ Hmask).
      rewrite bind_assoc. unfold bind at 1. unfold get at 1.
      rewrite bind_assoc. by apply job_run_fatal. }
    assert (Hout : Packaging.masked_build w args (Some j) st =
      (SysExit (ExitCode c),
       emit (Run (job_run_prefix st1 ++ Packaging.build_cmd w args (job_python st1))
                 false true c) (tick (set_root t st1)))).
    { pose proof (Hrun unit ret) as H. unfold bind in H.
      destruct (Packaging.masked_build w args (Some j) st) as [[[]|e|x] s']; exact H. }
    subst out. rewrite Hout. cbn [fst snd]. split; [done|]. split; [|split; [done|]].
    + unfold history. pose proof (Hhist []) as H0.
      by rewrite app_nil_l, reverse_nil, app_nil_r in H0.
    + exact Hrun.
Qed.

Lemma marker_removed_after_build_witness :
  let w := Sample.host Sample.linux_host Sample.all_pass in
  let args := Sample.package_args "linux" in
  let j := LinuxBatchJob in
  let st := Sample.package_start in
  let es := [("package.xml", FS.File "xml")] in
  let marker := cwd st ++ Packaging.ros1_bridge_ignore_marker args in
  (FS.lookup (cwd st ++ Packaging.ros1_bridge_path args) (root st) = Some (FS.Dir es) ∧
   (∀ es', FS.assoc "AMENT_IGNORE" es ≠ Some (FS.Dir es'))) ∧
  ∃ masked,
    FS.write marker (FS.File "") (root st) = Some masked ∧
    FS.lookup marker masked = Some (FS.File "") ∧
    ∀ c t, external w (ncalls st) masked = (c, t) →
      let out := Packaging.masked_build w args (Some j) st in
      let upto_build :=
        history st ++
        [Log ("ROS1 bridge path: " +:+ path_str w (Packaging.ros1_bridge_path args));
         Log ("ROS1 bridge path ignore file: "
              +:+ path_str w (Packaging.ros1_bridge_ignore_marker args));
         Touch marker;
         Run (job_run_prefix st ++ Packaging.build_cmd w args (job_python st)) false true c] in
      if bool_decide (c = 0%Z) then
        match FS.lookup marker t with
        | Some (FS.File _) =>
            out.1 = Ok tt ∧ history out.2 = upto_build ++ [Remove marker] ∧
            FS.lookup marker (root out.2) = None
        | _ =>
            out.1 = Raised "OSError" ∧ history out.2 = upto_build ∧ root out.2 = t
        end
      else
        out.1 = SysExit (ExitCode c) ∧ history out.2 = upto_build ∧ root out.2 = t ∧
        ∀ B (next : unit → M B),
          bind (Packaging.masked_build w args (Some j)) next st = (SysExit (ExitCode c), out.2).
Proof.
  intros w args j st es marker.
  assert (Hbridge : FS.lookup (cwd st ++ Packaging.ros1_bridge_path args) (root st)
                    = Some (FS.Dir es)) by reflexivity.
  assert (Hnodir : ∀ es', FS.assoc "AMENT_IGNORE" es ≠ Some (FS.Dir es'))
    by (intros es'; discriminate).
  split; [exact (conj Hbridge Hnodir)|].
  exact (marker_removed_after_build w args j st es Hbridge Hnodir).
Defined.

(** C9 as stated does not hold when the main build fails: the command is
    run with exit-on-error, the process ends with its code at once, and the
    marker written before the build is still there. *)
Lemma marker_left_after_failed_build :
  let w := Sample.host Sample.linux_host (fun _ => 1%Z) in
  let args := Sample.package_args "linux" in
  let st := Sample.package_start in
  let out := Packaging.build_and_package w args (Some LinuxBatchJob) st in
  let marker := ["ws"; "src"; "ros2"; "ros1_bridge"; "AMENT_IGNORE"] in
  FS.exists_ (cwd st ++ Packaging.ros1_bridge_path args) (root st) = true ∧
  FS.lookup marker (root st) = None ∧
  out.1 = SysExit (ExitCode 1) ∧
  history out.2 =
    [Log "ROS1 bridge path: src/ros2/ros1_bridge";
     Log "ROS1 bridge path ignore file: src/ros2/ros1_bridge/AMENT_IGNORE";
     Touch marker;
     Run (Packaging.build_cmd w args "/usr/bin/python3") false true 1] ∧
  FS.lookup marker (root out.2) = Some (FS.File "").
Proof. vm_compute. repeat split; reflexivity. Qed.

(** * Further properties of the pipeline *)

(** ** The selection of the job *)

Ltac select_job_cases :=
  unfold select_job; simpl;
  repeat match goal with
         | |- context [bool_decide ?P] => destruct (bool_decide_reflect P); simpl
         | |- context [PyStr.startswith ?a ?b] =>
             let H := fresh "Hhost" in destruct (PyStr.startswith a b) eqn:H; simpl
         end.

(** X1: the value the selection leaves in [args.os] and the job it makes
    always go together: [linux] with the Linux job, [osx] with the macOS
    job, [windows] with the Windows job; and when no job is made,
    [args.os] is the flag as it came, which is none of the three names. *)
Theorem select_job_agrees (arg_os : option string) (platform_ : string) :
  let '(resolved, job) := select_job arg_os platform_ in
  match job with
  | Some j => ∃ name, resolved = Some name ∧ job_named name = Some j
  | None => resolved = arg_os ∧ ∀ name, arg_os = Some name → job_named name = None
  end.
Proof.
  select_job_cases; try (by eexists; split; [reflexivity|reflexivity]).
  split; [reflexivity|]. intros name ->. unfold job_named.
  rewrite !bool_decide_eq_false_2; [done|congruence..].
Qed.

(** X2: no job is made exactly when the flag is none of the three names
    and the lowered platform string starts with none of [linux], [darwin],
    [windows]; so with any value [--os] accepts there is always a job. *)
Theorem select_job_no_job (arg_os : option string) (platform_ : string) :
  (select_job arg_os platform_).2 = None ↔
  (arg_os ≠ Some "linux" ∧ arg_os ≠ Some "osx" ∧ arg_os ≠ Some "windows") ∧
  PyStr.startswith (PyStr.lower platform_) "linux" = false ∧
  PyStr.startswith (PyStr.lower platform_) "darwin" = false ∧
  PyStr.startswith (PyStr.lower platform_) "windows" = false.
Proof.
  select_job_cases; split; try done; try (intros [(? & ? & ?) _]; congruence);
    try (intros (_ & ? & ? & ?); congruence).
Qed.

(** X3: on a host that is neither Linux nor macOS (a Windows host, or one
    that is not supported) a flag that [--os] accepts is honoured: the job
    is the one the flag names and [args.os] stays the flag. *)
Theorem flag_honoured_off_linux_and_darwin (flag platform_ : string) :
  flag ∈ os_choices →
  PyStr.startswith (PyStr.lower platform_) "linux" = false →
  PyStr.startswith (PyStr.lower platform_) "darwin" = false →
  select_job (Some flag) platform_ = (Some flag, job_named flag).
Proof.
  intros Hflag Hlinux Hdarwin. unfold select_job. cbn zeta. rewrite Hlinux, Hdarwin.
  unfold os_choices in Hflag.
  repeat (apply elem_of_cons in Hflag as [-> | Hflag]; [reflexivity|]).
  by apply elem_of_nil in Hflag.
Qed.

Lemma flag_honoured_off_linux_and_darwin_witness :
  ("osx" ∈ os_choices ∧
   PyStr.startswith (PyStr.lower Sample.windows_host) "linux" = false ∧
   PyStr.startswith (PyStr.lower Sample.windows_host) "darwin" = false) ∧
  select_job (Some "osx") Sample.windows_host = (Some "osx", job_named "osx").
Proof.
  assert (H1 : "osx" ∈ os_choices) by compute_done.
  assert (H2 : PyStr.startswith (PyStr.lower Sample.windows_host) "linux" = false)
    by reflexivity.
  assert (H3 : PyStr.startswith (PyStr.lower Sample.windows_host) "darwin" = false)
    by reflexivity.
  split; [auto|].
  exact (flag_honoured_off_linux_and_darwin "osx" Sample.windows_host H1 H2 H3).
Defined.

(** X4: whatever is selected with [--white-space-in], the four names are
    different from one another, so the source, build and install spaces
    never fall on each other or on the workspace name. *)
Theorem space_names_distinct (args : Namespace) :
  NoDup [workspace args; sourcespace args; buildspace args; installspace args].
Proof.
  unfold workspace, sourcespace, buildspace, installspace.
  repeat match goal with |- context [PyStr.mem ?x ?l] => destruct (PyStr.mem x l) end.
  all: compute_done.
Qed.

(** ** The two ways [main] refuses a configuration *)

(** X5: when the selection leaves [args.os] at [windows] and [--do-venv]
    is given, [main] ends in [sys.exit] with the message of line 105, which
    is exit status 1; up to then it has only logged its arguments and made
    the job: no external call was made, and the files, the environment
    and the working directory are as before. *)
Theorem do_venv_on_windows_exits_early (w : world) (args : Namespace) (st : proc)
    (job : option BatchJob) :
  select_job (os args) (platform_platform w) = (Some "windows", job) →
  do_venv args = true →
  let out := main w args st in
  out.1 = SysExit (ExitMsg venv_exit_message) ∧
  exit_status (ExitMsg venv_exit_message) = 1%Z ∧
  history out.2 = history st ++ greeting args ++ [NewJob WindowsBatchJob] ∧
  ncalls out.2 = ncalls st ∧ root out.2 = root st ∧
  environ out.2 = environ st ∧ cwd out.2 = cwd st.
Proof.
  intros Hsel Hvenv. pose proof (select_job_windows _ _ _ Hsel) as ->.
  unfold main. rewrite Hsel, Hvenv. unfold history, greeting.
  destruct (force_ansi_color args); simpl.
  all: repeat split.
  all: rewrite !reverse_cons, <- !app_assoc; reflexivity.
Qed.

Lemma do_venv_on_windows_exits_early_witness :
  let w := Sample.host Sample.windows_host Sample.all_pass in
  let args := Sample.args None true in
  let st := start w ["job"] ∅ Sample.files in
  let out := main w args st in
  (select_job (os args) (platform_platform w) = (Some "windows", Some WindowsBatchJob) ∧
   do_venv args = true) ∧
  out.1 = SysExit (ExitMsg venv_exit_message) ∧
  exit_status (ExitMsg venv_exit_message) = 1%Z ∧
  history out.2 = history st ++ greeting args ++ [NewJob WindowsBatchJob] ∧
  ncalls out.2 = ncalls st ∧ root out.2 = root st ∧
  environ out.2 = environ st ∧ cwd out.2 = cwd st.
Proof.
  intros w args st out.
  assert (Hsel : select_job (os args) (platform_platform w)
                 = (Some "windows", Some WindowsBatchJob)) by reflexivity.
  assert (Hvenv : do_venv args = true) by reflexivity.
  split; [auto|].
  exact (do_venv_on_windows_exits_early w args st _ Hsel Hvenv).
Defined.

Lemma lookup_makedirs p : ∀ t t',
  FS.makedirs p t = Some t' → FS.lookup p t' = Some (FS.Dir []).
Proof.
  induction p as [|n p IH]; intros t t'; [done|].
  destruct t as [content|es]; [done|]. 
  destruct p as [|n' p].
  - simpl. destruct (FS.assoc n es); [done|].
    intros [= <-]. simpl. by rewrite assoc_put_eq.
  - change (FS.makedirs (n :: n' :: p) (FS.Dir es)) with
      (match FS.assoc n es with
       | None => FS.makedirs (n' :: p) (FS.Dir []) ≫= λ d', Some (FS.Dir (FS.put n d' es))
       | Some d => FS.makedirs (n' :: p) d ≫= λ d', Some (FS.Dir (FS.put n d' es))
       end).
    destruct (FS.assoc n es) as [d|].
    + destruct (FS.makedirs (n' :: p) d) as [d'|] eqn:Hd; [|done]. cbn [mbind option_bind].
      intros [= <-]. rewrite lookup_Dir, assoc_put_eq. cbn [mbind option_bind].
      by apply IH in Hd.
    + destruct (FS.makedirs (n' :: p) (FS.Dir [])) as [d'|] eqn:Hd; [|done].
      cbn [mbind option_bind].
      intros [= <-]. rewrite lookup_Dir, assoc_put_eq. cbn [mbind option_bind].
      by apply IH in Hd.
Qed.

(** X6: whenever the selection makes no job (no flag that names one, a
    host that is none of the three), [main] still sets [TERM], logs the
    workspace and clears it, without a single external call, and then
    fails: with [AttributeError] at [job.pre()], the workspace being by
    then an empty directory, or with [OSError] when the clearing itself
    could not be done. *)
Theorem no_job_clears_workspace_then_fails (w : world) (args : Namespace) (st : proc)
    (o : option string) :
  select_job (os args) (platform_platform w) = (o, None) →
  let out := main w args st in
  history out.2 =
    history st ++ greeting args ++
    [SetEnv "TERM" (default "xterm-256color" (environ st !! "TERM"));
     Log ("Using workspace: @!" +:+ workspace args);
     CleanWorkspace (workspace args)] ∧
  ncalls out.2 = ncalls st ∧
  ((out.1 = Raised "AttributeError" ∧
    FS.lookup (cwd st ++ [workspace args]) (root out.2) = Some (FS.Dir []))
   ∨ (out.1 = Raised "OSError" ∧ root out.2 = root st)).
Proof.
  intros Hsel. destruct (select_job_None _ _ _ Hsel) as (-> & _ & _ & Hwin).
  unfold main. rewrite Hsel.
  rewrite (bool_decide_eq_false_2 _ Hwin), andb_false_r.
  unfold history, greeting, clean_workspace, resolve, job_hook.
  destruct (force_ansi_color args); simpl.
  all: unfold bind, do, get, setenv, modify, ret, raise; simpl.
  all: match goal with |- context [mbind ?f ?x] => destruct (mbind f x) eqn:Hmk end; simpl.
  all: split; [rewrite !reverse_cons, <- !app_assoc; reflexivity|].
  all: split; [reflexivity|].
  all: try (right; split; reflexivity).
  all: left; split; [reflexivity|].
  all: apply bind_Some in Hmk as (t0 & _ & Hmk); by apply lookup_makedirs in Hmk.
Qed.

Lemma no_job_clears_workspace_then_fails_witness :
  let w := Sample.host Sample.freebsd_host Sample.all_pass in
  let args := Sample.args None false in
  let st := start w ["job"] ∅ Sample.files in
  let out := main w args st in
  select_job (os args) (platform_platform w) = (None, None) ∧
  history out.2 =
    history st ++ greeting args ++
    [SetEnv "TERM" (default "xterm-256color" (environ st !! "TERM"));
     Log ("Using workspace: @!" +:+ workspace args);
     CleanWorkspace (workspace args)] ∧
  ncalls out.2 = ncalls st ∧
  ((out.1 = Raised "AttributeError" ∧
    FS.lookup (cwd st ++ [workspace args]) (root out.2) = Some (FS.Dir []))
   ∨ (out.1 = Raised "OSError" ∧ root out.2 = root st)).
Proof.
  intros w args st out.
  assert (Hsel : select_job (os args) (platform_platform w) = (None, None)) by reflexivity.
  split; [exact Hsel|].
  exact (no_job_clears_workspace_then_fails w args st None Hsel).
Defined.

(** ** How a run can end *)

Lemma ends_well_ret {A} (P : A → Prop) a : P a → ends_well P (ret a).
Proof. by intros Ha st. Qed.

Lemma ends_well_bind {A B} (P : A → Prop) (Q : B → Prop) (m : M A) (k : A → M B) :
  ends_well P m → (∀ a, ends_well Q (k a)) → ends_well Q (bind m k).
Proof.
  intros Hm Hk st. specialize (Hm st). unfold bind.
  destruct (m st) as [[a | e | e] st']; simpl in *; [|done..].
  apply Hk.
Qed.

Lemma ends_well_weaken {A} (P Q : A → Prop) (m : M A) :
  (∀ a, P a → Q a) → ends_well P m → ends_well Q m.
Proof.
  intros HPQ Hm st. specialize (Hm st). destruct (m st).1; auto.
Qed.

Lemma ends_well_do e : ends_well (fun _ => True) (do e).
Proof. by intros st. Qed.

Lemma ends_well_get {A} (f : proc → A) : ends_well (fun _ => True) (get f).
Proof. by intros st. Qed.

Lemma ends_well_modify f : ends_well (fun _ => True) (modify f).
Proof. by intros st. Qed.

Lemma ends_well_raise {A} (P : A → Prop) e : ends_well P (raise e).
Proof. by intros st. Qed.

Lemma ends_well_when b m :
  ends_well (fun _ => True) m → ends_well (fun _ => True) (when b m).
Proof. intros Hm. destruct b; simpl; [exact Hm | by apply ends_well_ret]. Qed.

Lemma ends_well_for_each {A} (l : list A) body :
  (∀ x, ends_well (fun _ => True) (body x)) →
  ends_well (fun _ => True) (for_each l body).
Proof.
  intros Hb. induction l as [|x l IH]; simpl.
  - by apply ends_well_ret.
  - eapply ends_well_bind; [apply Hb | intros _; exact IH].
Qed.

(** [job.run] ends the process only with the code of a command that
    failed, which is not 0. *)
Lemma ends_well_job_run w job cmd shell exit_on_error :
  ends_well (fun _ => True) (job_run w job cmd shell exit_on_error).
Proof.
  intros st. unfold job_run. destruct job as [j|]; [|done].
  unfold bind, get, external_call, do.
  destruct (external w (ncalls st) (root st)) as [c t]; simpl.
  destruct exit_on_error; simpl; [|done].
  destruct (c =? 0)%Z eqn:Hc; simpl; [done|]. by apply Z.eqb_neq.
Qed.

Lemma ends_well_job_hook w job h : ends_well (fun _ => True) (job_hook w job h).
Proof.
  intros st. unfold job_hook. destruct job as [j|]; [|done].
  unfold bind, do, external_call; simpl.
  destruct (external w _ _) as [c t]; simpl.
  destruct (c =? 0)%Z eqn:Hc; simpl; [done|]. by apply Z.eqb_neq.
Qed.

Lemma ends_well_change_directory {A} (P : A → Prop) p (body : M A) :
  ends_well P body → ends_well P (change_directory p body).
Proof.
  intros Hb st. unfold change_directory.
  specialize (Hb (emit (Chdir (cwd st ++ p)) (set_cwd (cwd st ++ p) st))).
  by destruct (body _) as [r st'].
Qed.

Ltac ends_well_step :=
  lazymatch goal with
  | |- ends_well _ (bind _ _) =>
      eapply (ends_well_bind (fun _ => True)); [|intros ?]
  | |- ends_well _ (do _) => apply ends_well_do
  | |- ends_well _ (get _) => apply ends_well_get
  | |- ends_well _ (modify _) => apply ends_well_modify
  | |- ends_well _ (raise _) => apply ends_well_raise
  | |- ends_well _ (ret _) => by apply ends_well_ret
  | |- ends_well _ (when _ _) => apply ends_well_when
  | |- ends_well _ (for_each _ _) => apply ends_well_for_each; intros ?
  | |- ends_well _ (job_run _ _ _ _ _) => apply ends_well_job_run
  | |- ends_well _ (job_hook _ _ _) => apply ends_well_job_hook
  | |- ends_well _ (change_directory _ _) => apply ends_well_change_directory
  | |- ends_well _ (sys_exit (ExitMsg _)) => intros ?; simpl; lia
  | |- ends_well _ (match ?x with _ => _ end) => destruct x
  end.

Ltac ends_well_auto := repeat ends_well_step.

Lemma ends_well_in_workspace w args job :
  ends_well (fun v => v = 0%Z) (in_workspace w args job).
Proof.
  unfold in_workspace, enter_venv, install_pip_dependencies, get_repositories,
    vcs_import, switch_branch, build_and_test, print_file, ensure_dir, resolve.
  ends_well_auto.
Qed.

(** X7: past the parsing of its arguments, [main] returns nothing but 0,
    and when it ends the process itself (a command or a hook that failed,
    or the refusal of line 105) what it hands to [sys.exit] is never the
    code 0. *)
Theorem main_returns_0_or_exits_nonzero (w : world) (args : Namespace) (st : proc) :
  match (main w args st).1 with
  | Ok v => v = 0%Z
  | SysExit e => e ≠ ExitCode 0
  | Raised _ => True
  end.
Proof.
  assert (H : ends_well (fun v => v = 0%Z) (main w args)).
  { unfold main, clean_workspace, setenv, resolve.
    pose proof (ends_well_in_workspace w args).
    ends_well_auto; auto. }
  specialize (H st). destruct (main w args st).1 as [v|e|x]; [done | | done].
  intros ->. by apply H.
Qed.

(** X8: the attempt to switch the repositories to the test branch never
    ends the run.  Without [--test-branch] it does nothing at all; with
    it, [vcs custom] is run once without exit-on-error, its exit code,
    whatever it is, is logged, and the stage comes back. *)
Theorem switch_branch_never_aborts (w : world) (args : Namespace) (j : BatchJob) (st : proc) :
  let out := switch_branch w args (Some j) st in
  out.1 = Ok tt ∧
  match test_branch args with
  | None => out.2 = st
  | Some branch =>
      let code := (external w (ncalls st) (root st)).1 in
      let cmd := ["vcs"; "custom"; "."; "--args"; "checkout"; branch] in
      ncalls out.2 = S (ncalls st) ∧
      history out.2 =
        history st ++
        [Log ("Attempting to switch all repositories to the '" +:+ branch +:+ "' branch");
         Run (job_run_prefix st ++ cmd) false false code;
         Log ("'" +:+ PyStr.join " " cmd +:+ "' returned exit code '" +:+ pretty code +:+ "'");
         Log ""]
  end.
Proof.
  unfold switch_branch. destruct (test_branch args) as [branch|]; [|done].
  unfold job_run, bind, get, do, external_call, history; simpl.
  destruct (external w (ncalls st) (root st)) as [c t]; simpl.
  repeat split. rewrite !reverse_cons, <- !app_assoc. reflexivity.
Qed.

(** ** The environment *)

(** What a program does after an event comes after it. *)
Lemma emits_after_do {A} e (m : M A) :
  emits (fun _ => True) m →
  ∀ st, ∃ new, trace ((do e;; m) st).2 = new ++ e :: trace st.
Proof.
  intros Hm st. destruct (Hm (emit e st)) as (new & Htr & _).
  exists new. unfold bind, do. exact Htr.
Qed.

(** X17: unless the configuration is refused at line 105, every run of
    [main] begins the same way.  It logs its arguments and makes the job;
    it sets [TERM] to the value the variable had when [main] was entered,
    or to [xterm-256color] when it had none, and [ConEmuANSI] to [ON]
    exactly when [args.os] is [windows] after the selection; only then does
    it log and clear the workspace.  Whatever the run goes on to do comes
    after that. *)
Theorem main_sets_environment_first (w : world) (args : Namespace) (st : proc)
    (o : option string) (job : option BatchJob) :
  select_job (os args) (platform_platform w) = (o, job) →
  do_venv args && bool_decide (o = Some "windows") = false →
  ∃ later,
    history (main w args st).2 =
      history st ++ greeting args ++
      match job with Some j => [NewJob j] | None => [] end ++
      SetEnv "TERM" (default "xterm-256color" (environ st !! "TERM")) ::
      (if bool_decide (o = Some "windows") then [SetEnv "ConEmuANSI" "ON"] else []) ++
      Log ("Using workspace: @!" +:+ workspace args) ::
      CleanWorkspace (workspace args) :: later.
Proof.
  intros Hsel Hok.
  destruct (main_up_to_workspace w args st o job Hsel Hok) as (st0 & -> & Hhist & _).
  unfold clean_workspace. rewrite bind_assoc.
  match goal with
  | |- context [bind (do ?e) (fun _ => ?m) st0] =>
      assert (HR : emits (fun _ => True) m);
      [|destruct (emits_after_do e m HR st0) as (new & Htr)]
  end.
  { unfold in_workspace, enter_venv, install_pip_dependencies, get_repositories,
      vcs_import, switch_branch, build_and_test, print_file, ensure_dir,
      job_run, job_hook, resolve.
    repeat emits_step. }
  exists (reverse new). unfold history in *.
  rewrite Htr, reverse_app, reverse_cons, Hhist, <- !app_assoc. simpl.
  destruct job, (bool_decide (o = Some "windows")); simpl; by rewrite <- ?app_assoc.
Qed.

Lemma main_sets_environment_first_witness :
  let w := Sample.host Sample.windows_host Sample.all_pass in
  let args := Sample.args None false in
  let st := start w ["job"] (<["TERM" := "dumb"]> ∅) Sample.files in
  (select_job (os args) (platform_platform w) = (Some "windows", Some WindowsBatchJob) ∧
   do_venv args && bool_decide (Some "windows" = Some "windows") = false) ∧
  ∃ later,
    history (main w args st).2 =
      history st ++ greeting args ++
      [NewJob WindowsBatchJob] ++
      SetEnv "TERM" (default "xterm-256color" (environ st !! "TERM")) ::
      (if bool_decide (Some "windows" = Some "windows")
       then [SetEnv "ConEmuANSI" "ON"] else []) ++
      Log ("Using workspace: @!" +:+ workspace args) ::
      CleanWorkspace (workspace args) :: later.
Proof.
  intros w args st.
  assert (Hsel : select_job (os args) (platform_platform w)
                 = (Some "windows", Some WindowsBatchJob)) by reflexivity.
  assert (Hok : do_venv args && bool_decide (Some "windows" = Some "windows") = false)
    by reflexivity.
  split; [exact (conj Hsel Hok)|].
  exact (main_sets_environment_first w args st _ _ Hsel Hok).
Defined.

(** ** Archives *)

Import Packaging.

Lemma node_induction (P : FS.node → Prop) :
  (∀ content, P (FS.File content)) →
  (∀ es, Forall (fun e => P e.2) es → P (FS.Dir es)) →
  ∀ t, P t.
Proof.
  intros Hfile Hdir. fix IH 1. intros [content|es]; [apply Hfile|].
  apply Hdir. induction es as [|[n c] es IHes]; constructor; [apply IH | apply IHes].
Qed.

(** The entries of a directory, each added below [arcname]. *)
Lemma tar_add_Dir es arcname :
  tar_add (FS.Dir es) arcname =
    (arcname, true) :: (es ≫= fun e => tar_add e.2 (arcname ++ [e.1])).
Proof.
  simpl. f_equal. induction es as [|[n c] es IH]; [reflexivity|].
  simpl. by rewrite IH.
Qed.

Lemma walk_Dir es top :
  walk (FS.Dir es) top =
    (top, subdirs_of es, files_of es) :: (es ≫= fun e => walk e.2 (top ++ [e.1])).
Proof.
  simpl. f_equal. induction es as [|[n c] es IH]; [reflexivity|].
  simpl. by rewrite IH.
Qed.

Lemma well_formed_Dir es :
  well_formed (FS.Dir es) ↔
    NoDup (fst <$> es) ∧ Forall (fun e => entry_name e.1 ∧ well_formed e.2) es.
Proof.
  simpl. apply and_iff_compat_l.
  induction es as [|[n c] es IH]; simpl.
  - split; [constructor | done].
  - rewrite Forall_cons, <- IH. simpl. tauto.
Qed.

Lemma assoc_elem_of n c es :
  NoDup (fst <$> es) → FS.assoc n es = Some c ↔ (n, c) ∈ es.
Proof.
  induction es as [|[m d] es IH]; simpl; intros Hnd.
  - split; [done | by intros ?%elem_of_nil].
  - apply NoDup_cons in Hnd as [Hm Hnd]. rewrite elem_of_cons.
    case_bool_decide as Hmn.
    + subst m. split; [intros [= ->]; by left|].
      intros [[= ->] | Hin]; [done|].
      destruct Hm. apply list_elem_of_fmap. by exists (n, c).
    + rewrite (IH Hnd). split; [by right|]. intros [[= -> ->] | Hin]; done.
Qed.

Lemma tar_add_elem_of t :
  well_formed t →
  ∀ arcname name is_dir,
    (name, is_dir) ∈ tar_add t arcname ↔
    ∃ p, name = arcname ++ p ∧ in_file_set t p is_dir.
Proof.
  induction t as [content|es IH] using node_induction; intros Hwf arcname name is_dir.
  - simpl. rewrite list_elem_of_singleton. split.
    + intros [= -> ->]. exists []. split; [by rewrite app_nil_r|]. by eexists.
    + intros (p & -> & c & Hl & ->). destruct p; simpl in Hl; [|done].
      injection Hl as <-. by rewrite app_nil_r.
  - apply well_formed_Dir in Hwf as [Hnd Hwf].
    rewrite tar_add_Dir, elem_of_cons, list_elem_of_bind. split.
    + intros [[= -> ->] | ([n c] & Hin & He)].
      * exists []. split; [by rewrite app_nil_r|]. by eexists.
      * rewrite Forall_forall in IH, Hwf.
        apply (IH _ He) in Hin as (p & -> & c0 & Hl & ->); [|by apply (Hwf _ He)].
        exists (n :: p). split; [by rewrite <- app_assoc|].
        exists c0. split; [|done]. rewrite lookup_Dir.
        apply (assoc_elem_of _ _ _ Hnd) in He. by rewrite He.
    + intros (p & -> & c0 & Hl & ->). destruct p as [|n p].
      * left. injection Hl as <-. by rewrite app_nil_r.
      * right. rewrite lookup_Dir in Hl.
        destruct (FS.assoc n es) as [c|] eqn:Ha; [|done]. simpl in Hl.
        apply (assoc_elem_of _ _ _ Hnd) in Ha.
        exists (n, c). split; [|done].
        rewrite Forall_forall in IH, Hwf.
        apply (IH _ Ha); [by apply (Hwf _ Ha)|].
        exists p. split; [by rewrite <- app_assoc|]. by exists c0.
Qed.

(** *** Paths of the zip members *)

Lemma normpath_aux_entry_names p :
  Forall entry_name p → ∀ done_rev, normpath_aux done_rev p = reverse done_rev ++ p.
Proof.
  induction 1 as [|c p (Hc1 & Hc2 & Hc3) Hp IH]; intros done_rev; simpl.
  - by rewrite app_nil_r.
  - rewrite !bool_decide_eq_false_2 by done. simpl.
    rewrite IH, reverse_cons, <- app_assoc. reflexivity.
Qed.

Lemma normpath_entry_names p : Forall entry_name p → normpath p = p.
Proof. intros Hp. unfold normpath. by rewrite normpath_aux_entry_names. Qed.

Lemma normpath_curdir folder p :
  entry_name folder → Forall entry_name p →
  normpath ([folder] ++ ["."] ++ p) = folder :: p.
Proof.
  intros (Hf1 & Hf2 & Hf3) Hp. unfold normpath. simpl.
  rewrite !bool_decide_eq_false_2 by done. simpl.
  by rewrite normpath_aux_entry_names.
Qed.

Lemma relpath_below inst rel :
  relpath (inst :: rel) [inst] = match rel with [] => ["."] | _ => rel end.
Proof.
  unfold relpath. simpl. rewrite bool_decide_eq_true_2 by done.
  by destruct rel.
Qed.

Lemma zip_arcname inst folder rel p :
  entry_name folder → Forall entry_name rel → Forall entry_name p →
  normpath (folder :: relpath (inst :: rel) [inst] ++ p) = folder :: rel ++ p.
Proof.
  intros Hf Hrel Hp. rewrite relpath_below. destruct rel as [|r rel].
  - by apply (normpath_curdir folder p).
  - apply normpath_entry_names. constructor; [done|]. by apply Forall_app.
Qed.

Local Arguments normpath : simpl never.
Local Arguments relpath : simpl never.

Lemma zip_walk_tar_add inst folder :
  entry_name folder →
  ∀ t, well_formed t → ∀ rel, Forall entry_name rel →
    walk t (inst :: rel) ≫= zip_write_triple inst folder ≡ₚ
    match t with
    | FS.File _ => []
    | FS.Dir _ => tar_add t (folder :: rel)
    end.
Proof.
  intros Hf t. induction t as [content|es IH] using node_induction; intros Hwf rel Hrel.
  - reflexivity.
  - apply well_formed_Dir in Hwf as [_ Hwf].
    rewrite walk_Dir, tar_add_Dir, bind_cons. cbn [zip_write_triple].
    unfold zf_write. simpl app.
    rewrite <- (app_nil_r (relpath (inst :: rel) [inst])) at 1.
    rewrite zip_arcname by (done || constructor). rewrite app_nil_r.
    apply Permutation_skip.
    induction es as [|[n c] es IHes]; [reflexivity|].
    apply Forall_cons in IH as [IHc IH]. apply Forall_cons in Hwf as [[Hn Hc] Hwf].
    specialize (IHes IH Hwf). simpl in IHc, Hn, Hc.
    assert (Hrel' : Forall entry_name (rel ++ [n])).
    { apply Forall_app. split; [done|]. by constructor. }
    rewrite !bind_cons. cbn [fst snd]. rewrite bind_app.
    unfold files_of in *. simpl List.filter.
    destruct c as [content|es0]; cbn [FS.is_file negb].
    + rewrite fmap_cons. cbn [fst fmap list_fmap]. 
      rewrite zip_arcname by (done || (constructor; [done | constructor])).
      simpl. apply Permutation_skip. exact IHes.
    + rewrite (IHc Hc _ Hrel').
      rewrite <- IHes. 
      rewrite !app_assoc. apply Permutation_app_tail. apply Permutation_app_comm.
Qed.

(** *** Extraction *)

Section Extraction.

(** What is expected to be found after the extraction. *)
Variable expected : FS.path → bool → Prop.
Hypothesis expected_functional : ∀ q d d', expected q d → expected q d' → d = d'.
Hypothesis expected_parents : ∀ q d a, expected q d → a ∈ parents q → expected a true.

Lemma make_parents_lookup (found : gmap FS.path bool) ps q :
  foldr (fun d acc => <[d := true]> acc) found ps !! q =
    if bool_decide (q ∈ ps) then Some true else found !! q.
Proof.
  induction ps as [|a ps IH]; simpl; [done|].
  destruct (decide (a = q)) as [->|Hne].
  - rewrite lookup_insert_eq. rewrite bool_decide_eq_true_2; [done|]. by left.
  - rewrite lookup_insert_ne by done. rewrite IH.
    destruct (decide (q ∈ ps)) as [Hin|Hnin].
    + rewrite !bool_decide_eq_true_2; [done | by right | done].
    + rewrite !bool_decide_eq_false_2; [done | | done].
      intros [?|?]%elem_of_cons; congruence.
Qed.

Lemma extract_member_lookup found m q :
  extract_member found m !! q =
    if bool_decide (q = m.1) then Some m.2
    else if bool_decide (q ∈ parents m.1) then Some true else found !! q.
Proof.
  unfold extract_member. case_bool_decide as Hq.
  - subst q. by rewrite lookup_insert_eq.
  - rewrite lookup_insert_ne by done. apply make_parents_lookup.
Qed.

Lemma extract_member_sound found m :
  (∀ q d, found !! q = Some d → expected q d) → expected m.1 m.2 →
  ∀ q d, extract_member found m !! q = Some d → expected q d.
Proof.
  intros Hfound Hm q d. rewrite extract_member_lookup.
  repeat case_bool_decide.
  - intros [= <-]. by subst q.
  - intros [= <-]. by eapply expected_parents.
  - apply Hfound.
Qed.

Lemma extract_member_keeps found m q d :
  expected q d → expected m.1 m.2 →
  found !! q = Some d → extract_member found m !! q = Some d.
Proof.
  intros Hq Hm Hfound. rewrite extract_member_lookup.
  repeat case_bool_decide; [| |done].
  - subst q. f_equal. by eapply expected_functional.
  - f_equal. eapply expected_functional; [|done]. by eapply expected_parents.
Qed.

Lemma extract_sound members : ∀ found,
  (∀ q d, found !! q = Some d → expected q d) →
  Forall (fun m => expected m.1 m.2) members →
  ∀ q d, foldl extract_member found members !! q = Some d → expected q d.
Proof.
  induction members as [|m members IH]; intros found Hfound Hall; simpl; [done|].
  apply Forall_cons in Hall as [Hm Hall].
  apply IH; [|done]. by apply extract_member_sound.
Qed.

Lemma extract_keeps members : ∀ found q d,
  expected q d → Forall (fun m => expected m.1 m.2) members →
  found !! q = Some d → foldl extract_member found members !! q = Some d.
Proof.
  induction members as [|m members IH]; intros found q d Hq Hall Hfound; simpl; [done|].
  apply Forall_cons in Hall as [Hm Hall].
  apply IH; [done..|]. by apply extract_member_keeps.
Qed.

Lemma extract_complete members : ∀ found q d,
  Forall (fun m => expected m.1 m.2) members →
  (q, d) ∈ members → foldl extract_member found members !! q = Some d.
Proof.
  induction members as [|m members IH]; intros found q d Hall Hin; simpl.
  - by apply elem_of_nil in Hin.
  - apply Forall_cons in Hall as [Hm Hall].
    apply elem_of_cons in Hin as [<- | Hin]; [|by apply IH].
    apply extract_keeps; [done..|].
    rewrite extract_member_lookup. by rewrite bool_decide_eq_true_2.
Qed.

(** When the members are exactly what is expected, so is what the
    extraction leaves. *)
Lemma extractall_lookup members q d :
  (∀ q d, (q, d) ∈ members ↔ expected q d) →
  extractall members !! q = Some d ↔ expected q d.
Proof.
  intros Hmembers.
  assert (Hall : Forall (fun m => expected m.1 m.2) members).
  { apply Forall_forall. intros [q' d'] Hin. by apply Hmembers. }
  unfold extractall. split.
  - apply extract_sound; [|done]. intros q' d'. by rewrite lookup_empty.
  - intros Hq. apply extract_complete; [done|]. by apply Hmembers.
Qed.

End Extraction.

Lemma lookup_parents p : ∀ t c a,
  FS.lookup p t = Some c → a ∈ parents p → ∃ es, FS.lookup a t = Some (FS.Dir es).
Proof.
  induction p as [|n p IH]; intros t c a Hl Ha; [by apply elem_of_nil in Ha|].
  destruct t as [content|es]; [done|].
  rewrite lookup_Dir in Hl. destruct (FS.assoc n es) as [c0|] eqn:Hn; [|done].
  simpl in Hl, Ha. destruct p as [|n' p]; [by apply elem_of_nil in Ha|].
  apply elem_of_cons in Ha as [-> | Ha].
  - destruct c0 as [content|es0]; [done|].
    exists es0. simpl. by rewrite Hn.
  - apply list_elem_of_fmap in Ha as (a' & -> & Ha').
    destruct (IH _ _ _ Hl Ha') as [es' Hes'].
    exists es'. rewrite lookup_Dir, Hn. exact Hes'.
Qed.

Lemma under_functional folder tree q d d' :
  under folder tree q d → under folder tree q d' → d = d'.
Proof.
  intros (p & -> & c & Hc & ->) (p' & [= <-] & c' & Hc' & ->). congruence.
Qed.

Lemma under_parents folder tree q d a :
  FS.is_file tree = false →
  under folder tree q d → a ∈ parents q → under folder tree a true.
Proof.
  intros Hdir (p & -> & c & Hc & ->) Ha. simpl in Ha.
  destruct p as [|n p]; [by apply elem_of_nil in Ha|].
  apply elem_of_cons in Ha as [-> | Ha].
  - exists []. split; [done|]. exists tree. split; [done|]. by rewrite Hdir.
  - apply list_elem_of_fmap in Ha as (a' & -> & Ha').
    destruct (lookup_parents _ _ _ _ Hc Ha') as [es Hes].
    exists a'. split; [done|]. by exists (FS.Dir es).
Qed.

Lemma extractall_under folder tree members :
  FS.is_file tree = false →
  (∀ q d, (q, d) ∈ members ↔ under folder tree q d) →
  ∀ q d, extractall members !! q = Some d ↔ under folder tree q d.
Proof.
  intros Hdir Hmembers q d.
  apply (extractall_lookup (under folder tree)); [|  |done].
  - apply under_functional.
  - intros ???. by apply under_parents.
Qed.

Lemma tar_add_under folder tree :
  well_formed tree →
  ∀ q d, (q, d) ∈ tar_add tree [folder] ↔ under folder tree q d.
Proof. intros Hwf q d. by rewrite tar_add_elem_of. Qed.

Lemma zip_walk_under inst folder tree :
  entry_name folder → FS.is_file tree = false → well_formed tree →
  ∀ q d, (q, d) ∈ zip_walk tree inst folder ↔ under folder tree q d.
Proof.
  intros Hf Hdir Hwf q d. unfold zip_walk.
  rewrite (zip_walk_tar_add inst folder Hf tree Hwf []) by constructor.
  destruct tree; [done|]. by apply tar_add_under.
Qed.

(** *** Writing next to the install space *)

Lemma assoc_put_ne a i c es : a ≠ i → FS.assoc i (FS.put a c es) = FS.assoc i es.
Proof.
  intros Hne. induction es as [|[m d] es IH]; simpl.
  - by rewrite bool_decide_eq_false_2.
  - case_bool_decide as Hma; simpl.
    + subst m. by rewrite !bool_decide_eq_false_2.
    + by rewrite IH.
Qed.

Lemma write_sibling a i c tree : a ≠ i → ∀ dir t,
  FS.lookup (dir ++ [i]) t = Some tree →
  ∃ t', FS.write (dir ++ [a]) c t = Some t' ∧ FS.lookup (dir ++ [i]) t' = Some tree.
Proof.
  intros Hne. induction dir as [|n dir IH]; intros t Hl.
  - destruct t as [content|es]; [done|]. simpl in *.
    eexists. split; [done|]. simpl. by rewrite assoc_put_ne.
  - destruct t as [content|es]; [done|].
    change ((n :: dir) ++ [i]) with (n :: (dir ++ [i])) in *.
    change ((n :: dir) ++ [a]) with (n :: (dir ++ [a])).
    rewrite lookup_Dir in Hl. destruct (FS.assoc n es) as [d|] eqn:Hn; [|done].
    simpl in Hl. destruct (IH _ Hl) as (d' & Hw & Hl').
    exists (FS.Dir (FS.put n d' es)). split.
    + destruct (dir ++ [a]) as [|x l] eqn:Hda; [by destruct dir|].
      rewrite write_deeper, Hn. cbn [mbind option_bind]. by rewrite Hw.
    + by rewrite lookup_Dir, assoc_put_eq.
Qed.

Lemma touch_next_to a i st tree :
  FS.lookup (cwd st ++ [i]) (root st) = Some tree →
  FS.is_file tree = false →
  (∀ es, FS.lookup (cwd st ++ [a]) (root st) ≠ Some (FS.Dir es)) →
  ∃ t', touch [a] st = (Ok tt, set_root t' (emit (Touch (cwd st ++ [a])) st)) ∧
        FS.lookup (cwd st ++ [i]) t' = Some tree.
Proof.
  intros Hl Hdir Hfree.
  assert (Hne : a ≠ i).
  { intros ->. destruct tree as [content|es]; [done|]. by apply (Hfree es). }
  destruct (write_sibling a i (FS.File "") tree Hne _ _ Hl) as (t' & Hw & Hl').
  exists t'. split; [|done].
  unfold touch, resolve, bind, get, do, modify; simpl.
  destruct (FS.lookup (cwd st ++ [a]) (root st)) as [[content|es]|] eqn:Ha.
  - by rewrite Hw.
  - by destruct (Hfree es).
  - by rewrite Hw.
Qed.

(** * Further properties of the packaging stage *)

(** ** Ending the process *)

Section UntilAbort.

Variable P : event → Prop.
Hypothesis P_run : ∀ argv shell exit_on_error c,
  fatal (Run argv shell exit_on_error c) = false → P (Run argv shell exit_on_error c).

Lemma emits_until_abort_ret {A} (a : A) : emits_until_abort P (ret a).
Proof. intros st. exists []. split; [done | constructor]. Qed.

Lemma emits_until_abort_bind {A B} (m : M A) (k : A → M B) :
  emits_until_abort P m → (∀ a, emits_until_abort P (k a)) →
  emits_until_abort P (bind m k).
Proof.
  intros Hm Hk st. destruct (Hm st) as (new1 & Ht1 & H1). unfold bind.
  destruct (m st) as [[a | e | e] st1]; simpl in *.
  - destruct (Hk a st1) as (new2 & Ht2 & H2).
    exists (new2 ++ new1). split; [by rewrite Ht2, Ht1, app_assoc|].
    destruct (k a st1).1.
    + by apply Forall_app.
    + destruct H2 as (c & argv & shell & rest & -> & Hc & -> & Hrest).
      exists c, argv, shell, (rest ++ new1). repeat split; [done|].
      by apply Forall_app.
    + by apply Forall_app.
  - by exists new1.
  - by exists new1.
Qed.

Lemma emits_until_abort_do e : P e → emits_until_abort P (do e).
Proof. intros He st. exists [e]. split; [done|]. by constructor. Qed.

Lemma emits_until_abort_get {A} (f : proc → A) : emits_until_abort P (get f).
Proof. intros st. exists []. split; [done | constructor]. Qed.

Lemma emits_until_abort_modify f :
  (∀ st, trace (f st) = trace st) → emits_until_abort P (modify f).
Proof. intros Hf st. exists []. simpl. rewrite Hf. split; [done | constructor]. Qed.

Lemma emits_until_abort_raise {A} e : emits_until_abort P (@raise A e).
Proof. intros st. exists []. split; [done | constructor]. Qed.

Lemma emits_until_abort_for_each {A} (l : list A) body :
  (∀ x, emits_until_abort P (body x)) → emits_until_abort P (for_each l body).
Proof.
  intros Hb. induction l as [|x l IH]; simpl.
  - apply emits_until_abort_ret.
  - apply emits_until_abort_bind; auto.
Qed.

Lemma emits_until_abort_job_run w job cmd shell exit_on_error :
  emits_until_abort P (job_run w job cmd shell exit_on_error).
Proof.
  intros st. unfold job_run. destruct job as [j|]; [|exists []; split; [done | constructor]].
  unfold bind, get, external_call, do.
  destruct (external w (ncalls st) (root st)) as [c t]; simpl.
  exists [Run (job_run_prefix st ++ cmd) shell exit_on_error c].
  destruct exit_on_error; simpl.
  - destruct (c =? 0)%Z eqn:Hc; simpl; (split; [done|]).
    + constructor; [|constructor]. apply P_run. simpl. by rewrite Hc.
    + exists c, (job_run_prefix st ++ cmd), shell, [].
      split; [done|]. split; [by apply Z.eqb_neq|]. split; [done | constructor].
  - split; [done|]. constructor; [|constructor]. by apply P_run.
Qed.

End UntilAbort.

Lemma never_exits_ret {A} (a : A) : never_exits (ret a).
Proof. by intros st e. Qed.

Lemma never_exits_bind {A B} (m : M A) (k : A → M B) :
  never_exits m → (∀ a, never_exits (k a)) → never_exits (bind m k).
Proof.
  intros Hm Hk st e. specialize (Hm st). unfold bind.
  destruct (m st) as [[a | e' | e'] st1]; simpl in *; [apply Hk | | done].
  by destruct (Hm e').
Qed.

Lemma never_exits_do e : never_exits (do e).
Proof. by intros st e'. Qed.

Lemma never_exits_get {A} (f : proc → A) : never_exits (get f).
Proof. by intros st e. Qed.

Lemma never_exits_modify f : never_exits (modify f).
Proof. by intros st e. Qed.

Lemma never_exits_raise {A} x : never_exits (@raise A x).
Proof. by intros st e. Qed.

Lemma never_exits_for_each {A} (l : list A) body :
  (∀ x, never_exits (body x)) → never_exits (for_each l body).
Proof.
  intros Hb. induction l as [|x l IH]; simpl.
  - apply never_exits_ret.
  - apply never_exits_bind; auto.
Qed.

Ltac never_exits_step :=
  lazymatch goal with
  | |- never_exits (bind _ _) => apply never_exits_bind; [|intros ?]
  | |- never_exits (do _) => apply never_exits_do
  | |- never_exits (get _) => apply never_exits_get
  | |- never_exits (modify _) => apply never_exits_modify
  | |- never_exits (raise _) => apply never_exits_raise
  | |- never_exits (ret _) => apply never_exits_ret
  | |- never_exits (for_each _ _) => apply never_exits_for_each; intros ?
  | |- never_exits (match ?x with _ => _ end) => destruct x
  end.

Ltac emits_until_abort_step :=
  lazymatch goal with
  | |- emits_until_abort _ (bind _ _) => apply emits_until_abort_bind; [|intros ?]
  | |- emits_until_abort _ (do _) =>
      apply emits_until_abort_do; split; [reflexivity | intros ? ?; discriminate]
  | |- emits_until_abort _ (get _) => apply emits_until_abort_get
  | |- emits_until_abort _ (modify _) =>
      apply emits_until_abort_modify; intros ?; reflexivity
  | |- emits_until_abort _ (raise _) => apply emits_until_abort_raise
  | |- emits_until_abort _ (ret _) => apply emits_until_abort_ret
  | |- emits_until_abort _ (for_each _ _) => apply emits_until_abort_for_each; intros ?
  | |- emits_until_abort _ (job_run _ _ _ _ _) =>
      apply emits_until_abort_job_run;
      intros ? ? ? ? ?; split; [assumption | intros ? ?; discriminate]
  | |- emits_until_abort _ (match ?x with _ => _ end) => destruct x
  end.

Lemma never_exits_create_archive args : never_exits (create_archive args;; ret 0%Z).
Proof.
  unfold create_archive, folder_name, write_tar, write_zip, copy_opencv,
    shutil_copy, touch, resolve.
  repeat never_exits_step.
Qed.

Lemma emits_until_abort_builds w args job :
  emits_until_abort before_archive
    (masked_build w args job;; bridge_build w args job;; remove_executables args).
Proof.
  unfold masked_build, mask_bridge, bridge_build, remove_executables,
    os_remove, os_listdir, touch, resolve.
  repeat emits_until_abort_step.
Qed.

(** X9: [build_and_package] ends the process only through one of its
    build commands failing.  The status is then the code of that command,
    which is not 0; the command is the last thing the stage did; and
    nothing the stage did before it was the writing of an archive or
    another command that failed fatally.  A build that fails never leaves
    an archive of this run. *)
Theorem build_and_package_exit (w : world) (args : Args) (job : option BatchJob)
    (st : proc) (e : exit_arg) :
  (build_and_package w args job st).1 = SysExit e →
  ∃ c argv shell earlier,
    e = ExitCode c ∧ c ≠ 0%Z ∧
    trace (build_and_package w args job st).2 =
      Run argv shell true c :: earlier ++ trace st ∧
    Forall before_archive earlier.
Proof.
  assert (Heq : build_and_package w args job st =
    bind (masked_build w args job;; bridge_build w args job;; remove_executables args)
         (fun _ => create_archive args;; ret 0%Z) st).
  { unfold build_and_package. rewrite bind_assoc. apply bind_ext. intros _ st1.
    by rewrite bind_assoc. }
  rewrite Heq. clear Heq.
  pose proof (emits_until_abort_builds w args job st) as (new & Htr & Hnew).
  pose proof (never_exits_create_archive args) as Hnever.
  destruct ((masked_build w args job;; bridge_build w args job;;
             remove_executables args) st) as [[[] | e' | x] st1] eqn:Hp; simpl in *.
  - rewrite (bind_Ok _ _ _ _ _ Hp). intros Hexit. by destruct (Hnever st1 e).
  - rewrite (bind_SysExit _ _ _ _ _ Hp). simpl. intros [= ->].
    destruct Hnew as (c & argv & shell & rest & -> & Hc & -> & Hrest).
    exists c, argv, shell, rest. repeat split; [done | exact Htr | done].
  - rewrite (bind_Raised _ _ _ _ _ Hp). discriminate.
Qed.

Lemma build_and_package_exit_witness :
  let w := Sample.host Sample.linux_host (fun n => if bool_decide (n = 1) then 2%Z else 0%Z) in
  let args := Sample.package_args "linux" in
  let st := Sample.package_start in
  (build_and_package w args (Some LinuxBatchJob) st).1 = SysExit (ExitCode 2) ∧
  ∃ c argv shell earlier,
    ExitCode 2 = ExitCode c ∧ c ≠ 0%Z ∧
    trace (build_and_package w args (Some LinuxBatchJob) st).2 =
      Run argv shell true c :: earlier ++ trace st ∧
    Forall before_archive earlier.
Proof.
  intros w args st.
  assert (Hexit : (build_and_package w args (Some LinuxBatchJob) st).1
                  = SysExit (ExitCode 2)) by (vm_compute; reflexivity).
  split; [exact Hexit|].
  exact (build_and_package_exit w args (Some LinuxBatchJob) st (ExitCode 2) Hexit).
Defined.

(** ** The bridge that is not there *)

(** X10: when the sources hold no ROS 1 bridge, the main build is run
    without any marker: nothing is written before it and nothing removed
    after it, whatever the build returns; the files are left as the build
    command left them. *)
Theorem masked_build_without_bridge (w : world) (args : Args) (j : BatchJob) (st : proc) :
  FS.exists_ (cwd st ++ ros1_bridge_path args) (root st) = false →
  let out := masked_build w args (Some j) st in
  let build := external w (ncalls st) (root st) in
  out.1 = (if (build.1 =? 0)%Z then Ok tt else SysExit (ExitCode build.1)) ∧
  history out.2 =
    history st ++
    [Log ("ROS1 bridge path: " +:+ path_str w (ros1_bridge_path args));
     Run (job_run_prefix st ++ build_cmd w args (job_python st)) false true build.1] ∧
  root out.2 = build.2.
Proof.
  intros Hex.
  unfold masked_build, mask_bridge, resolve, job_run, external_call, history.
  unfold bind, do, get, modify, ret, raise, sys_exit; simpl. rewrite Hex; simpl.
  destruct (external w (ncalls st) (root st)) as [c t]; simpl.
  destruct (c =? 0)%Z; simpl.
  all: repeat split; rewrite !reverse_cons, <- !app_assoc; reflexivity.
Qed.

Lemma masked_build_without_bridge_witness :
  let w := Sample.host Sample.windows_host Sample.all_pass in
  let args := Sample.package_args "windows" in
  let st := mkProc ["ws"] ∅ (FS.Dir [("ws", FS.Dir [("install", Sample.install_tree)])])
                   [] "python" 0 [] in
  let out := masked_build w args (Some WindowsBatchJob) st in
  let build := external w (ncalls st) (root st) in
  FS.exists_ (cwd st ++ ros1_bridge_path args) (root st) = false ∧
  out.1 = (if (build.1 =? 0)%Z then Ok tt else SysExit (ExitCode build.1)) ∧
  history out.2 =
    history st ++
    [Log ("ROS1 bridge path: " +:+ path_str w (ros1_bridge_path args));
     Run (job_run_prefix st ++ build_cmd w args (job_python st)) false true build.1] ∧
  root out.2 = build.2.
Proof.
  intros w args st out build.
  assert (Hex : FS.exists_ (cwd st ++ ros1_bridge_path args) (root st) = false)
    by reflexivity.
  split; [exact Hex|].
  exact (masked_build_without_bridge w args WindowsBatchJob st Hex).
Defined.

(** ** A system the archive is not made for *)

(** X11: [create_archive] refuses every system but the three.  With
    [args.os] unset the folder name of line 86 cannot be built
    ([TypeError]); with any other name line 111 raises [RuntimeError].
    Either way nothing has been written or logged: the process is as it
    was. *)
Theorem create_archive_unsupported (args : Args) (st : proc) :
  (os args = None → create_archive args st = (Raised "TypeError", st)) ∧
  (∀ o, os args = Some o → o ∉ ["linux"; "osx"; "windows"] →
        create_archive args st = (Raised "RuntimeError", st)).
Proof.
  split.
  - intros Hos. unfold create_archive, folder_name. by rewrite Hos.
  - intros o Hos Ho. unfold create_archive, folder_name. rewrite Hos.
    rewrite !bool_decide_eq_false_2; [reflexivity|..];
      intros [= ->]; apply Ho; compute_done.
Qed.

Lemma create_archive_unsupported_witness :
  let args := mkArgs "src" "build" "install" false (Some "freebsd") in
  let st := Sample.package_start in
  (os args = Some "freebsd" ∧ "freebsd" ∉ ["linux"; "osx"; "windows"]) ∧
  create_archive args st = (Raised "RuntimeError", st).
Proof.
  intros args st.
  assert (Hos : os args = Some "freebsd") by reflexivity.
  assert (Ho : "freebsd" ∉ ["linux"; "osx"; "windows"]) by compute_done.
  split; [auto|].
  exact (proj2 (create_archive_unsupported args st) "freebsd" Hos Ho).
Defined.

(** ** The executables that are not wanted *)

Lemma assoc_drop_ne n i es : n ≠ i → FS.assoc i (FS.drop n es) = FS.assoc i es.
Proof.
  intros Hne. induction es as [|[m d] es IH]; simpl; [done|].
  case_bool_decide as Hm; simpl.
  - subst m. by rewrite bool_decide_eq_false_2.
  - by rewrite IH.
Qed.

Lemma drop_filter n es :
  FS.drop n es = List.filter (fun e => negb (bool_decide (e.1 = n))) es.
Proof.
  induction es as [|[m d] es IH]; simpl; [done|].
  case_bool_decide; simpl; by rewrite IH.
Qed.

(** Removing the entry [n] of the directory at [dir]. *)
Lemma remove_entry n c : ∀ dir t es,
  FS.lookup dir t = Some (FS.Dir es) → FS.assoc n es = Some c →
  FS.lookup (dir ++ [n]) t = Some c ∧
  ∃ t', FS.remove (dir ++ [n]) t = Some t' ∧
        FS.lookup dir t' = Some (FS.Dir (FS.drop n es)).
Proof.
  induction dir as [|m dir IH]; intros t es Hl Hn.
  - simpl in Hl. injection Hl as ->. simpl. rewrite Hn. simpl.
    split; [done|]. by eexists.
  - destruct t as [content|es0]; [done|].
    rewrite lookup_Dir in Hl. destruct (FS.assoc m es0) as [d|] eqn:Hm; [|done].
    simpl in Hl. destruct (IH _ _ Hl Hn) as (Hc & d' & Hr & Hl').
    change ((m :: dir) ++ [n]) with (m :: (dir ++ [n])).
    split; [by rewrite lookup_Dir, Hm|].
    exists (FS.Dir (FS.put m d' es0)). split.
    + destruct (dir ++ [n]) as [|x l] eqn:Hd; [by destruct dir|].
      rewrite remove_deeper, Hm. cbn [mbind option_bind]. by rewrite Hr.
    + by rewrite lookup_Dir, assoc_put_eq.
Qed.

Lemma sweep_filter names : ∀ es,
  (∀ e, e ∈ es → unnecessary e.1 = true → e.1 ∈ names) →
  sweep names es = List.filter (fun e => negb (unnecessary e.1)) es.
Proof.
  induction names as [|n names IH]; intros es Hes; simpl.
  - symmetry. apply forallb_filter_id. apply forallb_forall. intros e He.
    apply list_elem_of_In in He. destruct (unnecessary e.1) eqn:Hu; [|done].
    exfalso. eapply elem_of_nil. by apply Hes.
  - destruct (unnecessary n) eqn:Hn.
    + fold (sweep names (FS.drop n es)). rewrite IH.
      * rewrite drop_filter. clear -Hn. induction es as [|e es IHes]; simpl; [done|].
        case_bool_decide as He; simpl.
        -- rewrite He, Hn. simpl. exact IHes.
        -- destruct (unnecessary e.1); simpl; by rewrite IHes.
      * intros e He Hu. rewrite drop_filter in He.
        apply list_elem_of_In, filter_In in He as [He Hne].
        apply list_elem_of_In in He. apply negb_true_iff, bool_decide_eq_false in Hne.
        specialize (Hes e He Hu). apply elem_of_cons in Hes as [?|?]; done.
    + fold (sweep names es). apply IH. intros e He Hu.
      specialize (Hes e He Hu). apply elem_of_cons in Hes as [Heq|?]; [|done].
      rewrite Heq in Hu. congruence.
Qed.

Lemma remove_loop (args : Args) : ∀ names es st,
  FS.lookup (cwd st ++ [installspace args; "bin"]) (root st) = Some (FS.Dir es) →
  NoDup names →
  (∀ n, n ∈ names → unnecessary n = true → ∃ content, FS.assoc n es = Some (FS.File content)) →
  ∃ st',
    for_each names (fun filename =>
      if unnecessary filename
      then os_remove ([installspace args; "bin"] ++ [filename]) else ret tt) st
      = (Ok tt, st') ∧
    FS.lookup (cwd st ++ [installspace args; "bin"]) (root st') = Some (FS.Dir (sweep names es)) ∧
    cwd st' = cwd st ∧
    history st' =
      history st ++
      ((fun n => Remove (cwd st ++ [installspace args; "bin"; n]))
         <$> List.filter unnecessary names).
Proof.
  induction names as [|n names IH]; intros es st Hl Hnd Hfiles.
  - exists st. simpl. by rewrite app_nil_r.
  - apply NoDup_cons in Hnd as [Hn Hnd]. simpl.
    destruct (unnecessary n) eqn:Hu.
    + destruct (Hfiles n) as [content Hc]; [by left | done |].
      destruct (remove_entry n _ _ _ _ Hl Hc) as (Hfile & t' & Hr & Hl').
      set (st1 := set_root t' (emit (Remove (cwd st ++ [installspace args; "bin"; n])) st)).
      assert (Hstep : os_remove ([installspace args; "bin"] ++ [n]) st = (Ok tt, st1)).
      { rewrite <- app_assoc in Hfile, Hr.
        unfold os_remove, resolve, bind, get, do, modify.
        cbn [fst snd]. rewrite Hfile, Hr. reflexivity. }
      destruct (IH (FS.drop n es) st1) as (st' & Hrun & Hl'' & Hcwd & Hhist); [done..| |].
      { intros n' Hn' Hu'. destruct (Hfiles n') as [c' Hc']; [by right | done|].
        exists c'. rewrite assoc_drop_ne; [done|]. intros ->. done. }
      exists st'. rewrite (bind_Ok _ _ _ _ _ Hstep). split; [exact Hrun|].
      split; [exact Hl''|]. split; [exact Hcwd|].
      rewrite Hhist. unfold history, st1. simpl. rewrite reverse_cons, <- app_assoc.
      reflexivity.
    + destruct (IH es st) as (st' & Hrun & Hl'' & Hcwd & Hhist); [done..| |].
      { intros n' Hn' Hu'. apply Hfiles; [by right | done]. }
      exists st'. unfold bind at 1. unfold ret at 1. by repeat split.
Qed.

(** X12: with [install/bin] a directory in which no name occurs twice
    and in which the entries that are not wanted (a name holding [__rmw_],
    or starting with [simple_bridge] or [static_bridge]) are files, the
    removal comes back normally, removes exactly those entries, one
    [os.remove] each in listing order, and leaves every other entry of the
    directory as it was. *)
Theorem remove_executables_removes_exactly (args : Args) (st : proc)
    (es : list (string * FS.node)) :
  FS.lookup (cwd st ++ [installspace args; "bin"]) (root st) = Some (FS.Dir es) →
  NoDup (es.*1) →
  (∀ n c, (n, c) ∈ es → unnecessary n = true → FS.is_file c = true) →
  ∃ st',
    remove_executables args st = (Ok tt, st') ∧
    FS.lookup (cwd st ++ [installspace args; "bin"]) (root st') =
      Some (FS.Dir (List.filter (fun e => negb (unnecessary e.1)) es)) ∧
    history st' =
      history st ++
      ((fun n => Remove (cwd st ++ [installspace args; "bin"; n]))
         <$> List.filter unnecessary (es.*1)).
Proof.
  intros Hl Hnd Hfiles.
  destruct (remove_loop args (es.*1) es st Hl Hnd) as (st' & Hrun & Hl' & _ & Hhist).
  { intros n Hn Hu. apply list_elem_of_fmap in Hn as ([n' c] & -> & Hin). simpl in *.
    specialize (Hfiles _ _ Hin Hu). destruct c as [content|]; [|done].
    exists content. by apply assoc_elem_of. }
  exists st'. split; [|split; [|exact Hhist]].
  - unfold remove_executables, os_listdir, resolve, FS.listdir.
    unfold bind at 1 2 3. unfold get. simpl. rewrite Hl. simpl.
    replace (map fst es) with (es.*1); [exact Hrun|].
    clear. induction es as [|e es IH]; done.
  - rewrite Hl'. do 2 f_equal. apply sweep_filter.
    intros e He _. apply list_elem_of_fmap. by exists e.
Qed.

Lemma remove_executables_removes_exactly_witness :
  let args := Sample.package_args "linux" in
  let st := Sample.package_start in
  let es := [("talker", FS.File "elf"); ("talker__rmw_opensplice", FS.File "elf");
             ("static_bridge", FS.File "elf")] in
  (FS.lookup (cwd st ++ [installspace args; "bin"]) (root st) = Some (FS.Dir es) ∧
   NoDup (es.*1) ∧
   (∀ n c, (n, c) ∈ es → unnecessary n = true → FS.is_file c = true)) ∧
  ∃ st',
    remove_executables args st = (Ok tt, st') ∧
    FS.lookup (cwd st ++ [installspace args; "bin"]) (root st') =
      Some (FS.Dir (List.filter (fun e => negb (unnecessary e.1)) es)) ∧
    history st' =
      history st ++
      ((fun n => Remove (cwd st ++ [installspace args; "bin"; n]))
         <$> List.filter unnecessary (es.*1)).
Proof.
  intros args st es.
  assert (Hl : FS.lookup (cwd st ++ [installspace args; "bin"]) (root st)
               = Some (FS.Dir es)) by reflexivity.
  assert (Hnd : NoDup (es.*1)) by compute_done.
  assert (Hfiles : ∀ n c, (n, c) ∈ es → unnecessary n = true → FS.is_file c = true).
  { intros n c Hin _. unfold es in Hin.
    repeat (apply elem_of_cons in Hin as [[= -> ->] | Hin]; [reflexivity|]).
    by apply elem_of_nil in Hin. }
  split; [auto|].
  exact (remove_executables_removes_exactly args st es Hl Hnd Hfiles).
Defined.

(** X13: when [install/bin] is not there, or is a file, [os.listdir]
    fails: the stage stops with that error before anything is removed, and
    what comes next, the archive, is never reached. *)
Theorem remove_executables_without_bin (args : Args) (st : proc) :
  (∀ es, FS.lookup (cwd st ++ [installspace args; "bin"]) (root st) ≠ Some (FS.Dir es)) →
  ∀ (B : Type) (next : unit → M B),
    bind (remove_executables args) next st = (Raised "OSError", st).
Proof.
  intros Hbin B next.
  apply bind_Raised. unfold remove_executables, os_listdir, resolve, FS.listdir.
  unfold bind, get. simpl.
  destruct (FS.lookup (cwd st ++ [installspace args; "bin"]) (root st))
    as [[content|es]|] eqn:Hl; [done | by destruct (Hbin es) | done].
Qed.

Lemma remove_executables_without_bin_witness :
  let args := Sample.package_args "linux" in
  let st := mkProc ["ws"] ∅ (FS.Dir [("ws", FS.Dir [("install", FS.Dir [])])])
                   [] "python" 0 [] in
  (∀ es, FS.lookup (cwd st ++ [installspace args; "bin"]) (root st) ≠ Some (FS.Dir es)) ∧
  bind (remove_executables args) (fun _ => create_archive args) st
    = (Raised "OSError", st).
Proof.
  intros args st.
  assert (Hbin : ∀ es, FS.lookup (cwd st ++ [installspace args; "bin"]) (root st)
                       ≠ Some (FS.Dir es)) by (intros es; discriminate).
  split; [exact Hbin|].
  exact (remove_executables_without_bin args st Hbin unit (fun _ => create_archive args)).
Defined.

(** ** The members of an archive *)

Lemma zip_and_tar_same_members_aux (tree : FS.node) (installspace_ folder : string) :
  FS.is_file tree = false → well_formed tree → entry_name folder →
  zip_walk tree installspace_ folder ≡ₚ tar_add tree [folder].
Proof.
  intros Hdir Hwf Hfolder. unfold zip_walk.
  rewrite (zip_walk_tar_add installspace_ folder Hfolder tree Hwf []) by constructor.
  by destruct tree.
Qed.

(** X14: for one and the same install tree the zip branch and the tar
    branch put the same members into the archive, each under the folder
    name it is given: the walk of lines 102-109 with its [relpath] and the
    normalising [ZipFile.write] names every directory and every file just
    as the recursive [TarFile.add] of line 90 does; only the order
    differs (the walk lists the files of a directory before it goes into
    its subdirectories). *)
Theorem zip_and_tar_same_members (tree : FS.node) (installspace_ folder : string) :
  FS.is_file tree = false → well_formed tree → entry_name folder →
  zip_walk tree installspace_ folder ≡ₚ tar_add tree [folder].
Proof. apply zip_and_tar_same_members_aux. Qed.

Lemma zip_and_tar_same_members_witness :
  (FS.is_file Sample.install_tree = false ∧ well_formed Sample.install_tree ∧
   entry_name "ros2-windows") ∧
  zip_walk Sample.install_tree "install" "ros2-windows"
    ≡ₚ tar_add Sample.install_tree ["ros2-windows"].
Proof.
  assert (Hdir : FS.is_file Sample.install_tree = false) by reflexivity.
  assert (Hwf : well_formed Sample.install_tree).
  { simpl. repeat split; try discriminate; compute_done. }
  assert (Hf : entry_name "ros2-windows") by (repeat split; discriminate).
  split; [auto|].
  exact (zip_and_tar_same_members Sample.install_tree "install" "ros2-windows" Hdir Hwf Hf).
Defined.

Lemma tar_add_names_below t : well_formed t → ∀ arcname name,
  name ∈ (tar_add t arcname).*1 → ∃ p, name = arcname ++ p.
Proof.
  intros Hwf arcname name Hin.
  apply list_elem_of_fmap in Hin as ([q d] & -> & Hin).
  apply (tar_add_elem_of t Hwf) in Hin as (p & -> & _). by exists p.
Qed.

Lemma tar_add_names_NoDup t :
  well_formed t → ∀ arcname, NoDup (tar_add t arcname).*1.
Proof.
  induction t as [content|es IH] using node_induction; intros Hwf arcname.
  - simpl. apply NoDup_singleton.
  - apply well_formed_Dir in Hwf as [Hnd Hwf].
    rewrite tar_add_Dir, fmap_cons. simpl. apply NoDup_cons. split.
    + intros Hin. apply list_elem_of_fmap in Hin as ([q d] & Hq & Hin). simpl in Hq. subst q.
      apply list_elem_of_bind in Hin as ([n c] & Hin & He). simpl in Hin.
      rewrite Forall_forall in Hwf. destruct (Hwf _ He) as [_ Hc]. simpl in Hc.
      apply (tar_add_elem_of c Hc) in Hin as (p & Hp & _).
      apply (f_equal length) in Hp. rewrite !length_app in Hp. simpl in Hp. lia.
    + induction es as [|[n c] es IHes]; [constructor|].
      apply Forall_cons in IH as [IHc IH]. apply Forall_cons in Hwf as [[Hn Hc] Hwf].
      apply NoDup_cons in Hnd as [Hfresh Hnd]. simpl in IHc, Hc, Hfresh.
      rewrite bind_cons, fmap_app. cbn [fst snd]. apply NoDup_app. split; [|split].
      * by apply IHc.
      * intros name Hl Hr.
        apply (tar_add_names_below c Hc) in Hl as (p & ->).
        apply list_elem_of_fmap in Hr as ([q d] & Hq & Hr). simpl in Hq. subst q.
        apply list_elem_of_bind in Hr as ([n' c'] & Hr & He). simpl in Hr.
        rewrite Forall_forall in Hwf. destruct (Hwf _ He) as [_ Hc']. simpl in Hc'.
        apply (tar_add_elem_of c' Hc') in Hr as (p' & Hp' & _).
        rewrite <- !app_assoc in Hp'. apply app_inv_head in Hp'. simpl in Hp'.
        injection Hp' as -> _. apply Hfresh. apply list_elem_of_fmap. by exists (n', c').
      * by apply IHes.
Qed.

(** X15: in the archive of a well-formed tree no name occurs twice, the
    folder name itself is a member, a directory, and every member lies
    below it; this holds for the tar branch and for the zip branch. *)
Theorem archive_members_distinct (tree : FS.node) (installspace_ folder : string) :
  FS.is_file tree = false → well_formed tree → entry_name folder →
  let tar := tar_add tree [folder] in
  let zip := zip_walk tree installspace_ folder in
  (NoDup tar.*1 ∧ NoDup zip.*1) ∧
  (([folder], true) ∈ tar ∧ ([folder], true) ∈ zip) ∧
  (∀ name, name ∈ tar.*1 ∨ name ∈ zip.*1 → ∃ p, name = folder :: p).
Proof.
  intros Hdir Hwf Hfolder tar zip.
  assert (Hperm : zip ≡ₚ tar) by by apply zip_and_tar_same_members_aux.
  assert (Hnd : NoDup tar.*1) by by apply tar_add_names_NoDup.
  assert (Hroot : ([folder], true) ∈ tar).
  { destruct tree as [content|es]; [done|]. unfold tar. rewrite tar_add_Dir. by left. }
  split; [|split].
  - split; [done|]. by rewrite Hperm.
  - split; [done|]. by rewrite Hperm.
  - intros name [Hin | Hin].
    + by apply (tar_add_names_below tree Hwf [folder]).
    + rewrite Hperm in Hin. by apply (tar_add_names_below tree Hwf [folder]).
Qed.

Lemma archive_members_distinct_witness :
  let tree := Sample.install_tree in
  let tar := tar_add tree ["ros2-linux"] in
  let zip := zip_walk tree "install" "ros2-linux" in
  (FS.is_file tree = false ∧ well_formed tree ∧ entry_name "ros2-linux") ∧
  (NoDup tar.*1 ∧ NoDup zip.*1) ∧
  ((["ros2-linux"], true) ∈ tar ∧ (["ros2-linux"], true) ∈ zip) ∧
  (∀ name, name ∈ tar.*1 ∨ name ∈ zip.*1 → ∃ p, name = "ros2-linux" :: p).
Proof.
  intros tree tar zip.
  assert (Hdir : FS.is_file tree = false) by reflexivity.
  assert (Hwf : well_formed tree).
  { simpl. repeat split; try discriminate; compute_done. }
  assert (Hf : entry_name "ros2-linux") by (repeat split; discriminate).
  split; [auto|].
  exact (archive_members_distinct tree "install" "ros2-linux" Hdir Hwf Hf).
Defined.

(** ** The OpenCV libraries *)

(** A write leaves alone what lies on another branch of the tree. *)
Lemma lookup_write_apart a b c p q : a ≠ b → ∀ common t t',
  FS.write (common ++ a :: p) c t = Some t' →
  FS.lookup (common ++ b :: q) t' = FS.lookup (common ++ b :: q) t.
Proof.
  intros Hab. induction common as [|m common IH]; intros t t' Hw.
  - destruct t as [content|es]; [done|]. simpl app in *.
    rewrite !lookup_Dir. destruct p as [|x p].
    + simpl in Hw. injection Hw as <-. by rewrite lookup_Dir, assoc_put_ne.
    + rewrite write_deeper in Hw. destruct (FS.assoc a es) as [d|]; [|done].
      cbn [mbind option_bind] in Hw.
      destruct (FS.write (x :: p) c d) as [d'|]; [|done]. cbn [mbind option_bind] in Hw.
      injection Hw as <-. by rewrite lookup_Dir, assoc_put_ne.
  - change ((m :: common) ++ a :: p) with (m :: (common ++ a :: p)) in Hw.
    change ((m :: common) ++ b :: q) with (m :: (common ++ b :: q)).
    destruct t as [content|es]; [done|].
    destruct (common ++ a :: p) as [|x l] eqn:Hd; [by destruct common|].
    rewrite write_deeper in Hw. destruct (FS.assoc m es) as [d|] eqn:Hm; [|done].
    cbn [mbind option_bind] in Hw.
    destruct (FS.write (x :: l) c d) as [d'|] eqn:Hwd; [|done].
    cbn [mbind option_bind] in Hw. injection Hw as <-.
    rewrite !lookup_Dir, assoc_put_eq, Hm. cbn [mbind option_bind].
    by apply IH.
Qed.

Lemma bind_Ok_2 {A B} (m : M A) (k : M B) st a st1 b st2 :
  m st = (Ok a, st1) → k st1 = (Ok b, st2) → bind m (fun _ => k) st = (Ok b, st2).
Proof. intros Hm Hk. by rewrite (bind_Ok _ _ _ _ _ Hm). Qed.

Lemma shutil_copy_into_bin (args : Args) (st : proc) es content src name :
  FS.lookup (cwd st ++ [installspace args; "bin"]) (root st) = Some (FS.Dir es) →
  FS.lookup src (root st) = Some (FS.File content) →
  (∀ es', FS.assoc name es ≠ Some (FS.Dir es')) →
  ∃ t',
    shutil_copy src [installspace args; "bin"; name] st =
      (Ok tt, set_root t' (emit (Copy src (cwd st ++ [installspace args; "bin"; name])) st)) ∧
    FS.write ((cwd st ++ [installspace args; "bin"]) ++ [name]) (FS.File content) (root st)
      = Some t' ∧
    FS.lookup (cwd st ++ [installspace args; "bin"]) t' =
      Some (FS.Dir (FS.put name (FS.File content) es)).
Proof.
  intros Hbin Hsrc Hnodir.
  destruct (write_entry name (FS.File content) _ _ _ Hbin) as (t' & Hw & Hl').
  pose proof (lookup_entry name _ _ _ Hbin) as Hdst.
  exists t'. split; [|by split].
  rewrite <- app_assoc in Hw, Hdst. cbn [app] in Hw, Hdst.
  unfold shutil_copy, resolve, bind, get, do, modify. cbn [fst snd].
  rewrite Hsrc, Hdst.
  destruct (FS.assoc name es) as [[c0|es']|] eqn:Ha.
  - by rewrite Hw.
  - by destruct (Hnodir es').
  - by rewrite Hw.
Qed.

(** The four copies, one after the other: the trees they leave, and
    where the process stands after the last. *)
Lemma copy_opencv_run (args : Args) (st : proc) (es : list (string * FS.node))
    (core highgui : string) (common p q : FS.path) (a b : string) :
  FS.lookup (cwd st ++ [installspace args; "bin"]) (root st) = Some (FS.Dir es) →
  FS.lookup (opencv_libdir ++ ["opencv_core2412.dll"]) (root st) = Some (FS.File core) →
  FS.lookup (opencv_libdir ++ ["opencv_highgui2412.dll"]) (root st)
    = Some (FS.File highgui) →
  (∀ name es', name ∈ opencv_names → FS.assoc name es ≠ Some (FS.Dir es')) →
  a ≠ b → cwd st ++ [installspace args; "bin"] = common ++ a :: p →
  opencv_libdir = common ++ b :: q →
  let bin := cwd st ++ [installspace args; "bin"] in
  ∃ t1 t2 t3 t4 st',
    FS.write (bin ++ ["opencv_core2411.dll"]) (FS.File core) (root st) = Some t1 ∧
    FS.write (bin ++ ["opencv_core2412.dll"]) (FS.File core) t1 = Some t2 ∧
    FS.write (bin ++ ["opencv_highgui2411.dll"]) (FS.File highgui) t2 = Some t3 ∧
    FS.write (bin ++ ["opencv_highgui2412.dll"]) (FS.File highgui) t3 = Some t4 ∧
    copy_opencv args st = (Ok tt, st') ∧
    root st' = t4 ∧ cwd st' = cwd st ∧
    FS.lookup bin t4 =
      Some (FS.Dir
        (FS.put "opencv_highgui2412.dll" (FS.File highgui)
          (FS.put "opencv_highgui2411.dll" (FS.File highgui)
            (FS.put "opencv_core2412.dll" (FS.File core)
              (FS.put "opencv_core2411.dll" (FS.File core) es))))) ∧
    FS.lookup (opencv_libdir ++ ["opencv_core2412.dll"]) t4 = Some (FS.File core) ∧
    FS.lookup (opencv_libdir ++ ["opencv_highgui2412.dll"]) t4 = Some (FS.File highgui) ∧
    trace st' =
      [Copy (opencv_libdir ++ ["opencv_highgui2412.dll"])
            (cwd st ++ [installspace args; "bin"; "opencv_highgui2412.dll"]);
       Copy (opencv_libdir ++ ["opencv_highgui2412.dll"])
            (cwd st ++ [installspace args; "bin"; "opencv_highgui2411.dll"]);
       Copy (opencv_libdir ++ ["opencv_core2412.dll"])
            (cwd st ++ [installspace args; "bin"; "opencv_core2412.dll"]);
       Copy (opencv_libdir ++ ["opencv_core2412.dll"])
            (cwd st ++ [installspace args; "bin"; "opencv_core2411.dll"])] ++ trace st.
Proof.
  intros Hbin Hcore Hhigh Hnodir Hab Hbinpath Hlibpath bin.
  (* what one copy leaves of an origin *)
  assert (Hkeep : ∀ name content g t t',
    FS.write ((cwd st ++ [installspace args; "bin"]) ++ [name]) (FS.File content) t = Some t' →
    FS.lookup (opencv_libdir ++ [g]) t' = FS.lookup (opencv_libdir ++ [g]) t).
  { intros name content g t t' Hw. rewrite Hbinpath, Hlibpath in *.
    rewrite <- !app_assoc in *. simpl in *. by eapply lookup_write_apart. }
  assert (Hfile : ∀ name name' content es0,
    (∀ es', FS.assoc name es0 ≠ Some (FS.Dir es')) →
    ∀ es', FS.assoc name (FS.put name' (FS.File content) es0) ≠ Some (FS.Dir es')).
  { intros name name' content es0 H0 es'. destruct (decide (name' = name)) as [->|Hne].
    - by rewrite assoc_put_eq.
    - rewrite assoc_put_ne by done. apply H0. }
  assert (H1 : ∀ es', FS.assoc "opencv_core2411.dll" es ≠ Some (FS.Dir es'))
    by (intros es'; apply Hnodir; compute_done).
  assert (H2 : ∀ es', FS.assoc "opencv_core2412.dll" es ≠ Some (FS.Dir es'))
    by (intros es'; apply Hnodir; compute_done).
  assert (H3 : ∀ es', FS.assoc "opencv_highgui2411.dll" es ≠ Some (FS.Dir es'))
    by (intros es'; apply Hnodir; compute_done).
  assert (H4 : ∀ es', FS.assoc "opencv_highgui2412.dll" es ≠ Some (FS.Dir es'))
    by (intros es'; apply Hnodir; compute_done).
  destruct (shutil_copy_into_bin args st es core _ "opencv_core2411.dll" Hbin Hcore H1)
    as (t1 & Hc1 & Hw1 & Hb1).
  set (st1 := set_root t1 (emit _ st)) in Hc1.
  assert (Hcore1 : FS.lookup (opencv_libdir ++ ["opencv_core2412.dll"]) (root st1)
                   = Some (FS.File core))
    by (change (root st1) with t1; by rewrite (Hkeep _ _ _ _ _ Hw1)).
  assert (Hhigh1 : FS.lookup (opencv_libdir ++ ["opencv_highgui2412.dll"]) (root st1)
                   = Some (FS.File highgui))
    by (change (root st1) with t1; by rewrite (Hkeep _ _ _ _ _ Hw1)).
  destruct (shutil_copy_into_bin args st1 _ core _ "opencv_core2412.dll" Hb1 Hcore1
              (Hfile _ _ _ _ H2)) as (t2 & Hc2 & Hw2 & Hb2).
  set (st2 := set_root t2 (emit _ st1)) in Hc2.
  assert (Hcore2 : FS.lookup (opencv_libdir ++ ["opencv_core2412.dll"]) (root st2)
                   = Some (FS.File core))
    by (change (root st2) with t2; by rewrite (Hkeep _ _ _ _ _ Hw2)).
  assert (Hhigh2 : FS.lookup (opencv_libdir ++ ["opencv_highgui2412.dll"]) (root st2)
                   = Some (FS.File highgui))
    by (change (root st2) with t2; by rewrite (Hkeep _ _ _ _ _ Hw2)).
  destruct (shutil_copy_into_bin args st2 _ highgui _ "opencv_highgui2411.dll" Hb2 Hhigh2
              (Hfile _ _ _ _ (Hfile _ _ _ _ H3))) as (t3 & Hc3 & Hw3 & Hb3).
  set (st3 := set_root t3 (emit _ st2)) in Hc3.
  assert (Hcore3 : FS.lookup (opencv_libdir ++ ["opencv_core2412.dll"]) (root st3)
                   = Some (FS.File core))
    by (change (root st3) with t3; by rewrite (Hkeep _ _ _ _ _ Hw3)).
  assert (Hhigh3 : FS.lookup (opencv_libdir ++ ["opencv_highgui2412.dll"]) (root st3)
                   = Some (FS.File highgui))
    by (change (root st3) with t3; by rewrite (Hkeep _ _ _ _ _ Hw3)).
  destruct (shutil_copy_into_bin args st3 _ highgui _ "opencv_highgui2412.dll" Hb3 Hhigh3
              (Hfile _ _ _ _ (Hfile _ _ _ _ (Hfile _ _ _ _ H4)))) as (t4 & Hc4 & Hw4 & Hb4).
  set (st4 := set_root t4 (emit _ st3)) in Hc4.
  exists t1, t2, t3, t4, st4.
  split; [exact Hw1|]. split; [exact Hw2|]. split; [exact Hw3|]. split; [exact Hw4|].
  split; [|split; [done|split; [done|split; [exact Hb4|split; [|split]]]]].
  - unfold copy_opencv. simpl for_each.
    change ("opencv_core" +:+ "2412.dll") with "opencv_core2412.dll".
    change ("opencv_core" +:+ "2411.dll") with "opencv_core2411.dll".
    change ("opencv_highgui" +:+ "2412.dll") with "opencv_highgui2412.dll".
    change ("opencv_highgui" +:+ "2411.dll") with "opencv_highgui2411.dll".
    rewrite (bind_Ok _ _ _ _ _ (bind_Ok_2 _ _ _ _ _ _ _ Hc1 Hc2)).
    rewrite (bind_Ok _ _ _ _ _ (bind_Ok_2 _ _ _ _ _ _ _ Hc3 Hc4)).
    reflexivity.
  - by rewrite (Hkeep _ _ _ _ _ Hw4).
  - by rewrite (Hkeep _ _ _ _ _ Hw4).
  - reflexivity.
Qed.

(** X16: the copying of the OpenCV libraries puts four files into
    [install/bin], and both the file named [...2411.dll] and the file named
    [...2412.dll] of a library are copies of its one origin,
    [c:/opencv/build/x64/vc14/bin/...2412.dll]; every other entry of the
    directory stays as it was, and so do the origins. *)
Theorem copy_opencv_copies (args : Args) (st : proc) (es : list (string * FS.node))
    (core highgui : string) (common p q : FS.path) (a b : string) :
  FS.lookup (cwd st ++ [installspace args; "bin"]) (root st) = Some (FS.Dir es) →
  FS.lookup (opencv_libdir ++ ["opencv_core2412.dll"]) (root st) = Some (FS.File core) →
  FS.lookup (opencv_libdir ++ ["opencv_highgui2412.dll"]) (root st)
    = Some (FS.File highgui) →
  (∀ name es', name ∈ opencv_names → FS.assoc name es ≠ Some (FS.Dir es')) →
  a ≠ b → cwd st ++ [installspace args; "bin"] = common ++ a :: p →
  opencv_libdir = common ++ b :: q →
  ∃ st',
    copy_opencv args st = (Ok tt, st') ∧
    FS.lookup (cwd st ++ [installspace args; "bin"]) (root st') =
      Some (FS.Dir
        (FS.put "opencv_highgui2412.dll" (FS.File highgui)
          (FS.put "opencv_highgui2411.dll" (FS.File highgui)
            (FS.put "opencv_core2412.dll" (FS.File core)
              (FS.put "opencv_core2411.dll" (FS.File core) es))))) ∧
    FS.lookup (opencv_libdir ++ ["opencv_core2412.dll"]) (root st') = Some (FS.File core) ∧
    FS.lookup (opencv_libdir ++ ["opencv_highgui2412.dll"]) (root st')
      = Some (FS.File highgui) ∧
    history st' =
      history st ++
      [Copy (opencv_libdir ++ ["opencv_core2412.dll"])
            (cwd st ++ [installspace args; "bin"; "opencv_core2411.dll"]);
       Copy (opencv_libdir ++ ["opencv_core2412.dll"])
            (cwd st ++ [installspace args; "bin"; "opencv_core2412.dll"]);
       Copy (opencv_libdir ++ ["opencv_highgui2412.dll"])
            (cwd st ++ [installspace args; "bin"; "opencv_highgui2411.dll"]);
       Copy (opencv_libdir ++ ["opencv_highgui2412.dll"])
            (cwd st ++ [installspace args; "bin"; "opencv_highgui2412.dll"])].
Proof.
  intros Hbin Hcore Hhigh Hnodir Hab Hbinpath Hlibpath.
  destruct (copy_opencv_run args st es core highgui common p q a b
              Hbin Hcore Hhigh Hnodir Hab Hbinpath Hlibpath)
    as (t1 & t2 & t3 & t4 & st' & _ & _ & _ & _ & Hrun & Hroot & _ & Hb & Hc & Hh & Htr).
  exists st'. rewrite Hroot. repeat (split; [done|]).
  unfold history. rewrite Htr. simpl.
  rewrite !reverse_cons, <- !app_assoc. reflexivity.
Qed.

Lemma copy_opencv_copies_witness :
  let args := Sample.package_args "windows" in
  let st := SampleWindows.package_start in
  let es := [("talker", FS.File "elf"); ("talker__rmw_opensplice", FS.File "elf");
             ("static_bridge", FS.File "elf")] in
  (FS.lookup (cwd st ++ [installspace args; "bin"]) (root st) = Some (FS.Dir es) ∧
   FS.lookup (opencv_libdir ++ ["opencv_core2412.dll"]) (root st)
     = Some (FS.File "core 2.4.12") ∧
   FS.lookup (opencv_libdir ++ ["opencv_highgui2412.dll"]) (root st)
     = Some (FS.File "highgui 2.4.12") ∧
   (∀ name es', name ∈ opencv_names → FS.assoc name es ≠ Some (FS.Dir es')) ∧
   "J" ≠ "opencv" ∧
   cwd st ++ [installspace args; "bin"] = ["c:"] ++ "J" :: ["ws"; "install"; "bin"] ∧
   opencv_libdir = ["c:"] ++ "opencv" :: ["build"; "x64"; "vc14"; "bin"]) ∧
  ∃ st',
    copy_opencv args st = (Ok tt, st') ∧
    FS.lookup (cwd st ++ [installspace args; "bin"]) (root st') =
      Some (FS.Dir
        (FS.put "opencv_highgui2412.dll" (FS.File "highgui 2.4.12")
          (FS.put "opencv_highgui2411.dll" (FS.File "highgui 2.4.12")
            (FS.put "opencv_core2412.dll" (FS.File "core 2.4.12")
              (FS.put "opencv_core2411.dll" (FS.File "core 2.4.12") es))))) ∧
    FS.lookup (opencv_libdir ++ ["opencv_core2412.dll"]) (root st')
      = Some (FS.File "core 2.4.12") ∧
    FS.lookup (opencv_libdir ++ ["opencv_highgui2412.dll"]) (root st')
      = Some (FS.File "highgui 2.4.12") ∧
    history st' =
      history st ++
      [Copy (opencv_libdir ++ ["opencv_core2412.dll"])
            (cwd st ++ [installspace args; "bin"; "opencv_core2411.dll"]);
       Copy (opencv_libdir ++ ["opencv_core2412.dll"])
            (cwd st ++ [installspace args; "bin"; "opencv_core2412.dll"]);
       Copy (opencv_libdir ++ ["opencv_highgui2412.dll"])
            (cwd st ++ [installspace args; "bin"; "opencv_highgui2411.dll"]);
       Copy (opencv_libdir ++ ["opencv_highgui2412.dll"])
            (cwd st ++ [installspace args; "bin"; "opencv_highgui2412.dll"])].
Proof.
  intros args st es.
  assert (Hbin : FS.lookup (cwd st ++ [installspace args; "bin"]) (root st)
                 = Some (FS.Dir es)) by reflexivity.
  assert (Hcore : FS.lookup (opencv_libdir ++ ["opencv_core2412.dll"]) (root st)
                  = Some (FS.File "core 2.4.12")) by reflexivity.
  assert (Hhigh : FS.lookup (opencv_libdir ++ ["opencv_highgui2412.dll"]) (root st)
                  = Some (FS.File "highgui 2.4.12")) by reflexivity.
  assert (Hnodir : ∀ name es', name ∈ opencv_names → FS.assoc name es ≠ Some (FS.Dir es')).
  { intros name es' Hin. unfold opencv_names in Hin.
    repeat (apply elem_of_cons in Hin as [-> | Hin]; [discriminate|]).
    by apply elem_of_nil in Hin. }
  assert (Hab : "J" ≠ "opencv") by discriminate.
  assert (Hp : cwd st ++ [installspace args; "bin"]
               = ["c:"] ++ "J" :: ["ws"; "install"; "bin"]) by reflexivity.
  assert (Hq : opencv_libdir = ["c:"] ++ "opencv" :: ["build"; "x64"; "vc14"; "bin"])
    by reflexivity.
  split; [exact (conj Hbin (conj Hcore (conj Hhigh (conj Hnodir (conj Hab (conj Hp Hq))))))|].
  exact (copy_opencv_copies args st es _ _ _ _ _ _ _ Hbin Hcore Hhigh Hnodir Hab Hp Hq).
Defined.

(** ** The Windows package *)

Lemma put_put n c d es : FS.put n d (FS.put n c es) = FS.put n d es.
Proof.
  induction es as [|[m e] es IH]; simpl.
  - by rewrite bool_decide_eq_true_2.
  - case_bool_decide as Hm; simpl.
    + by rewrite bool_decide_eq_true_2.
    + by rewrite bool_decide_eq_false_2, IH.
Qed.

Lemma put_names x n c es :
  x ∈ fst <$> FS.put n c es → x = n ∨ x ∈ fst <$> es.
Proof.
  induction es as [|[m e] es IH]; simpl.
  - intros Hx. apply list_elem_of_singleton in Hx. by left.
  - case_bool_decide as Hm; simpl.
    + subst m. intros Hx. by right.
    + rewrite !elem_of_cons. intros [-> | Hx]; [right; by left|].
      destruct (IH Hx); [by left | right; by right].
Qed.

Lemma NoDup_put n c es : NoDup (fst <$> es) → NoDup (fst <$> FS.put n c es).
Proof.
  induction es as [|[m e] es IH]; simpl; intros Hnd.
  - apply NoDup_singleton.
  - apply NoDup_cons in Hnd as [Hm Hnd]. case_bool_decide as Hmn; simpl.
    + subst m. by apply NoDup_cons.
    + apply NoDup_cons. split; [|by apply IH].
      intros [-> | Hin]%put_names; done.
Qed.

Lemma Forall_put (P : string * FS.node → Prop) n c es :
  P (n, c) → Forall P es → Forall P (FS.put n c es).
Proof.
  intros Hn. induction 1 as [|[m e] es He Hes IH]; simpl.
  - by constructor.
  - case_bool_decide; by constructor.
Qed.

(** Replacing or adding an entry keeps a tree well formed. *)
Lemma well_formed_put n c es :
  entry_name n → well_formed c → well_formed (FS.Dir es) →
  well_formed (FS.Dir (FS.put n c es)).
Proof.
  intros Hn Hc. rewrite !well_formed_Dir. intros [Hnd Hall]. split.
  - by apply NoDup_put.
  - by apply Forall_put.
Qed.

Lemma well_formed_assoc n c es :
  well_formed (FS.Dir es) → FS.assoc n es = Some c → well_formed c.
Proof.
  rewrite well_formed_Dir. intros [Hnd Hall] Ha.
  apply assoc_elem_of in Ha; [|done].
  rewrite Forall_forall in Hall. by destruct (Hall _ Ha).
Qed.

(** Writing the entry [n] of the directory [m] of the directory at
    [dir]. *)
Lemma write_under_entry m n c : ∀ dir t ies es t',
  FS.lookup dir t = Some (FS.Dir ies) →
  FS.assoc m ies = Some (FS.Dir es) →
  FS.write ((dir ++ [m]) ++ [n]) c t = Some t' →
  FS.lookup dir t' = Some (FS.Dir (FS.put m (FS.Dir (FS.put n c es)) ies)).
Proof.
  induction dir as [|x dir IH]; intros t ies es t' Hl Hm Hw.
  - simpl in Hl. injection Hl as ->. simpl app in Hw.
    rewrite write_deeper, Hm in Hw. simpl in Hw. by injection Hw as <-.
  - destruct t as [content|es0]; [done|].
    rewrite lookup_Dir in Hl. destruct (FS.assoc x es0) as [d|] eqn:Hx; [|done].
    cbn [mbind option_bind] in Hl.
    change (((x :: dir) ++ [m]) ++ [n]) with (x :: ((dir ++ [m]) ++ [n])) in Hw.
    destruct ((dir ++ [m]) ++ [n]) as [|y l] eqn:Hd; [by destruct dir|].
    rewrite write_deeper, Hx in Hw. cbn [mbind option_bind] in Hw.
    destruct (FS.write (y :: l) c d) as [d'|] eqn:Hwd; [|done].
    cbn [mbind option_bind] in Hw. injection Hw as <-.
    rewrite lookup_Dir, assoc_put_eq. cbn [mbind option_bind].
    by eapply IH.
Qed.

(** X18: on Windows the package cannot be made without the OpenCV build.
    When [opencv_core2412.dll] is not a file of
    [c:/opencv/build/x64/vc14/bin], the archive stage fails with the
    exception of the first copy: nothing was copied, the archive file was
    not opened, no archive was written. *)
Theorem create_archive_without_opencv (args : Args) (st : proc) :
  os args = Some "windows" →
  (∀ content, FS.lookup (opencv_libdir ++ ["opencv_core2412.dll"]) (root st)
              ≠ Some (FS.File content)) →
  create_archive args st = (Raised "OSError", st).
Proof.
  intros Hos Hmissing. unfold create_archive, folder_name. rewrite Hos.
  unfold bind at 1. unfold ret at 1. cbn [orb bool_decide].
  rewrite (bool_decide_eq_false_2 (Some "windows" = Some "linux")) by discriminate.
  rewrite (bool_decide_eq_false_2 (Some "windows" = Some "osx")) by discriminate.
  rewrite (bool_decide_eq_true_2 (Some "windows" = Some "windows")) by reflexivity.
  cbn [orb]. unfold copy_opencv. simpl for_each.
  change ("opencv_core" +:+ "2412.dll") with "opencv_core2412.dll".
  assert (Hcopy : ∀ dst, shutil_copy (opencv_libdir ++ ["opencv_core2412.dll"]) dst st
                         = (Raised "OSError", st)).
  { intros dst. unfold shutil_copy, resolve, bind, get. cbn [fst snd].
    destruct (FS.lookup (opencv_libdir ++ ["opencv_core2412.dll"]) (root st))
      as [[content|es]|] eqn:Hl; [by destruct (Hmissing content) | done | done]. }
  unfold bind. by rewrite Hcopy.
Qed.

Lemma create_archive_without_opencv_witness :
  let args := Sample.package_args "windows" in
  let st := Sample.package_start in
  (os args = Some "windows" ∧
   (∀ content, FS.lookup (opencv_libdir ++ ["opencv_core2412.dll"]) (root st)
               ≠ Some (FS.File content))) ∧
  create_archive args st = (Raised "OSError", st).
Proof.
  intros args st.
  assert (Hos : os args = Some "windows") by reflexivity.
  assert (Hmissing : ∀ content,
    FS.lookup (opencv_libdir ++ ["opencv_core2412.dll"]) (root st)
    ≠ Some (FS.File content)) by (intros content; discriminate).
  split; [exact (conj Hos Hmissing)|].
  exact (create_archive_without_opencv args st Hos Hmissing).
Defined.

(** Lines 85-112 on Windows with the OpenCV build in place. *)
Lemma create_archive_windows_run (args : Args) (st : proc)
    (ies es : list (string * FS.node)) (core highgui : string)
    (common p q : FS.path) (a b : string) :
  os args = Some "windows" →
  FS.lookup (cwd st ++ [installspace args]) (root st) = Some (FS.Dir ies) →
  FS.assoc "bin" ies = Some (FS.Dir es) →
  well_formed (FS.Dir ies) →
  FS.lookup (opencv_libdir ++ ["opencv_core2412.dll"]) (root st) = Some (FS.File core) →
  FS.lookup (opencv_libdir ++ ["opencv_highgui2412.dll"]) (root st)
    = Some (FS.File highgui) →
  (∀ name es', name ∈ opencv_names → FS.assoc name es ≠ Some (FS.Dir es')) →
  a ≠ b → cwd st ++ [installspace args; "bin"] = common ++ a :: p →
  opencv_libdir = common ++ b :: q →
  (∀ es', FS.lookup (cwd st ++ ["ros2-package-windows.zip"]) (root st) ≠ Some (FS.Dir es')) →
  let shipped :=
    FS.Dir (FS.put "bin"
      (FS.Dir
        (FS.put "opencv_highgui2412.dll" (FS.File highgui)
          (FS.put "opencv_highgui2411.dll" (FS.File highgui)
            (FS.put "opencv_core2412.dll" (FS.File core)
              (FS.put "opencv_core2411.dll" (FS.File core) es))))) ies) in
  ∃ st',
    create_archive args st = (Ok tt, st') ∧
    history st' =
      history st ++
      [Copy (opencv_libdir ++ ["opencv_core2412.dll"])
            (cwd st ++ [installspace args; "bin"; "opencv_core2411.dll"]);
       Copy (opencv_libdir ++ ["opencv_core2412.dll"])
            (cwd st ++ [installspace args; "bin"; "opencv_core2412.dll"]);
       Copy (opencv_libdir ++ ["opencv_highgui2412.dll"])
            (cwd st ++ [installspace args; "bin"; "opencv_highgui2411.dll"]);
       Copy (opencv_libdir ++ ["opencv_highgui2412.dll"])
            (cwd st ++ [installspace args; "bin"; "opencv_highgui2412.dll"]);
       Touch (cwd st ++ ["ros2-package-windows.zip"]);
       WriteArchive "ros2-package-windows.zip"
         (zip_walk shipped (installspace args) "ros2-windows");
       Log "created archive: 'ros2-package-windows.zip'"] ∧
    FS.lookup (cwd st ++ [installspace args]) (root st') = Some shipped ∧
    well_formed shipped.
Proof.
  intros Hos Hinst Hbinent Hwf Hcore Hhigh Hnodir Hab Hbinpath Hlibpath Hfree shipped.
  assert (Hbin : FS.lookup (cwd st ++ [installspace args; "bin"]) (root st)
                 = Some (FS.Dir es)).
  { change (cwd st ++ [installspace args; "bin"])
      with (cwd st ++ [installspace args] ++ ["bin"]).
    rewrite app_assoc, (lookup_entry "bin" _ _ _ Hinst). exact Hbinent. }
  destruct (copy_opencv_run args st es core highgui common p q a b
              Hbin Hcore Hhigh Hnodir Hab Hbinpath Hlibpath)
    as (t1 & t2 & t3 & t4 & st1 & Hw1 & Hw2 & Hw3 & Hw4 & Hrun & Hroot & Hcwd & _ & _ & _ & Htr).
  (* the install space after the copies *)
  assert (Hpath : ∀ name, (cwd st ++ [installspace args; "bin"]) ++ [name]
                          = ((cwd st ++ [installspace args]) ++ ["bin"]) ++ [name]).
  { intros name. by rewrite <- !app_assoc. }
  rewrite Hpath in Hw1, Hw2, Hw3, Hw4.
  pose proof (write_under_entry _ _ _ _ _ _ _ _ Hinst Hbinent Hw1) as Hi1.
  pose proof (write_under_entry _ _ _ _ _ _ _ _ Hi1 (assoc_put_eq _ _ _) Hw2) as Hi2.
  rewrite put_put in Hi2.
  pose proof (write_under_entry _ _ _ _ _ _ _ _ Hi2 (assoc_put_eq _ _ _) Hw3) as Hi3.
  rewrite put_put in Hi3.
  pose proof (write_under_entry _ _ _ _ _ _ _ _ Hi3 (assoc_put_eq _ _ _) Hw4) as Hi4.
  rewrite put_put in Hi4. fold shipped in Hi4.
  (* the archive file is still free *)
  assert (Hne : installspace args ≠ "ros2-package-windows.zip").
  { intros Heq. rewrite Heq in Hinst. by destruct (Hfree ies). }
  assert (Hzip : FS.lookup (cwd st ++ ["ros2-package-windows.zip"]) t4
                 = FS.lookup (cwd st ++ ["ros2-package-windows.zip"]) (root st)).
  { assert (Hstep : ∀ name c t t',
      FS.write (((cwd st ++ [installspace args]) ++ ["bin"]) ++ [name]) c t = Some t' →
      FS.lookup (cwd st ++ ["ros2-package-windows.zip"]) t'
      = FS.lookup (cwd st ++ ["ros2-package-windows.zip"]) t).
    { intros name c t t' Hw. rewrite <- !app_assoc in Hw. cbn [app] in Hw.
      by eapply lookup_write_apart. }
    rewrite (Hstep _ _ _ _ Hw4), (Hstep _ _ _ _ Hw3), (Hstep _ _ _ _ Hw2).
    by rewrite (Hstep _ _ _ _ Hw1). }
  assert (Hinst1 : FS.lookup (cwd st1 ++ [installspace args]) (root st1) = Some shipped)
    by (by rewrite Hcwd, Hroot).
  assert (Hfree1 : ∀ es', FS.lookup (cwd st1 ++ ["ros2-package-windows.zip"]) (root st1)
                          ≠ Some (FS.Dir es')).
  { intros es'. rewrite Hcwd, Hroot, Hzip. apply Hfree. }
  destruct (touch_next_to "ros2-package-windows.zip" _ st1 shipped Hinst1 eq_refl Hfree1)
    as (t5 & Htouch & Hinst5).
  assert (Hwfs : well_formed shipped).
  { apply well_formed_put; [repeat split; discriminate | | done].
    assert (Hes : well_formed (FS.Dir es)) by (by eapply well_formed_assoc).
    repeat (apply well_formed_put; [repeat split; discriminate | done |]). done. }
  assert (Hwz : write_zip args "ros2-windows" st1 =
    (Ok "ros2-package-windows.zip",
     emit (WriteArchive "ros2-package-windows.zip"
             (zip_walk shipped (installspace args) "ros2-windows"))
       (set_root t5 (emit (Touch (cwd st1 ++ ["ros2-package-windows.zip"])) st1)))).
  { unfold write_zip. change zip_archive_path with "ros2-package-windows.zip".
    unfold bind at 1. rewrite Htouch.
    unfold resolve, bind, get, do, ret. cbn [fst snd root cwd set_root emit].
    by rewrite Hinst5. }
  eexists. split; [|split; [|split; [|exact Hwfs]]].
  - unfold create_archive, folder_name. rewrite Hos.
    unfold bind at 1. unfold ret at 1.
    rewrite (bool_decide_eq_false_2 (Some "windows" = Some "linux")) by discriminate.
    rewrite (bool_decide_eq_false_2 (Some "windows" = Some "osx")) by discriminate.
    rewrite (bool_decide_eq_true_2 (Some "windows" = Some "windows")) by reflexivity.
    cbn [orb]. change ("ros2-" +:+ "windows") with "ros2-windows".
    rewrite (bind_Ok _ _ _ _ _ (bind_Ok_2 _ _ _ _ _ _ _ Hrun Hwz)).
    reflexivity.
  - unfold history. simpl. rewrite Htr, Hcwd. simpl.
    rewrite !reverse_cons, <- !app_assoc. reflexivity.
  - cbn [root emit set_root]. by rewrite <- Hcwd.
Qed.

(** X19: the Windows package ships the OpenCV libraries.  With the two
    origins in place, the archive stage succeeds; the zip file it writes,
    extracted, gives under [ros2-windows] exactly the install space as the
    copies left it, and each of the four library names is a file of its
    [bin]. *)
Theorem windows_archive_ships_opencv (args : Args) (st : proc)
    (ies es : list (string * FS.node)) (core highgui : string)
    (common p q : FS.path) (a b : string) :
  os args = Some "windows" →
  FS.lookup (cwd st ++ [installspace args]) (root st) = Some (FS.Dir ies) →
  FS.assoc "bin" ies = Some (FS.Dir es) →
  well_formed (FS.Dir ies) →
  FS.lookup (opencv_libdir ++ ["opencv_core2412.dll"]) (root st) = Some (FS.File core) →
  FS.lookup (opencv_libdir ++ ["opencv_highgui2412.dll"]) (root st)
    = Some (FS.File highgui) →
  (∀ name es', name ∈ opencv_names → FS.assoc name es ≠ Some (FS.Dir es')) →
  a ≠ b → cwd st ++ [installspace args; "bin"] = common ++ a :: p →
  opencv_libdir = common ++ b :: q →
  (∀ es', FS.lookup (cwd st ++ ["ros2-package-windows.zip"]) (root st) ≠ Some (FS.Dir es')) →
  let shipped :=
    FS.Dir (FS.put "bin"
      (FS.Dir
        (FS.put "opencv_highgui2412.dll" (FS.File highgui)
          (FS.put "opencv_highgui2411.dll" (FS.File highgui)
            (FS.put "opencv_core2412.dll" (FS.File core)
              (FS.put "opencv_core2411.dll" (FS.File core) es))))) ies) in
  ∃ members st',
    create_archive args st = (Ok tt, st') ∧
    history st' =
      history st ++
      [Copy (opencv_libdir ++ ["opencv_core2412.dll"])
            (cwd st ++ [installspace args; "bin"; "opencv_core2411.dll"]);
       Copy (opencv_libdir ++ ["opencv_core2412.dll"])
            (cwd st ++ [installspace args; "bin"; "opencv_core2412.dll"]);
       Copy (opencv_libdir ++ ["opencv_highgui2412.dll"])
            (cwd st ++ [installspace args; "bin"; "opencv_highgui2411.dll"]);
       Copy (opencv_libdir ++ ["opencv_highgui2412.dll"])
            (cwd st ++ [installspace args; "bin"; "opencv_highgui2412.dll"]);
       Touch (cwd st ++ ["ros2-package-windows.zip"]);
       WriteArchive "ros2-package-windows.zip" members;
       Log "created archive: 'ros2-package-windows.zip'"] ∧
    (∀ name, name ∈ opencv_names →
       extractall members !! ["ros2-windows"; "bin"; name] = Some false) ∧
    (∀ q d, extractall members !! q = Some d ↔ under "ros2-windows" shipped q d).
Proof.
  intros Hos Hinst Hbinent Hwf Hcore Hhigh Hnodir Hab Hbinpath Hlibpath Hfree shipped.
  destruct (create_archive_windows_run args st ies es core highgui common p q a b
              Hos Hinst Hbinent Hwf Hcore Hhigh Hnodir Hab Hbinpath Hlibpath Hfree)
    as (st' & Hrun & Hhist & _ & Hwfs).
  assert (Hall : ∀ q d,
    extractall (zip_walk shipped (installspace args) "ros2-windows") !! q = Some d
    ↔ under "ros2-windows" shipped q d).
  { apply extractall_under; [done|]. apply zip_walk_under; [|done..].
    repeat split; discriminate. }
  exists (zip_walk shipped (installspace args) "ros2-windows"), st'.
  split; [exact Hrun|]. split; [exact Hhist|]. split; [|exact Hall].
  - intros name Hin. apply Hall. exists ["bin"; name]. split; [done|].
    exists (FS.File (if bool_decide (name = "opencv_core2411.dll")
                        || bool_decide (name = "opencv_core2412.dll")
                     then core else highgui)).
    split; [|done]. unfold shipped. rewrite lookup_Dir, assoc_put_eq.
    cbn [mbind option_bind]. rewrite lookup_Dir.
    unfold opencv_names in Hin.
    repeat (apply elem_of_cons in Hin as [-> | Hin];
            [repeat first [rewrite assoc_put_eq | rewrite assoc_put_ne by discriminate];
             reflexivity|]).
    by apply elem_of_nil in Hin.
Qed.

Lemma windows_archive_ships_opencv_witness :
  let args := Sample.package_args "windows" in
  let st := SampleWindows.package_start in
  let es := [("talker", FS.File "elf"); ("talker__rmw_opensplice", FS.File "elf");
             ("static_bridge", FS.File "elf")] in
  let ies := [("bin", FS.Dir es); ("lib", FS.Dir []); ("setup.sh", FS.File "sh")] in
  let shipped :=
    FS.Dir (FS.put "bin"
      (FS.Dir
        (FS.put "opencv_highgui2412.dll" (FS.File "highgui 2.4.12")
          (FS.put "opencv_highgui2411.dll" (FS.File "highgui 2.4.12")
            (FS.put "opencv_core2412.dll" (FS.File "core 2.4.12")
              (FS.put "opencv_core2411.dll" (FS.File "core 2.4.12") es))))) ies) in
  (os args = Some "windows" ∧
   FS.lookup (cwd st ++ [installspace args]) (root st) = Some (FS.Dir ies) ∧
   FS.assoc "bin" ies = Some (FS.Dir es) ∧
   well_formed (FS.Dir ies) ∧
   FS.lookup (opencv_libdir ++ ["opencv_core2412.dll"]) (root st)
     = Some (FS.File "core 2.4.12") ∧
   FS.lookup (opencv_libdir ++ ["opencv_highgui2412.dll"]) (root st)
     = Some (FS.File "highgui 2.4.12") ∧
   (∀ name es', name ∈ opencv_names → FS.assoc name es ≠ Some (FS.Dir es')) ∧
   "J" ≠ "opencv" ∧
   cwd st ++ [installspace args; "bin"] = ["c:"] ++ "J" :: ["ws"; "install"; "bin"] ∧
   opencv_libdir = ["c:"] ++ "opencv" :: ["build"; "x64"; "vc14"; "bin"] ∧
   (∀ es', FS.lookup (cwd st ++ ["ros2-package-windows.zip"]) (root st)
           ≠ Some (FS.Dir es'))) ∧
  ∃ members st',
    create_archive args st = (Ok tt, st') ∧
    history st' =
      history st ++
      [Copy (opencv_libdir ++ ["opencv_core2412.dll"])
            (cwd st ++ [installspace args; "bin"; "opencv_core2411.dll"]);
       Copy (opencv_libdir ++ ["opencv_core2412.dll"])
            (cwd st ++ [installspace args; "bin"; "opencv_core2412.dll"]);
       Copy (opencv_libdir ++ ["opencv_highgui2412.dll"])
            (cwd st ++ [installspace args; "bin"; "opencv_highgui2411.dll"]);
       Copy (opencv_libdir ++ ["opencv_highgui2412.dll"])
            (cwd st ++ [installspace args; "bin"; "opencv_highgui2412.dll"]);
       Touch (cwd st ++ ["ros2-package-windows.zip"]);
       WriteArchive "ros2-package-windows.zip" members;
       Log "created archive: 'ros2-package-windows.zip'"] ∧
    (∀ name, name ∈ opencv_names →
       extractall members !! ["ros2-windows"; "bin"; name] = Some false) ∧
    (∀ q d, extractall members !! q = Some d ↔ under "ros2-windows" shipped q d).
Proof.
  intros args st es ies shipped.
  assert (Hos : os args = Some "windows") by reflexivity.
  assert (Hinst : FS.lookup (cwd st ++ [installspace args]) (root st) = Some (FS.Dir ies))
    by reflexivity.
  assert (Hbinent : FS.assoc "bin" ies = Some (FS.Dir es)) by reflexivity.
  assert (Hwf : well_formed (FS.Dir ies)).
  { simpl. repeat split; try discriminate; compute_done. }
  assert (Hcore : FS.lookup (opencv_libdir ++ ["opencv_core2412.dll"]) (root st)
                  = Some (FS.File "core 2.4.12")) by reflexivity.
  assert (Hhigh : FS.lookup (opencv_libdir ++ ["opencv_highgui2412.dll"]) (root st)
                  = Some (FS.File "highgui 2.4.12")) by reflexivity.
  assert (Hnodir : ∀ name es', name ∈ opencv_names → FS.assoc name es ≠ Some (FS.Dir es')).
  { intros name es' Hin. unfold opencv_names in Hin.
    repeat (apply elem_of_cons in Hin as [-> | Hin]; [discriminate|]).
    by apply elem_of_nil in Hin. }
  assert (Hab : "J" ≠ "opencv") by discriminate.
  assert (Hp : cwd st ++ [installspace args; "bin"]
               = ["c:"] ++ "J" :: ["ws"; "install"; "bin"]) by reflexivity.
  assert (Hq : opencv_libdir = ["c:"] ++ "opencv" :: ["build"; "x64"; "vc14"; "bin"])
    by reflexivity.
  assert (Hfree : ∀ es', FS.lookup (cwd st ++ ["ros2-package-windows.zip"]) (root st)
                         ≠ Some (FS.Dir es')) by (intros es'; discriminate).
  split.
  { exact (conj Hos (conj Hinst (conj Hbinent (conj Hwf (conj Hcore (conj Hhigh
            (conj Hnodir (conj Hab (conj Hp (conj Hq Hfree)))))))))). }
  exact (windows_archive_ships_opencv args st ies es _ _ _ _ _ _ _
           Hos Hinst Hbinent Hwf Hcore Hhigh Hnodir Hab Hp Hq Hfree).
Defined.

(** ** The archive round trip *)

Lemma keeps_cwd_touch p : keeps_cwd (touch p).
Proof. unfold touch, resolve. keeps_cwd_auto. Qed.

Lemma keeps_cwd_copy_opencv args : keeps_cwd (copy_opencv args).
Proof. unfold copy_opencv, shutil_copy, resolve. keeps_cwd_auto. Qed.

(** Lines 91-109 whenever they succeed: the zip file is written from the
    install space as it is by then. *)
Lemma create_archive_windows_sound (args : Args) (st st' : proc) (tree : FS.node) :
  os args = Some "windows" →
  create_archive args st = (Ok tt, st') →
  FS.lookup (cwd st ++ [installspace args]) (root st') = Some tree →
  FS.is_file tree = false → well_formed tree →
  ∃ members earlier,
    history st' =
      earlier ++
      [Touch (cwd st ++ ["ros2-package-windows.zip"]);
       WriteArchive "ros2-package-windows.zip" members;
       Log "created archive: 'ros2-package-windows.zip'"] ∧
    ∀ q d, extractall members !! q = Some d ↔ under "ros2-windows" tree q d.
Proof.
  intros Hos Hrun Hl Hdir Hwf.
  unfold create_archive, folder_name in Hrun. rewrite Hos in Hrun.
  unfold bind at 1 in Hrun. unfold ret at 1 in Hrun.
  rewrite (bool_decide_eq_false_2 (Some "windows" = Some "linux")) in Hrun by discriminate.
  rewrite (bool_decide_eq_false_2 (Some "windows" = Some "osx")) in Hrun by discriminate.
  rewrite (bool_decide_eq_true_2 (Some "windows" = Some "windows")) in Hrun by reflexivity.
  cbn [orb] in Hrun. change ("ros2-" +:+ "windows") with "ros2-windows" in Hrun.
  rewrite bind_assoc in Hrun.
  pose proof (keeps_cwd_copy_opencv args st) as Hcwd1.
  destruct (copy_opencv args st) as [[[]|e|x] s1] eqn:Hcopy; cbn [snd] in Hcwd1;
    [|by rewrite (bind_SysExit _ _ _ _ _ Hcopy) in Hrun
     |by rewrite (bind_Raised _ _ _ _ _ Hcopy) in Hrun].
  rewrite (bind_Ok _ _ _ _ _ Hcopy) in Hrun.
  unfold write_zip in Hrun. change zip_archive_path with "ros2-package-windows.zip" in Hrun.
  rewrite !bind_assoc in Hrun.
  pose proof (keeps_cwd_touch ["ros2-package-windows.zip"] s1) as Hcwd2.
  assert (Htr : ∀ r s2, touch ["ros2-package-windows.zip"] s1 = (r, s2) → r = Ok tt →
                trace s2 = Touch (cwd s1 ++ ["ros2-package-windows.zip"]) :: trace s1).
  { intros r s2. unfold touch, resolve, bind, get, do, modify, raise. cbn [fst snd].
    destruct (FS.lookup (cwd s1 ++ ["ros2-package-windows.zip"]) (root s1)) as [[?|?]|];
      try destruct (FS.write (cwd s1 ++ ["ros2-package-windows.zip"]) (FS.File "") (root s1));
      intros [= <- <-]; done. }
  destruct (touch ["ros2-package-windows.zip"] s1) as [[[]|e|x] s2] eqn:Htouch;
    cbn [snd] in Hcwd2;
    [|by rewrite (bind_SysExit _ _ _ _ _ Htouch) in Hrun
     |by rewrite (bind_Raised _ _ _ _ _ Htouch) in Hrun].
  rewrite (bind_Ok _ _ _ _ _ Htouch) in Hrun.
  specialize (Htr _ _ eq_refl eq_refl).
  unfold resolve, bind, get, do, ret in Hrun. cbn [fst snd] in Hrun.
  injection Hrun as <-. cbn [root emit] in Hl.
  rewrite Hcwd2, Hcwd1, Hl. rewrite Hcwd1 in Htr.
  exists (zip_walk tree (installspace args) "ros2-windows"), (history s1). split.
  - unfold history. cbn [trace emit]. rewrite Htr, !reverse_cons, <- !app_assoc. reflexivity.
  - apply extractall_under; [done|]. apply zip_walk_under; [|done..].
    repeat split; discriminate.
Qed.

(** C8: the archive has the name [ros2-package-<os>.tar.bz2] (linux,
    osx) or [ros2-package-windows.zip], and extracting it into an empty
    directory leaves exactly the install tree as it is when the archive is
    assembled, under the one root [ros2-<os>]: a path is there after the
    extraction, as a directory or as a file, exactly when it is [ros2-<os>]
    followed by a path of that tree that is a directory, or a file, there.
    On linux and osx the tree is the install space the stage finds.  On
    windows the stage first copies the OpenCV libraries into it (lines
    93-100): whenever the stage succeeds the archive is that of the install
    space as it then is, and with the libraries in place the stage does
    succeed. *)
Theorem archive_round_trip (args : Args) (st : proc) :
  (* linux and osx *)
  (∀ tree o,
     FS.lookup (cwd st ++ [installspace args]) (root st) = Some tree →
     FS.is_file tree = false → well_formed tree →
     o ∈ ["linux"; "osx"] → os args = Some o →
     let name := "ros2-package-" +:+ o +:+ ".tar.bz2" in
     (∀ es, FS.lookup (cwd st ++ [name]) (root st) ≠ Some (FS.Dir es)) →
     ∃ members st',
       create_archive args st = (Ok tt, st') ∧
       history st' =
         history st ++
         [Touch (cwd st ++ [name]); WriteArchive name members;
          Log ("created archive: '" +:+ name +:+ "'")] ∧
       ∀ q d, extractall members !! q = Some d ↔ under ("ros2-" +:+ o) tree q d) ∧
  (* windows, whenever the archive is made *)
  (∀ tree st',
     os args = Some "windows" →
     create_archive args st = (Ok tt, st') →
     FS.lookup (cwd st ++ [installspace args]) (root st') = Some tree →
     FS.is_file tree = false → well_formed tree →
     ∃ members earlier,
       history st' =
         earlier ++
         [Touch (cwd st ++ ["ros2-package-windows.zip"]);
          WriteArchive "ros2-package-windows.zip" members;
          Log "created archive: 'ros2-package-windows.zip'"] ∧
       ∀ q d, extractall members !! q = Some d ↔ under "ros2-windows" tree q d) ∧
  (* windows, with the OpenCV build in place the archive is made *)
  (∀ ies es core highgui common p q a b,
     os args = Some "windows" →
     FS.lookup (cwd st ++ [installspace args]) (root st) = Some (FS.Dir ies) →
     FS.assoc "bin" ies = Some (FS.Dir es) →
     well_formed (FS.Dir ies) →
     FS.lookup (opencv_libdir ++ ["opencv_core2412.dll"]) (root st) = Some (FS.File core) →
     FS.lookup (opencv_libdir ++ ["opencv_highgui2412.dll"]) (root st)
       = Some (FS.File highgui) →
     (∀ name es', name ∈ opencv_names → FS.assoc name es ≠ Some (FS.Dir es')) →
     a ≠ b → cwd st ++ [installspace args; "bin"] = common ++ a :: p →
     opencv_libdir = common ++ b :: q →
     (∀ es', FS.lookup (cwd st ++ ["ros2-package-windows.zip"]) (root st)
             ≠ Some (FS.Dir es')) →
     let shipped :=
       FS.Dir (FS.put "bin"
         (FS.Dir
           (FS.put "opencv_highgui2412.dll" (FS.File highgui)
             (FS.put "opencv_highgui2411.dll" (FS.File highgui)
               (FS.put "opencv_core2412.dll" (FS.File core)
                 (FS.put "opencv_core2411.dll" (FS.File core) es))))) ies) in
     ∃ st',
       create_archive args st = (Ok tt, st') ∧
       FS.lookup (cwd st ++ [installspace args]) (root st') = Some shipped ∧
       well_formed shipped).
Proof.
  split; [|split].
  - intros tree o Hl Hdir Hwf Ho Hos name Hfree.
    destruct (touch_next_to name _ st tree Hl Hdir Hfree) as (t' & Htouch & Hl').
    exists (tar_add tree ["ros2-" +:+ o]). eexists. split; [|split].
    + unfold create_archive, folder_name, write_tar. rewrite Hos.
      assert (Hb : bool_decide (Some o = Some "linux") || bool_decide (Some o = Some "osx") = true).
      { apply elem_of_cons in Ho as [-> | Ho]; [done|].
        apply list_elem_of_singleton in Ho as ->. done. }
      rewrite Hb. unfold bind at 1. unfold ret at 1.
      cbn [default]. fold name.
      change (tar_archive_path (id o)) with name. unfold bind. rewrite Htouch.
      unfold resolve, get, do, ret; simpl. rewrite Hl'. reflexivity.
    + unfold history. simpl. rewrite !reverse_cons, <- !app_assoc. reflexivity.
    + apply extractall_under; [done|]. by apply tar_add_under.
  - intros tree st' Hos Hrun Hl Hdir Hwf.
    by eapply create_archive_windows_sound.
  - intros ies es core highgui common p q a b
      Hos Hinst Hbinent Hwf Hcore Hhigh Hnodir Hab Hbinpath Hlibpath Hfree shipped.
    destruct (create_archive_windows_run args st ies es core highgui common p q a b
                Hos Hinst Hbinent Hwf Hcore Hhigh Hnodir Hab Hbinpath Hlibpath Hfree)
      as (st' & Hrun & _ & Hl & Hwfs).
    exists st'. split; [exact Hrun|]. split; [exact Hl | exact Hwfs].
Qed.

Lemma archive_round_trip_witness :
  (* a Linux job *)
  (let args := Sample.package_args "linux" in
   let st := Sample.package_start in
   let tree := Sample.install_tree in
   let name := "ros2-package-" +:+ "linux" +:+ ".tar.bz2" in
   (FS.lookup (cwd st ++ [installspace args]) (root st) = Some tree ∧
    FS.is_file tree = false ∧ well_formed tree ∧
    "linux" ∈ ["linux"; "osx"] ∧ os args = Some "linux" ∧
    (∀ es, FS.lookup (cwd st ++ [name]) (root st) ≠ Some (FS.Dir es))) ∧
   ∃ members st',
     create_archive args st = (Ok tt, st') ∧
     history st' =
       history st ++
       [Touch (cwd st ++ [name]); WriteArchive name members;
        Log ("created archive: '" +:+ name +:+ "'")] ∧
     ∀ q d, extractall members !! q = Some d ↔ under ("ros2-" +:+ "linux") tree q d) ∧
  (* a Windows job *)
  (let args := Sample.package_args "windows" in
   let st := SampleWindows.package_start in
   let es := [("talker", FS.File "elf"); ("talker__rmw_opensplice", FS.File "elf");
              ("static_bridge", FS.File "elf")] in
   let ies := [("bin", FS.Dir es); ("lib", FS.Dir []); ("setup.sh", FS.File "sh")] in
   let shipped :=
     FS.Dir (FS.put "bin"
       (FS.Dir
         (FS.put "opencv_highgui2412.dll" (FS.File "highgui 2.4.12")
           (FS.put "opencv_highgui2411.dll" (FS.File "highgui 2.4.12")
             (FS.put "opencv_core2412.dll" (FS.File "core 2.4.12")
               (FS.put "opencv_core2411.dll" (FS.File "core 2.4.12") es))))) ies) in
   (os args = Some "windows" ∧
    FS.lookup (cwd st ++ [installspace args]) (root st) = Some (FS.Dir ies) ∧
    FS.assoc "bin" ies = Some (FS.Dir es) ∧
    well_formed (FS.Dir ies) ∧
    FS.lookup (opencv_libdir ++ ["opencv_core2412.dll"]) (root st)
      = Some (FS.File "core 2.4.12") ∧
    FS.lookup (opencv_libdir ++ ["opencv_highgui2412.dll"]) (root st)
      = Some (FS.File "highgui 2.4.12") ∧
    (∀ name es', name ∈ opencv_names → FS.assoc name es ≠ Some (FS.Dir es')) ∧
    "J" ≠ "opencv" ∧
    cwd st ++ [installspace args; "bin"] = ["c:"] ++ "J" :: ["ws"; "install"; "bin"] ∧
    opencv_libdir = ["c:"] ++ "opencv" :: ["build"; "x64"; "vc14"; "bin"] ∧
    (∀ es', FS.lookup (cwd st ++ ["ros2-package-windows.zip"]) (root st)
            ≠ Some (FS.Dir es'))) ∧
   ∃ st' members earlier,
     create_archive args st = (Ok tt, st') ∧
     FS.lookup (cwd st ++ [installspace args]) (root st') = Some shipped ∧
     history st' =
       earlier ++
       [Touch (cwd st ++ ["ros2-package-windows.zip"]);
        WriteArchive "ros2-package-windows.zip" members;
        Log "created archive: 'ros2-package-windows.zip'"] ∧
     ∀ q d, extractall members !! q = Some d ↔ under "ros2-windows" shipped q d).
Proof.
  split.
  - intros args st tree name.
    assert (Hl : FS.lookup (cwd st ++ [installspace args]) (root st) = Some tree)
      by reflexivity.
    assert (Hdir : FS.is_file tree = false) by reflexivity.
    assert (Hwf : well_formed tree).
    { simpl. repeat split; try discriminate; compute_done. }
    assert (Ho : "linux" ∈ ["linux"; "osx"]) by compute_done.
    assert (Hos : os args = Some "linux") by reflexivity.
    assert (Hfree : ∀ es, FS.lookup (cwd st ++ [name]) (root st) ≠ Some (FS.Dir es))
      by (intros es; discriminate).
    split; [exact (conj Hl (conj Hdir (conj Hwf (conj Ho (conj Hos Hfree)))))|].
    exact (proj1 (archive_round_trip args st) tree "linux" Hl Hdir Hwf Ho Hos Hfree).
  - intros args st es ies shipped.
    assert (Hos : os args = Some "windows") by reflexivity.
    assert (Hinst : FS.lookup (cwd st ++ [installspace args]) (root st) = Some (FS.Dir ies))
      by reflexivity.
    assert (Hbinent : FS.assoc "bin" ies = Some (FS.Dir es)) by reflexivity.
    assert (Hwf : well_formed (FS.Dir ies)).
    { simpl. repeat split; try discriminate; compute_done. }
    assert (Hcore : FS.lookup (opencv_libdir ++ ["opencv_core2412.dll"]) (root st)
                    = Some (FS.File "core 2.4.12")) by reflexivity.
    assert (Hhigh : FS.lookup (opencv_libdir ++ ["opencv_highgui2412.dll"]) (root st)
                    = Some (FS.File "highgui 2.4.12")) by reflexivity.
    assert (Hnodir : ∀ name es', name ∈ opencv_names → FS.assoc name es ≠ Some (FS.Dir es')).
    { intros name es' Hin. unfold opencv_names in Hin.
      repeat (apply elem_of_cons in Hin as [-> | Hin]; [discriminate|]).
      by apply elem_of_nil in Hin. }
    assert (Hab : "J" ≠ "opencv") by discriminate.
    assert (Hp : cwd st ++ [installspace args; "bin"]
                 = ["c:"] ++ "J" :: ["ws"; "install"; "bin"]) by reflexivity.
    assert (Hq : opencv_libdir = ["c:"] ++ "opencv" :: ["build"; "x64"; "vc14"; "bin"])
      by reflexivity.
    assert (Hfree : ∀ es', FS.lookup (cwd st ++ ["ros2-package-windows.zip"]) (root st)
                           ≠ Some (FS.Dir es')) by (intros es'; discriminate).
    split.
    { exact (conj Hos (conj Hinst (conj Hbinent (conj Hwf (conj Hcore (conj Hhigh
              (conj Hnodir (conj Hab (conj Hp (conj Hq Hfree)))))))))). }
    destruct (proj2 (proj2 (archive_round_trip args st)) ies es _ _ _ _ _ _ _
                Hos Hinst Hbinent Hwf Hcore Hhigh Hnodir Hab Hp Hq Hfree)
      as (st' & Hrun & Hl & Hwfs).
    destruct (proj1 (proj2 (archive_round_trip args st)) shipped st' Hos Hrun Hl eq_refl Hwfs)
      as (members & earlier & Hhist & Hall).
    exists st', members, earlier. auto.
Defined.
